(** * video-summarizer: the task-scoped progress-streaming pipeline

    A shallow embedding of [backend/main_api.py] (and of the parts of
    [main_openai.py] that differ from it): filename handling, the
    connection registry [active_connections], the progress reporter
    [send_status], the four synchronous stages, the deferred PDF stage,
    the [/process_video/] coordinator, the [/ws/{task_id}] handler and the
    [/download/{task_id}] handler.

    Conventions.
    - A Python [str] is a [string]; one [ascii] stands for one character.
    - A Python [dict] is a [gmap].
    - A coroutine is a function in the monad [M]: it threads the state of
      the process and either returns a value or raises an exception; the
      state reached when the exception is raised is kept, as in Python.
    - External collaborators (the upload object, moviepy, Whisper, the
      OpenAI client, pdfkit, the transport under a WebSocket) are fields of
      an environment record [Env]; nothing is assumed about what they
      answer. *)

From Stdlib Require Import Ascii QArith Qround.
From Stdlib Require PrimFloat Uint63.
From stdpp Require Import gmap strings list sorting pretty.

Local Open Scope Z_scope.

(** ** Python strings *)

Module PyStr.

(** [sub in s] *)
Fixpoint contains (sub s : string) : bool :=
  String.prefix sub s
  || match s with
     | EmptyString => false
     | String _ s' => contains sub s'
     end.

(** [s.replace(old, new)] for a non-empty [old]: scan from the left; at
    an occurrence of [old] emit [new] and resume after the occurrence
    ([skip] counts the characters of the occurrence still to pass). *)
Fixpoint replace_from (old new : string) (skip : nat) (s : string) : string :=
  match s with
  | EmptyString => EmptyString
  | String c s' =>
      match skip with
      | S k => replace_from old new k s'
      | O =>
          if String.prefix old s
          then new +:+ replace_from old new (Nat.pred (String.length old)) s'
          else String c (replace_from old new 0 s')
      end
  end.

Definition replace (old new s : string) : string := replace_from old new 0 s.

(** [s[:n]] *)
Fixpoint take (n : nat) (s : string) : string :=
  match n, s with
  | S k, String c s' => String c (take k s')
  | _, _ => EmptyString
  end.

(** [re.sub('[...]', '', s)] for a character class given as a predicate *)
Fixpoint remove_chars (cls : ascii -> bool) (s : string) : string :=
  match s with
  | EmptyString => EmptyString
  | String c s' =>
      if cls c then remove_chars cls s' else String c (remove_chars cls s')
  end.

(** [s.replace(a, b)] for single characters *)
Fixpoint replace_char (a b : ascii) (s : string) : string :=
  match s with
  | EmptyString => EmptyString
  | String c s' =>
      String (if Ascii.eqb c a then b else c) (replace_char a b s')
  end.

(** [s.startswith(p)], [s.endswith(p)] *)
Definition startswith (p s : string) : bool := String.prefix p s.

Fixpoint endswith_char (c : ascii) (s : string) : bool :=
  match s with
  | EmptyString => false
  | String d EmptyString => Ascii.eqb d c
  | String _ s' => endswith_char c s'
  end.

(** membership of a character *)
Fixpoint has_char (c : ascii) (s : string) : bool :=
  match s with
  | EmptyString => false
  | String d s' => Ascii.eqb d c || has_char c s'
  end.

End PyStr.

(** ** Paths *)

Definition UPLOAD_DIR : string := "downloads".

(** [os.path.join(a, b)] (posixpath) *)
Definition os_path_join (a b : string) : string :=
  if PyStr.startswith "/" b then b
  else if (String.eqb a EmptyString || PyStr.endswith_char "/" a)%bool then a +:+ b
  else a +:+ "/" +:+ b.

(** The character class of the regular expression in [sanitize_filename]:
    angle brackets, colon, double quote (code 34), slash, backslash, bar,
    question mark and star. *)
Definition invalid_char (c : ascii) : bool :=
  existsb (Ascii.eqb c) ["<"; ">"; ":"; "034"; "/"; "\"; "|"; "?"; "*"]%char.

(** [backend/main_api.py], [sanitize_filename] *)
Definition sanitize_filename (filename : string) : string :=
  PyStr.take 50 (PyStr.remove_chars invalid_char filename).

(** [main_openai.py], [sanitize_filename]: blanks become underscores before
    the cut. *)
Definition sanitize_filename_openai (filename : string) : string :=
  PyStr.take 50
    (PyStr.replace_char " " "_" (PyStr.remove_chars invalid_char filename)).

(** The three paths computed by [VideoProcessor.__init__]; [sanitize] is the
    [sanitize_filename] of the file the class lives in. *)
Definition video_path_of (sanitize : string -> string) (filename : string) : string :=
  os_path_join UPLOAD_DIR (sanitize filename).

Definition audio_path_of (sanitize : string -> string) (filename : string) : string :=
  PyStr.replace ".mp4" ".mp3" (video_path_of sanitize filename).

Definition pdf_path_of (task_id : string) : string :=
  os_path_join UPLOAD_DIR (task_id +:+ ".pdf").


(** ** Exceptions

    The classes the handlers distinguish; [OtherError] stands for every other
    subclass of [Exception] (an [OSError] of the file system, a decode error
    of moviepy, an API error of the OpenAI client, ...). *)

Inductive exn : Type :=
  | WebSocketDisconnect (reason : string)
  | RuntimeError (msg : string)
  | HTTPException (status_code : Z) (detail : string)
  | OtherError (msg : string).

(** [str(e)] *)
Definition str (e : exn) : string :=
  match e with
  | WebSocketDisconnect reason => reason
  | RuntimeError msg => msg
  | HTTPException status_code detail => pretty status_code +:+ ": " +:+ detail
  | OtherError msg => msg
  end.

Inductive Outcome (A : Type) : Type :=
  | Return (a : A)
  | Raise (e : exn).
Arguments Return {A} a.
Arguments Raise {A} e.

(** What an external call answers. *)
Inductive Reply (A : Type) : Type :=
  | Fine (a : A)
  | Fails (e : exn).
Arguments Fine {A} a.
Arguments Fails {A} e.

(** ** Data *)

Definition bytes := list Byte.byte.

(** The identity of a [WebSocket] object. *)
Definition Channel := nat.

(** The dictionary passed to [send_json]: the key [status] always, the key
    [progress] when the caller gave one. *)
Record StatusMessage : Type := {
  status : string;
  progress : option Z
}.

(** An [UploadFile]: its [filename] and what [await read()] answers. *)
Record UploadFile : Type := {
  filename : string;
  read : Reply bytes
}.

Record VideoProcessor : Type := {
  video_file : UploadFile;
  websocket : Channel;
  task_id : string;
  video_path : string;
  audio_path : string;
  pdf_path : string
}.

(** [VideoProcessor.__init__] *)
Definition new_VideoProcessor (sanitize : string -> string)
    (file : UploadFile) (ws : Channel) (tid : string) : VideoProcessor :=
  {| video_file := file;
     websocket := ws;
     task_id := tid;
     video_path := video_path_of sanitize (filename file);
     audio_path := audio_path_of sanitize (filename file);
     pdf_path := pdf_path_of tid |}.

(** A call registered with [background_tasks.add_task]: the bound method
    [processor.save_summary_as_pdf] and its argument. *)
Record BackgroundTask : Type := {
  task_processor : VideoProcessor;
  task_summary : string
}.

(** The result of [model.transcribe]: the keys [text] and [segments]; of a
    segment the code reads its [text] only. *)
Record Transcription : Type := {
  text : string;
  segments : list string
}.

(** What a call that writes a file does: it writes the whole file, or it
    raises, after having written nothing or a part. *)
Inductive FileWrite : Type :=
  | Written (content : bytes)
  | Broken (partial : option bytes) (e : exn).

(** What the other handlers of the process do to the registry while a
    coroutine is suspended: lines 202 and 210 of [websocket_endpoint], and
    the [pop] of another run's [send_status]. *)
Inductive RegistryEvent : Type :=
  | Opened (tid : string) (ws : Channel)
  | Closed (tid : string).

(** The response body of [/process_video/]. *)
Inductive Response : Type :=
  | SummaryResponse (summary : string) (pdf : string)
  | ErrorResponse (error : string).

(** The response of [/download/{task_id}]. *)
Record FileResponse : Type := {
  response_path : string;
  response_filename : string;
  media_type : string;
  body : bytes
}.

(** ** The state of the process

    [active_connections] and [storage] are the program's; [outbox] is what
    the transport accepted, in order; [background_tasks] is the list the
    framework runs once the response is sent; [suspensions] counts the
    suspension points passed. [reported] is a ghost log of the calls of
    [send_status], whether or not anything was delivered. *)

Record State : Type := {
  active_connections : gmap string Channel;
  storage : gmap string bytes;
  outbox : list (Channel * StatusMessage);
  reported : list (string * StatusMessage);
  background_tasks : list BackgroundTask;
  suspensions : nat
}.

Definition with_connections (f : gmap string Channel -> gmap string Channel)
    (st : State) : State :=
  {| active_connections := f (active_connections st);
     storage := storage st;
     outbox := outbox st;
     reported := reported st;
     background_tasks := background_tasks st;
     suspensions := suspensions st |}.

Definition with_storage (f : gmap string bytes -> gmap string bytes)
    (st : State) : State :=
  {| active_connections := active_connections st;
     storage := f (storage st);
     outbox := outbox st;
     reported := reported st;
     background_tasks := background_tasks st;
     suspensions := suspensions st |}.

Definition with_outbox (f : list (Channel * StatusMessage) -> list (Channel * StatusMessage))
    (st : State) : State :=
  {| active_connections := active_connections st;
     storage := storage st;
     outbox := f (outbox st);
     reported := reported st;
     background_tasks := background_tasks st;
     suspensions := suspensions st |}.

Definition with_reported (f : list (string * StatusMessage) -> list (string * StatusMessage))
    (st : State) : State :=
  {| active_connections := active_connections st;
     storage := storage st;
     outbox := outbox st;
     reported := f (reported st);
     background_tasks := background_tasks st;
     suspensions := suspensions st |}.

Definition with_background_tasks (f : list BackgroundTask -> list BackgroundTask)
    (st : State) : State :=
  {| active_connections := active_connections st;
     storage := storage st;
     outbox := outbox st;
     reported := reported st;
     background_tasks := f (background_tasks st);
     suspensions := suspensions st |}.

Definition with_suspensions (f : nat -> nat) (st : State) : State :=
  {| active_connections := active_connections st;
     storage := storage st;
     outbox := outbox st;
     reported := reported st;
     background_tasks := background_tasks st;
     suspensions := f (suspensions st) |}.

(** ** The connection registry *)

Module Registry.

(** [active_connections[task_id] = websocket] *)
Definition open (tid : string) (ws : Channel)
    (conns : gmap string Channel) : gmap string Channel :=
  <[tid := ws]> conns.

(** [active_connections.pop(task_id, None)] *)
Definition close (tid : string)
    (conns : gmap string Channel) : gmap string Channel :=
  delete tid conns.

(** [task_id in active_connections] *)
Definition mem (tid : string) (conns : gmap string Channel) : bool :=
  bool_decide (is_Some (conns !! tid)).

Definition apply (conns : gmap string Channel) (ev : RegistryEvent)
    : gmap string Channel :=
  match ev with
  | Opened tid ws => open tid ws conns
  | Closed tid => close tid conns
  end.

End Registry.

(** ** The environment *)

Record Env : Type := {
  (** the registry events of the other handlers during the [k]-th suspension *)
  interleaving : nat -> list RegistryEvent;
  (** what the transport does with the [send_json] issued at the [k]-th
      suspension on a channel: [None] when it takes the message *)
  transport : nat -> Channel -> option exn;
  (** [open(path, "wb")] *)
  open_wb : string -> option exn;
  (** [buffer.write(data)] *)
  buffer_write : string -> bytes -> option exn;
  (** [VideoFileClip(path)] *)
  VideoFileClip : string -> option exn;
  (** [clip.audio.write_audiofile(path, codec="mp3")] *)
  write_audiofile : string -> FileWrite;
  (** [whisper.load_model("base")] *)
  load_model : option exn;
  (** [model.transcribe(path, word_timestamps=True)] *)
  transcribe : string -> Reply Transcription;
  (** [client.chat.completions.create(...)] on the prompt built from the
      transcript, down to [response.choices[0].message.content] *)
  chat_completion : string -> Reply string;
  (** [markdown.markdown] and [pdfkit.from_string] on the summary *)
  pdf_from_string : string -> string -> FileWrite
}.

(** ** Coroutines *)

Definition M (A : Type) : Type := State -> Outcome A * State.

Definition ret {A} (a : A) : M A := fun st => (Return a, st).

Definition bind {A B} (m : M A) (k : A -> M B) : M B :=
  fun st =>
    match m st with
    | (Return a, st') => k a st'
    | (Raise e, st') => (Raise e, st')
    end.

Definition raise {A} (e : exn) : M A := fun st => (Raise e, st).

Definition gets {A} (f : State -> A) : M A := fun st => (Return (f st), st).

Definition modify (f : State -> State) : M unit := fun st => (Return tt, f st).

(** [try: body except ...: handler]; [handler e] is [None] when no [except]
    clause matches [e]. *)
Definition try_except {A} (body : M A) (handler : exn -> option (M A)) : M A :=
  fun st =>
    match body st with
    | (Return a, st') => (Return a, st')
    | (Raise e, st') =>
        match handler e with
        | Some h => h st'
        | None => (Raise e, st')
        end
    end.

Declare Scope coroutine_scope.
Delimit Scope coroutine_scope with coroutine.
Notation "x <- c1 ;; c2" := (bind c1 (fun x => c2))
  (at level 100, c1 at next level, right associativity) : coroutine_scope.
Notation "c1 ;; c2" := (bind c1 (fun _ => c2))
  (at level 100, right associativity) : coroutine_scope.

Local Open Scope coroutine_scope.

(** [int(x)] on a rational: truncation towards zero. *)
Definition int (x : Q) : Z :=
  if Qle_bool 0 x then Qfloor x else Qceiling x.

(** The percentage of the [i]-th segment of [total_segments]:
    [55 + int((i / total_segments) * 15)]. The quotient is Python's true
    division; it is taken here in the rationals. *)
Definition segment_progress (i total_segments : nat) : Z :=
  55 + int ((inject_Z (Z.of_nat i) / inject_Z (Z.of_nat total_segments)) * 15)%Q.

(** The same quotient and product in binary64, as Python computes them, and
    the test that [int] of the result is [k]: for [x >= 0], [int(x) = k]
    exactly when [k <= x < k + 1]. *)
Definition float_of_nat (n : nat) : PrimFloat.float :=
  PrimFloat.of_uint63 (Uint63.of_Z (Z.of_nat n)).

Definition float_fraction (i total_segments : nat) : PrimFloat.float :=
  PrimFloat.mul
    (PrimFloat.div (float_of_nat i) (float_of_nat total_segments))
    (float_of_nat 15).

Definition float_int_is (x : PrimFloat.float) (k : nat) : bool :=
  PrimFloat.leb (float_of_nat k) x && PrimFloat.ltb x (float_of_nat (S k)).

Section Server.

Variable env : Env.

(** *** Suspension points *)

(** The coroutine yields to the event loop: the other handlers run, and
    the coroutine resumes. Returns the index of the suspension. *)
Definition suspend : M nat :=
  fun st =>
    let k := suspensions st in
    (Return k,
     with_suspensions S
       (with_connections
          (fun conns => foldl Registry.apply conns (interleaving env k)) st)).

(** [await asyncio.sleep(_)] *)
Definition asyncio_sleep : M unit := _ <- suspend ;; ret tt.

(** [await websocket.send_json(data)] *)
Definition send_json (ws : Channel) (data : StatusMessage) : M unit :=
  k <- suspend ;;
  match transport env k ws with
  | None => modify (with_outbox (fun box => box ++ [(ws, data)]))
  | Some e => raise e
  end.

(** *** [VideoProcessor.send_status] *)

Definition send_status (self : VideoProcessor) (message : string)
    (progress : option Z) : M unit :=
  let status_message := {| status := message; progress := progress |} in
  modify (with_reported (fun log => log ++ [(task_id self, status_message)])) ;;
  try_except
    (conns <- gets active_connections ;;
     match conns !! task_id self with
     | Some ws => send_json ws status_message
     | None => ret tt
     end)
    (fun e =>
       match e with
       | WebSocketDisconnect _ | RuntimeError _ =>
           Some (modify (with_connections (Registry.close (task_id self))))
       | _ => None
       end).

(** *** Stage 1: [save_uploaded_video] *)

Definition save_uploaded_video (self : VideoProcessor) : M unit :=
  send_status self "Uploading video..." (Some 10) ;;
  try_except
    (match open_wb env (video_path self) with
     | Some e => raise e
     | None => modify (with_storage (<[video_path self := []]>))
     end ;;
     _ <- suspend ;;
     data <- match read (video_file self) with
             | Fine data => ret data
             | Fails e => raise e
             end ;;
     match buffer_write env (video_path self) data with
     | Some e => raise e
     | None => modify (with_storage (<[video_path self := data]>))
     end ;;
     send_status self "✅ Video uploaded successfully." (Some 20))
    (fun e =>
       Some (send_status self ("❌ Failed to save video: " +:+ str e) None ;;
             raise (HTTPException 500 ("Failed to save video: " +:+ str e)))).

(** *** Stage 2: [extract_audio] *)

Definition extract_audio (self : VideoProcessor) : M unit :=
  send_status self "Extracting audio from video..." (Some 30) ;;
  try_except
    (match VideoFileClip env (video_path self) with
     | Some e => raise e
     | None => ret tt
     end ;;
     match write_audiofile env (audio_path self) with
     | Written audio => modify (with_storage (<[audio_path self := audio]>))
     | Broken None e => raise e
     | Broken (Some part) e =>
         modify (with_storage (<[audio_path self := part]>)) ;; raise e
     end ;;
     send_status self "✅ Audio extraction complete." (Some 50))
    (fun e =>
       Some (send_status self ("❌ Audio extraction failed: " +:+ str e) None ;;
             raise (HTTPException 500 ("Audio extraction failed: " +:+ str e)))).

(** *** Stage 3: [transcribe_audio] *)

(** The [for i, segment in enumerate(result["segments"])] loop, from
    index [i] on. *)
Fixpoint report_segments (self : VideoProcessor) (total_segments i : nat)
    (segs : list string) : M unit :=
  match segs with
  | [] => ret tt
  | segment :: rest =>
      send_status self
        ("📝 Transcribing: " +:+ PyStr.take 50 segment +:+ "...")
        (Some (segment_progress i total_segments)) ;;
      report_segments self total_segments (S i) rest
  end.

Definition transcribe_audio (self : VideoProcessor) : M string :=
  send_status self "🔄 Transcribing audio with Whisper..." (Some 55) ;;
  try_except
    (match load_model env with
     | Some e => raise e
     | None => ret tt
     end ;;
     result <- match transcribe env (audio_path self) with
               | Fine result => ret result
               | Fails e => raise e
               end ;;
     report_segments self (length (segments result)) 0 (segments result) ;;
     send_status self "✅ Audio transcription complete." (Some 70) ;;
     ret (text result))
    (fun e =>
       Some (send_status self ("❌ Transcription failed: " +:+ str e) None ;;
             raise (HTTPException 500 ("Transcription failed: " +:+ str e)))).

(** *** Stage 4: [summarize_text] *)

Definition summarize_text (self : VideoProcessor) (transcript : string) : M string :=
  send_status self "📄 Generating summary..." (Some 80) ;;
  try_except
    (summary <- match chat_completion env transcript with
                | Fine summary => ret summary
                | Fails e => raise e
                end ;;
     send_status self "✅ Summary generated." (Some 90) ;;
     ret summary)
    (fun e =>
       Some (send_status self ("❌ Summarization failed: " +:+ str e) None ;;
             raise (HTTPException 500 ("Summarization failed: " +:+ str e)))).

(** *** Stage 5: [save_summary_as_pdf] *)

Definition save_summary_as_pdf (self : VideoProcessor) (summary_md : string) : M unit :=
  send_status self "📄 Generating PDF..." (Some 95) ;;
  try_except
    (match pdf_from_string env summary_md (pdf_path self) with
     | Written pdf => modify (with_storage (<[pdf_path self := pdf]>))
     | Broken None e => raise e
     | Broken (Some part) e =>
         modify (with_storage (<[pdf_path self := part]>)) ;; raise e
     end ;;
     send_status self "✅ PDF generation complete." (Some 100))
    (fun e =>
       Some (send_status self ("❌ PDF generation failed: " +:+ str e) None ;;
             raise (HTTPException 500 ("PDF generation failed: " +:+ str e)))).

(** *** [process_video] *)

(** The [for _ in range(6)] loop with its [break]. *)
Fixpoint wait_for_connection (tries : nat) (tid : string) : M unit :=
  match tries with
  | O => ret tt
  | S n =>
      conns <- gets active_connections ;;
      if Registry.mem tid conns then ret tt
      else (asyncio_sleep ;; wait_for_connection n tid)
  end.

(** [background_tasks.add_task(processor.save_summary_as_pdf, summary_md)] *)
Definition add_task (self : VideoProcessor) (summary_md : string) : M unit :=
  modify (with_background_tasks
            (fun tasks => tasks ++ [{| task_processor := self;
                                       task_summary := summary_md |}])).

Definition process_video (file : UploadFile) (tid : string) : M Response :=
  wait_for_connection 6 tid ;;
  conns <- gets active_connections ;;
  match conns !! tid with
  | None =>
      raise (HTTPException 400 "No active WebSocket connection for this task.")
  | Some ws =>
      let processor := new_VideoProcessor sanitize_filename file ws tid in
      try_except
        (save_uploaded_video processor ;;
         extract_audio processor ;;
         transcript <- transcribe_audio processor ;;
         summary_md <- summarize_text processor transcript ;;
         add_task processor summary_md ;;
         ret (SummaryResponse summary_md ("/download/" +:+ tid)))
        (fun e =>
           match e with
           | HTTPException _ detail => Some (ret (ErrorResponse detail))
           | _ => None
           end)
  end.

(** What the framework does once the response of [process_video] is sent:
    it takes the registered tasks and runs them in order; a task that
    raises ends the sequence. *)
Fixpoint run_tasks (tasks : list BackgroundTask) : M unit :=
  match tasks with
  | [] => ret tt
  | t :: rest =>
      save_summary_as_pdf (task_processor t) (task_summary t) ;;
      run_tasks rest
  end.

Definition run_background_tasks : M unit :=
  tasks <- gets background_tasks ;;
  modify (with_background_tasks (fun _ => [])) ;;
  run_tasks tasks.

(** *** [websocket_endpoint] *)

Inductive HandlerStatus : Type :=
  | Looping    (** still inside [while True] *)
  | Finished.  (** left through the [except WebSocketDisconnect] clause *)

(** [beats] iterations of the [while True] loop. *)
Fixpoint keep_alive (beats : nat) (ws : Channel) : M HandlerStatus :=
  match beats with
  | O => ret Looping
  | S n =>
      asyncio_sleep ;;
      send_json ws {| status := "WebSocket Connection Active"; progress := None |} ;;
      keep_alive n ws
  end.

Definition websocket_endpoint (beats : nat) (ws : Channel) (tid : string)
    : M HandlerStatus :=
  modify (with_connections (Registry.open tid ws)) ;;
  try_except (keep_alive beats ws)
    (fun e =>
       match e with
       | WebSocketDisconnect _ =>
           Some (modify (with_connections (Registry.close tid)) ;; ret Finished)
       | _ => None
       end).

End Server.

(** ** [download_pdf] (the same in both files) *)

Definition download_pdf (tid : string) (files : gmap string bytes)
    : Outcome FileResponse :=
  let pdf_path := os_path_join UPLOAD_DIR (tid +:+ ".pdf") in
  match files !! pdf_path with
  | None => Raise (HTTPException 404 "PDF file not found.")
  | Some content =>
      Return {| response_path := pdf_path;
                response_filename := "summary_" +:+ tid +:+ ".pdf";
                media_type := "application/pdf";
                body := content |}
  end.

(** ** [main_openai.py] *)

Module OpenAI.

(** [VideoProcessor.transcribe_audio] of [main_openai.py]: the segments of
    the result are not looked at. [transcribe env] stands for the call
    [model.transcribe(self.audio_path)] of this file. *)
Definition transcribe_audio (env : Env) (self : VideoProcessor) : M string :=
  send_status env self "🔄 Transcribing audio with Whisper..." (Some 55) ;;
  try_except
    (match load_model env with
     | Some e => raise e
     | None => ret tt
     end ;;
     result <- match transcribe env (audio_path self) with
               | Fine result => ret result
               | Fails e => raise e
               end ;;
     send_status env self "✅ Audio transcription complete." (Some 70) ;;
     ret (text result))
    (fun e =>
       Some (send_status env self ("❌ Transcription failed: " +:+ str e) None ;;
             raise (HTTPException 500 ("Transcription failed: " +:+ str e)))).

End OpenAI.

(** ** Vocabulary of the properties *)

(** The exceptions the [except] clause of [send_status] names. *)
Definition is_disconnect (e : exn) : bool :=
  match e with
  | WebSocketDisconnect _ | RuntimeError _ => true
  | _ => false
  end.

(** A transport whose failures are disconnects: [send_json] raises nothing
    but [WebSocketDisconnect] and [RuntimeError]. *)
Definition benign (env : Env) : Prop :=
  forall k ws e, transport env k ws = Some e -> is_disconnect e = true.

(** The percentages of the messages that carry one. *)
Definition percentages {A} (log : list (A * StatusMessage)) : list Z :=
  omap (fun entry => progress (snd entry)) log.

(** What a log holds beyond its first [n] entries. *)
Definition since {A} (n : nat) (log : list A) : list A := drop n log.

(** Between [st] and [st'] the reports [rs] were made, in this order; what
    the transport accepted is a subsequence of them; no background task was
    registered or run. *)
Definition emits (st st' : State) (rs : list (string * StatusMessage)) : Prop :=
  reported st' = reported st ++ rs
  /\ (exists sent, outbox st' = outbox st ++ sent
                   /\ sublist (sent.*2) (rs.*2))
  /\ background_tasks st' = background_tasks st.

(** As [emits], without the clause on the background tasks. *)
Definition logged (st st' : State) (rs : list (string * StatusMessage)) : Prop :=
  reported st' = reported st ++ rs
  /\ (exists sent, outbox st' = outbox st ++ sent
                   /\ sublist (sent.*2) (rs.*2)).

(** Between [st] and [st'] reports were made whose percentages are the
    first ones of [plan], in order. *)
Definition trail (st st' : State) (plan : list Z) : Prop :=
  exists rs, logged st st' rs /\ percentages rs `prefix_of` plan.

(** The liveness message of [websocket_endpoint]. *)
Definition liveness : StatusMessage :=
  {| status := "WebSocket Connection Active"; progress := None |}.

(** The state in which a coroutine suspended in [st] resumes. *)
Definition resumed (env : Env) (st : State) : State :=
  with_suspensions S
    (with_connections
       (fun conns => foldl Registry.apply conns (interleaving env (suspensions st)))
       st).

(** The state after [n] suspensions in a row. *)
Fixpoint asleep (env : Env) (n : nat) (st : State) : State :=
  match n with
  | O => st
  | S m => asleep env m (resumed env st)
  end.

Definition report (self : VideoProcessor) (message : string)
    (progress : option Z) : string * StatusMessage :=
  (task_id self, {| status := message; progress := progress |}).

(** The reports of the segment loop from index [i] on. *)
Fixpoint segment_reports (self : VideoProcessor) (total_segments i : nat)
    (segs : list string) : list (string * StatusMessage) :=
  match segs with
  | [] => []
  | segment :: rest =>
      report self ("📝 Transcribing: " +:+ PyStr.take 50 segment +:+ "...")
        (Some (segment_progress i total_segments))
      :: segment_reports self total_segments (S i) rest
  end.

(** The percentages of the transcription stage for [n] segments. *)
Definition transcription_percentages (n : nat) : list Z :=
  55 :: ((fun i => segment_progress i n) <$> seq 0 n) ++ [70].

Inductive Stage : Type :=
  | Ingest
  | AudioExtraction
  | Transcribing
  | Summarization
  | Rendering.

(** The text each stage puts before the cause in the [detail] of its
    [HTTPException]. *)
Definition failure_label (s : Stage) : string :=
  match s with
  | Ingest => "Failed to save video"
  | AudioExtraction => "Audio extraction failed"
  | Transcribing => "Transcription failed"
  | Summarization => "Summarization failed"
  | Rendering => "PDF generation failed"
  end.

(** The report a stage opens with. *)
Definition opening_report (self : VideoProcessor) (s : Stage)
    : string * StatusMessage :=
  match s with
  | Ingest => report self "Uploading video..." (Some 10)
  | AudioExtraction => report self "Extracting audio from video..." (Some 30)
  | Transcribing => report self "🔄 Transcribing audio with Whisper..." (Some 55)
  | Summarization => report self "📄 Generating summary..." (Some 80)
  | Rendering => report self "📄 Generating PDF..." (Some 95)
  end.

(** The report a stage makes when it fails: the cross mark, the label of
    the stage, the text of the cause; no percentage. *)
Definition failure_report (self : VideoProcessor) (s : Stage) (cause : exn)
    : string * StatusMessage :=
  report self ("❌ " +:+ failure_label s +:+ ": " +:+ str cause) None.

(** The exception the external calls of a stage raise, if any. *)
Definition ingest_failure (env : Env) (self : VideoProcessor) : option exn :=
  match open_wb env (video_path self) with
  | Some e => Some e
  | None =>
      match read (video_file self) with
      | Fails e => Some e
      | Fine data => buffer_write env (video_path self) data
      end
  end.

Definition extraction_failure (env : Env) (self : VideoProcessor) : option exn :=
  match VideoFileClip env (video_path self) with
  | Some e => Some e
  | None =>
      match write_audiofile env (audio_path self) with
      | Written _ => None
      | Broken _ e => Some e
      end
  end.

Definition transcription_failure (env : Env) (self : VideoProcessor) : option exn :=
  match load_model env with
  | Some e => Some e
  | None =>
      match transcribe env (audio_path self) with
      | Fine _ => None
      | Fails e => Some e
      end
  end.

Definition summarization_failure (env : Env) (transcript : string) : option exn :=
  match chat_completion env transcript with
  | Fine _ => None
  | Fails e => Some e
  end.

Definition rendering_failure (env : Env) (self : VideoProcessor)
    (summary_md : string) : option exn :=
  match pdf_from_string env summary_md (pdf_path self) with
  | Written _ => None
  | Broken _ e => Some e
  end.

(** The first stage of the synchronous pipeline whose external calls raise,
    with what they raise. *)
Definition first_failure (env : Env) (self : VideoProcessor) : option (Stage * exn) :=
  match ingest_failure env self with
  | Some e => Some (Ingest, e)
  | None =>
      match extraction_failure env self with
      | Some e => Some (AudioExtraction, e)
      | None =>
          match load_model env, transcribe env (audio_path self) with
          | Some e, _ => Some (Transcribing, e)
          | None, Fails e => Some (Transcribing, e)
          | None, Fine result =>
              match chat_completion env (text result) with
              | Fails e => Some (Summarization, e)
              | Fine _ => None
              end
          end
      end
  end.

(** The synchronous pipeline up to and including stage [s]. *)
Definition run_through (env : Env) (self : VideoProcessor) (s : Stage) : M unit :=
  match s with
  | Ingest => save_uploaded_video env self
  | AudioExtraction =>
      save_uploaded_video env self ;; extract_audio env self
  | Transcribing =>
      save_uploaded_video env self ;; extract_audio env self ;;
      _ <- transcribe_audio env self ;; ret tt
  | _ =>
      save_uploaded_video env self ;; extract_audio env self ;;
      transcript <- transcribe_audio env self ;;
      _ <- summarize_text env self transcript ;; ret tt
  end.

(** The four synchronous stages, from the upload to the summary. *)
Definition synchronous_stages (env : Env) (self : VideoProcessor) : M string :=
  save_uploaded_video env self ;;
  extract_audio env self ;;
  transcript <- transcribe_audio env self ;;
  summarize_text env self transcript.

(** The task [process_video] registers for [summary_md]. *)
Definition rendering_task (self : VideoProcessor) (summary_md : string)
    : BackgroundTask :=
  {| task_processor := self; task_summary := summary_md |}.

(** What [except HTTPException as e: return ...] makes of an exception. *)
Definition handled (e : exn) (st : State) : Outcome Response * State :=
  match e with
  | HTTPException _ detail => (Return (ErrorResponse detail), st)
  | _ => (Raise e, st)
  end.

(** ** [main.py]: the command-line pipeline *)

Module Cli.

(** [len(range(start, stop, step))] for a step that is not zero *)
Definition range_length (start stop step : Z) : Z :=
  if 0 <? step
  then (if start <? stop then (stop - start - 1) / step + 1 else 0)
  else (if stop <? start then (start - stop - 1) / (- step) + 1 else 0).

(** [range(start, stop, step)]; a zero step raises [ValueError]. *)
Definition range (start stop step : Z) : Outcome (list Z) :=
  if step =? 0
  then Raise (OtherError "range() arg 3 must not be zero")
  else Return ((fun k => start + step * k) <$> seqZ 0 (range_length start stop step)).

(** A bound of a slice, brought into [0, len]. *)
Definition clamp (len i : Z) : Z :=
  if i <? 0 then Z.max 0 (len + i) else Z.min i len.

(** [l[i:j]] *)
Definition slice {A} (i j : Z) (l : list A) : list A :=
  let len := Z.of_nat (length l) in
  let lo := clamp len i in
  let hi := clamp len j in
  take (Z.to_nat (hi - lo)) (drop (Z.to_nat lo) l).

(** [sep.join(pieces)] *)
Fixpoint join (sep : string) (pieces : list string) : string :=
  match pieces with
  | [] => EmptyString
  | [piece] => piece
  | piece :: rest => piece +:+ sep +:+ join sep rest
  end.

(** [s.lower()], on the letters A to Z. *)
Definition lower_char (c : ascii) : ascii :=
  let n := nat_of_ascii c in
  if (65 <=? n)%nat && (n <=? 90)%nat then ascii_of_nat (n + 32) else c.

Fixpoint lower (s : string) : string :=
  match s with
  | EmptyString => EmptyString
  | String c s' => String (lower_char c) (lower s')
  end.

(** A tokenizer: [encode] and [decode(_, skip_special_tokens=True)]. *)
Record Tokenizer : Type := {
  encode : string -> list nat;
  decode : list nat -> string
}.

(** [split_text] *)
Definition split_text (text : string) (tokenizer : Tokenizer) (max_tokens : Z)
    : Outcome (list string) :=
  let tokens := encode tokenizer text in
  match range 0 (Z.of_nat (length tokens)) max_tokens with
  | Raise e => Raise e
  | Return indices =>
      Return ((fun i => decode tokenizer (slice i (i + max_tokens) tokens))
                <$> indices)
  end.

(** A file of the working directory. *)
Inductive Blob : Type :=
  | Binary (content : bytes)
  | Text (content : string).

Record World : Type := {
  files : gmap string Blob;
  dirs : gset string;
  console : list string
}.

Definition with_files (f : gmap string Blob -> gmap string Blob) (w : World) : World :=
  {| files := f (files w); dirs := dirs w; console := console w |}.

Definition with_dirs (f : gset string -> gset string) (w : World) : World :=
  {| files := files w; dirs := f (dirs w); console := console w |}.

Definition with_console (f : list string -> list string) (w : World) : World :=
  {| files := files w; dirs := dirs w; console := f (console w) |}.

(** What the script meets: the line the user types and the answers of
    pytube, moviepy, Whisper and the BART pipeline. *)
Record Setting : Type := {
  (** the line read by [input] *)
  typed : string;
  (** [YouTube(url)] and the first mp4 stream of [yt.streams], down to its
      [default_filename]; where there is no such stream, the
      [AttributeError] that [stream.download] raises on [None] *)
  youtube : string -> Reply string;
  (** [stream.download(output_path=...)] for the URL, writing the path *)
  fetch : string -> string -> FileWrite;
  (** [os.makedirs(path)] *)
  makedirs : string -> option exn;
  (** [VideoFileClip(video_path)] and [write_audiofile(audio_path)] *)
  clip_audio : string -> string -> FileWrite;
  (** [whisper.load_model] and [transcribe(audio_path)], down to the text *)
  whisper : string -> Reply string;
  (** [pipeline("summarization", ...)] *)
  load_pipeline : option exn;
  (** [BartTokenizer.from_pretrained(...)] *)
  load_tokenizer : Reply Tokenizer;
  (** [summarizer(chunk, ...)], down to [summary[0]["summary_text"]] *)
  summarizer : string -> Reply string;
  (** [open(path, "w")] *)
  open_w : string -> option exn
}.

Definition C (A : Type) : Type := World -> Outcome A * World.

Definition ret {A} (a : A) : C A := fun w => (Return a, w).

Definition bind {A B} (m : C A) (k : A -> C B) : C B :=
  fun w =>
    match m w with
    | (Return a, w') => k a w'
    | (Raise e, w') => (Raise e, w')
    end.

Definition raise {A} (e : exn) : C A := fun w => (Raise e, w).

Definition lift {A} (r : Reply A) : C A :=
  match r with
  | Fine a => ret a
  | Fails e => raise e
  end.

(** [print(line)] *)
Definition print (line : string) : C unit :=
  fun w => (Return tt, with_console (fun out => out ++ [line]) w).

(** [os.path.exists(path)] *)
Definition exists_ (path : string) (w : World) : bool :=
  bool_decide (is_Some (files w !! path)) || bool_decide (path ∈ dirs w).

(** A call that writes the file [path] *)
Definition write_blob (path : string) (result : FileWrite) : C unit :=
  match result with
  | Written content =>
      fun w => (Return tt, with_files (<[path := Binary content]>) w)
  | Broken None e => raise e
  | Broken (Some part) e =>
      fun w => (Raise e, with_files (<[path := Binary part]>) w)
  end.

(** [with open(path, "w") as f: f.write(content)] *)
Definition write_text (open_w : string -> option exn) (path content : string)
    : C unit :=
  match open_w path with
  | Some e => raise e
  | None => fun w => (Return tt, with_files (<[path := Text content]>) w)
  end.

Declare Scope script_scope.
Delimit Scope script_scope with script.
Notation "x <- c1 ;; c2" := (bind c1 (fun x => c2))
  (at level 100, c1 at next level, right associativity) : script_scope.
Notation "c1 ;; c2" := (bind c1 (fun _ => c2))
  (at level 100, right associativity) : script_scope.

Section Script.

Variable env : Setting.

Local Open Scope script_scope.

(** [download_video] *)
Definition download_video (url output_path : string) : C string :=
  default_filename <- lift (youtube env url) ;;
  let target := os_path_join output_path default_filename in
  write_blob target (fetch env url target) ;;
  ret target.

(** [extract_audio] *)
Definition extract_audio (video_path audio_path : string) : C string :=
  write_blob audio_path (clip_audio env video_path audio_path) ;;
  ret audio_path.

(** [transcribe_audio] *)
Definition transcribe_audio (audio_path : string) : C string :=
  lift (whisper env audio_path).

(** The [for chunk in chunks] loop of [summarize_text], with the list
    [summaries] it appends to. *)
Fixpoint summarize_chunks (chunks summaries : list string) : C (list string) :=
  match chunks with
  | [] => ret summaries
  | chunk :: rest =>
      match summarizer env chunk with
      | Fine summary => summarize_chunks rest (summaries ++ [summary])
      | Fails e =>
          print ("Error summarizing chunk: " +:+ str e) ;;
          summarize_chunks rest (summaries ++ [PyStr.take 300 chunk])
      end
  end.

(** What a chunk contributes to the summary: what the summarizer
    answers, or the first 300 characters of the chunk when it raises. *)
Definition piece (chunk : string) : string :=
  match summarizer env chunk with
  | Fine summary => summary
  | Fails _ => PyStr.take 300 chunk
  end.

(** The line printed for a chunk the summarizer raises on. *)
Definition complaint (chunk : string) : option string :=
  match summarizer env chunk with
  | Fine _ => None
  | Fails e => Some ("Error summarizing chunk: " +:+ str e)
  end.

(** [summarize_text] *)
Definition summarize_text (text : string) : C string :=
  match load_pipeline env with
  | Some e => raise e
  | None => ret tt
  end ;;
  tokenizer <- lift (load_tokenizer env) ;;
  chunks <- (fun w => (split_text text tokenizer 1024, w)) ;;
  summaries <- summarize_chunks chunks [] ;;
  ret (join " " summaries).

(** [main], from [audio_file = ...] to the last [print]: what is done with
    the video file once it is known. *)
Definition process (video_file output_path : string) : C unit :=
  let audio_file := os_path_join output_path "audio.mp3" in
  _ <- extract_audio video_file audio_file ;;
  transcript <- transcribe_audio audio_file ;;
  write_text (open_w env) (os_path_join output_path "transcript.txt") transcript ;;
  summary <- summarize_text transcript ;;
  write_text (open_w env) (os_path_join output_path "summary.txt") summary ;;
  print ("✅ Transcript and summary saved in" +:+ " " +:+ output_path).

(** [if not os.path.exists(output_path): os.makedirs(output_path)] *)
Definition ensure_dir (output_path : string) : C unit :=
  fun w =>
    if exists_ output_path w then (Return tt, w)
    else match makedirs env output_path with
         | Some e => (Raise e, w)
         | None => (Return tt, with_dirs (fun d => {[output_path]} ∪ d) w)
         end.

(** [main]; the video file is [None] where the script returns early. *)
Definition main : C unit :=
  print "Enter video URL or local file path: " ;;
  let video_input := typed env in
  let output_path := "downloads" in
  ensure_dir output_path ;;
  found <- (if PyStr.startswith "http" (lower video_input)
            then (video_file <- download_video video_input output_path ;;
                  ret (Some video_file))
            else (fun w =>
                    if exists_ video_input w then (Return (Some video_input), w)
                    else (Return None, w))) ;;
  match found with
  | None => print "Local file does not exist."
  | Some video_file => process video_file output_path
  end.

End Script.

End Cli.

(** The chunks of [l] of width [m], [n] of them. *)
Definition windows {A} (m : nat) (l : list A) (n : nat) : list (list A) :=
  (fun k => take m (drop (m * k) l)) <$> seq 0 n.

(** ** A concrete deployment, for closed instances of the properties *)

Module Example.

(** Every collaborator answers, the transport takes every message, no other
    handler touches the registry. *)
Definition quiet : Env :=
  {| interleaving := fun _ => [];
     transport := fun _ _ => None;
     open_wb := fun _ => None;
     buffer_write := fun _ _ => None;
     VideoFileClip := fun _ => None;
     write_audiofile := fun _ => Written [Byte.x4d; Byte.x50; Byte.x33];
     load_model := None;
     transcribe := fun _ =>
       Fine {| text := "hello world"; segments := ["hello"; " world"; "!"] |};
     chat_completion := fun transcript => Fine ("## " +:+ transcript);
     pdf_from_string := fun _ _ => Written [Byte.x25; Byte.x50; Byte.x44; Byte.x46] |}.

Definition upload : UploadFile :=
  {| filename := "talk.mp4"; read := Fine [Byte.x00; Byte.x01] |}.

(** No handler connected, nothing stored. *)
Definition idle : State :=
  {| active_connections := ∅;
     storage := ∅;
     outbox := [];
     reported := [];
     background_tasks := [];
     suspensions := 0 |}.

(** Channel 7 is registered for task [T]. *)
Definition watched : State :=
  with_connections (Registry.open "T" 7%nat) idle.

(** Channel 7 is dead: every send on it raises [WebSocketDisconnect]; while
    the first suspension lasts, another handler registers channel 8 for
    task [T]. *)
Definition reconnecting : Env :=
  {| interleaving := fun k => match k with O => [Opened "T" 8%nat] | _ => [] end;
     transport := fun _ ws =>
       if Nat.eqb ws 7 then Some (WebSocketDisconnect "1006") else None;
     open_wb := open_wb quiet;
     buffer_write := buffer_write quiet;
     VideoFileClip := VideoFileClip quiet;
     write_audiofile := write_audiofile quiet;
     load_model := load_model quiet;
     transcribe := transcribe quiet;
     chat_completion := chat_completion quiet;
     pdf_from_string := pdf_from_string quiet |}.

(** Task [T] was processed before: its document is in storage, and channel
    7 is registered for a new submission under the same identifier. *)
Definition revisited : State :=
  with_storage (<["downloads/T.pdf" := [Byte.x25; Byte.x50; Byte.x44; Byte.x46]]>)
    watched.

(** As [quiet], but moviepy cannot open the upload. *)
Definition undecodable : Env :=
  {| interleaving := interleaving quiet;
     transport := transport quiet;
     open_wb := open_wb quiet;
     buffer_write := buffer_write quiet;
     VideoFileClip := fun _ => Some (OtherError "moov atom not found");
     write_audiofile := write_audiofile quiet;
     load_model := load_model quiet;
     transcribe := transcribe quiet;
     chat_completion := chat_completion quiet;
     pdf_from_string := pdf_from_string quiet |}.

(** An upload whose body cannot be read. *)
Definition broken_upload : UploadFile :=
  {| filename := "talk.mp4"; read := Fails (OtherError "client went away") |}.

(** As [quiet], but Whisper finds no speech: no segment, empty text. *)
Definition silent : Env :=
  {| interleaving := interleaving quiet;
     transport := transport quiet;
     open_wb := open_wb quiet;
     buffer_write := buffer_write quiet;
     VideoFileClip := VideoFileClip quiet;
     write_audiofile := write_audiofile quiet;
     load_model := load_model quiet;
     transcribe := fun _ => Fine {| text := EmptyString; segments := [] |};
     chat_completion := chat_completion quiet;
     pdf_from_string := pdf_from_string quiet |}.

(** As [quiet], but the PDF tool is missing. *)
Definition unrenderable : Env :=
  {| interleaving := interleaving quiet;
     transport := transport quiet;
     open_wb := open_wb quiet;
     buffer_write := buffer_write quiet;
     VideoFileClip := VideoFileClip quiet;
     write_audiofile := write_audiofile quiet;
     load_model := load_model quiet;
     transcribe := transcribe quiet;
     chat_completion := chat_completion quiet;
     pdf_from_string := fun _ _ =>
       Broken None (OtherError "No wkhtmltopdf executable found") |}.

(** As [quiet], but channel 7 was closed by the server side: every send on
    it raises [RuntimeError]. *)
Definition closed : Env :=
  {| interleaving := interleaving quiet;
     transport := fun _ ws =>
       if Nat.eqb ws 7 then Some (RuntimeError "send after close") else None;
     open_wb := open_wb quiet;
     buffer_write := buffer_write quiet;
     VideoFileClip := VideoFileClip quiet;
     write_audiofile := write_audiofile quiet;
     load_model := load_model quiet;
     transcribe := transcribe quiet;
     chat_completion := chat_completion quiet;
     pdf_from_string := pdf_from_string quiet |}.

(** A byte-level tokenizer: one token per character. *)
Definition characters : Cli.Tokenizer :=
  {| Cli.encode := fun s => nat_of_ascii <$> String.list_ascii_of_string s;
     Cli.decode := fun l => String.string_of_list_ascii (ascii_of_nat <$> l) |}.

(** The user names a local file; every tool answers; the summarizer keeps
    the first five characters of a chunk. *)
Definition session : Cli.Setting :=
  {| Cli.typed := "talk.mp4";
     Cli.youtube := fun _ => Fails (OtherError "no network");
     Cli.fetch := fun _ _ => Broken None (OtherError "no network");
     Cli.makedirs := fun _ => None;
     Cli.clip_audio := fun _ _ => Written [Byte.x4d; Byte.x50; Byte.x33];
     Cli.whisper := fun _ => Fine "hello world";
     Cli.load_pipeline := None;
     Cli.load_tokenizer := Fine characters;
     Cli.summarizer := fun chunk => Fine (PyStr.take 5 chunk);
     Cli.open_w := fun _ => None |}.

(** The working directory holds the file the user names. *)
Definition desk : Cli.World :=
  {| Cli.files := {[ "talk.mp4" := Cli.Binary [Byte.x00; Byte.x01] ]};
     Cli.dirs := ∅;
     Cli.console := [] |}.

(** As [session], but Whisper fails. *)
Definition deaf_session : Cli.Setting :=
  {| Cli.typed := Cli.typed session;
     Cli.youtube := Cli.youtube session;
     Cli.fetch := Cli.fetch session;
     Cli.makedirs := Cli.makedirs session;
     Cli.clip_audio := Cli.clip_audio session;
     Cli.whisper := fun _ => Fails (OtherError "out of memory");
     Cli.load_pipeline := Cli.load_pipeline session;
     Cli.load_tokenizer := Cli.load_tokenizer session;
     Cli.summarizer := Cli.summarizer session;
     Cli.open_w := Cli.open_w session |}.

(** As [session], but the user names a local file whose name starts like a
    URL. *)
Definition misnamed_session : Cli.Setting :=
  {| Cli.typed := "HTTP-basics.mp4";
     Cli.youtube := Cli.youtube session;
     Cli.fetch := Cli.fetch session;
     Cli.makedirs := Cli.makedirs session;
     Cli.clip_audio := Cli.clip_audio session;
     Cli.whisper := Cli.whisper session;
     Cli.load_pipeline := Cli.load_pipeline session;
     Cli.load_tokenizer := Cli.load_tokenizer session;
     Cli.summarizer := Cli.summarizer session;
     Cli.open_w := Cli.open_w session |}.

(** The working directory holds that file. *)
Definition misnamed_desk : Cli.World :=
  {| Cli.files := {[ "HTTP-basics.mp4" := Cli.Binary [Byte.x00; Byte.x01] ]};
     Cli.dirs := ∅;
     Cli.console := [] |}.

(** An empty working directory. *)
Definition bare : Cli.World :=
  {| Cli.files := ∅; Cli.dirs := ∅; Cli.console := [] |}.

End Example.

(** * Properties *)

(** ** Strings and paths *)

Lemma prefix_split (p s : string) :
  String.prefix p s = true -> exists t, s = p +:+ t.
Proof.
  revert s. induction p as [|a p IH]; intros s H.
  - exists s. reflexivity.
  - destruct s as [|b s]; simpl in H; [discriminate|].
    destruct (ascii_dec a b) as [->|]; [|discriminate].
    destruct (IH s H) as [t ->]. exists t. reflexivity.
Qed.

Lemma append_same_length (a b x y : string) :
  String.length a = String.length b -> a +:+ x = b +:+ y -> a = b.
Proof.
  revert b. induction a as [|c a IH]; intros [|d b] L E;
    simpl in *; try discriminate; [reflexivity|].
  injection E as -> E. f_equal. apply IH; [lia | exact E].
Qed.

Lemma replace_absent (old new s : string) :
  PyStr.contains old s = false -> PyStr.replace old new s = s.
Proof.
  unfold PyStr.replace. induction s as [|c s IH]; intros H; [reflexivity|].
  cbn [PyStr.contains] in H. apply orb_false_iff in H as [Hp Hc].
  cbn [PyStr.replace_from]. rewrite Hp. f_equal. apply IH.
  destruct s; cbn [PyStr.contains] in *; exact Hc.
Qed.

Lemma replace_present (old new s : string) :
  String.length old = String.length new -> old <> new ->
  PyStr.contains old s = true -> PyStr.replace old new s <> s.
Proof.
  intros L N. unfold PyStr.replace.
  induction s as [|c s IH]; intros H.
  - cbn in H. rewrite orb_false_r in H.
    destruct old; [|discriminate]. destruct new; [congruence | discriminate].
  - cbn [PyStr.contains] in H. cbn [PyStr.replace_from].
    destruct (String.prefix old (String c s)) eqn:Hp.
    + destruct (prefix_split _ _ Hp) as [t Ht]. rewrite Ht.
      intros E. apply N. symmetry. eapply append_same_length; [|exact E].
      symmetry. exact L.
    + simpl in H. intros E. injection E as E. revert E. apply IH.
      destruct s; exact H.
Qed.

Lemma startswith_slash_cons (c : ascii) (s : string) :
  PyStr.startswith "/" (String c s) = if ascii_dec "/" c then true else false.
Proof.
  unfold PyStr.startswith. cbn [String.prefix].
  destruct (ascii_dec "/" c); [destruct s|]; reflexivity.
Qed.

Lemma remove_chars_startswith (s : string) :
  PyStr.startswith "/" (PyStr.remove_chars invalid_char s) = false.
Proof.
  induction s as [|c s IH]; [reflexivity|].
  cbn [PyStr.remove_chars]. destruct (invalid_char c) eqn:Hc; [exact IH|].
  rewrite startswith_slash_cons. destruct (ascii_dec "/" c) as [<-|]; [|reflexivity].
  discriminate Hc.
Qed.

Lemma take_startswith (n : nat) (s : string) :
  PyStr.startswith "/" s = false -> PyStr.startswith "/" (PyStr.take n s) = false.
Proof.
  destruct n, s; try reflexivity. cbn [PyStr.take].
  rewrite !startswith_slash_cons. trivial.
Qed.

Lemma sanitize_filename_relative (name : string) :
  PyStr.startswith "/" (sanitize_filename name) = false.
Proof. apply take_startswith, remove_chars_startswith. Qed.

Lemma sanitize_filename_openai_relative (name : string) :
  PyStr.startswith "/" (sanitize_filename_openai name) = false.
Proof.
  apply take_startswith.
  pose proof (remove_chars_startswith name) as H.
  destruct (PyStr.remove_chars invalid_char name) as [|c s]; [reflexivity|].
  cbn [PyStr.replace_char]. rewrite startswith_slash_cons in *.
  destruct (Ascii.eqb c " ") eqn:E; [reflexivity | exact H].
Qed.

Lemma video_path_relative (sanitize : string -> string) (name : string) :
  PyStr.startswith "/" (sanitize name) = false ->
  video_path_of sanitize name = "downloads/" +:+ sanitize name.
Proof.
  intros H. unfold video_path_of, os_path_join. rewrite H. reflexivity.
Qed.

Lemma contains_mp4_video_path (sanitize : string -> string) (name : string) :
  PyStr.startswith "/" (sanitize name) = false ->
  PyStr.contains ".mp4" (video_path_of sanitize name)
  = PyStr.contains ".mp4" (sanitize name).
Proof.
  intros H. rewrite (video_path_relative _ _ H).
  destruct (sanitize name); reflexivity.
Qed.

Lemma audio_path_same_iff (sanitize : string -> string) (name : string) :
  PyStr.startswith "/" (sanitize name) = false ->
  audio_path_of sanitize name = video_path_of sanitize name
  <-> PyStr.contains ".mp4" (sanitize name) = false.
Proof.
  intros H. rewrite <- (contains_mp4_video_path _ _ H). unfold audio_path_of.
  split.
  - intros E. destruct (PyStr.contains ".mp4" (video_path_of sanitize name)) eqn:C;
      [|reflexivity].
    exfalso. revert E. apply replace_present; [reflexivity | discriminate | exact C].
  - apply replace_absent.
Qed.

(** ** Coroutines: equations *)

Lemma bind_eq {A B} (m : M A) (k : A -> M B) (st : State) :
  bind m k st
  = match m st with
    | (Return a, st') => k a st'
    | (Raise e, st') => (Raise e, st')
    end.
Proof. reflexivity. Qed.

Lemma bind_Return {A B} (m : M A) (k : A -> M B) (st st' : State) (a : A) :
  m st = (Return a, st') -> bind m k st = k a st'.
Proof. intros E. unfold bind. rewrite E. reflexivity. Qed.

Lemma bind_Raise {A B} (m : M A) (k : A -> M B) (st st' : State) (e : exn) :
  m st = (Raise e, st') -> bind m k st = (Raise e, st').
Proof. intros E. unfold bind. rewrite E. reflexivity. Qed.

Lemma try_except_Return {A} (m : M A) h (st st' : State) (a : A) :
  m st = (Return a, st') -> try_except m h st = (Return a, st').
Proof. intros E. unfold try_except. rewrite E. reflexivity. Qed.

Lemma try_except_Raise {A} (m : M A) h (st st' : State) (e : exn) :
  m st = (Raise e, st') ->
  try_except m h st
  = match h e with Some k => k st' | None => (Raise e, st') end.
Proof. intros E. unfold try_except. rewrite E. reflexivity. Qed.

(** ** The relation [emits] *)

Lemma emits_refl (st : State) : emits st st [].
Proof.
  repeat split; [by rewrite app_nil_r|].
  exists []. split; [by rewrite app_nil_r | constructor].
Qed.

Lemma emits_trans (a b c : State) rs1 rs2 :
  emits a b rs1 -> emits b c rs2 -> emits a c (rs1 ++ rs2).
Proof.
  intros (R1 & (d1 & O1 & S1) & T1) (R2 & (d2 & O2 & S2) & T2).
  repeat split.
  - by rewrite R2, R1, app_assoc.
  - exists (d1 ++ d2). split; [by rewrite O2, O1, app_assoc|].
    rewrite !fmap_app. by apply sublist_app.
  - congruence.
Qed.

Lemma emits_storage f (st : State) : emits st (with_storage f st) [].
Proof.
  unfold emits. cbn. repeat split; [by rewrite app_nil_r|].
  exists []. split; [by rewrite app_nil_r | constructor].
Qed.

(** ** The progress reporter *)

Section Reporter.

Variable env : Env.

Lemma send_status_eq (self : VideoProcessor) (message : string)
    (pr : option Z) (st : State) :
  send_status env self message pr st
  = let st1 := with_reported (fun log => log ++ [report self message pr]) st in
    match active_connections st !! task_id self with
    | None => (Return tt, st1)
    | Some ws =>
        match transport env (suspensions st) ws with
        | None =>
            (Return tt,
             with_outbox (fun box => box ++ [(ws, snd (report self message pr))])
               (resumed env st1))
        | Some e =>
            if is_disconnect e
            then (Return tt,
                  with_connections (Registry.close (task_id self)) (resumed env st1))
            else (Raise e, resumed env st1)
        end
    end.
Proof.
  unfold send_status, bind, try_except, modify, gets, send_json, suspend.
  cbn. destruct (active_connections st !! task_id self) as [ws|]; [|reflexivity].
  cbn. destruct (transport env (suspensions st) ws) as [[]|]; reflexivity.
Qed.

(** A report returns, having delivered its message or not, or it raises
    what the transport raised, which then is no disconnect. *)
Lemma send_status_cases (self : VideoProcessor) (message : string)
    (pr : option Z) (st : State) :
  (exists st', send_status env self message pr st = (Return tt, st')
               /\ emits st st' [report self message pr]
               /\ storage st' = storage st)
  \/ (exists e st', send_status env self message pr st = (Raise e, st')
                    /\ background_tasks st' = background_tasks st
                    /\ storage st' = storage st
                    /\ ~ benign env).
Proof.
  rewrite send_status_eq. cbv zeta.
  destruct (active_connections st !! task_id self) as [ws|].
  - destruct (transport env (suspensions st) ws) as [e|] eqn:T.
    + destruct (is_disconnect e) eqn:D.
      * left. eexists. split; [reflexivity|]. unfold emits. cbn.
        repeat split. exists []. split; [by rewrite app_nil_r | apply sublist_nil_l].
      * right. exists e. eexists. split; [reflexivity|]. cbn. repeat split.
        intros B. apply B in T. congruence.
    + left. eexists. split; [reflexivity|]. unfold emits. cbn.
      repeat split. eexists. split; [reflexivity|]. cbn. reflexivity.
  - left. eexists. split; [reflexivity|]. unfold emits. cbn.
    repeat split. exists []. split; [by rewrite app_nil_r | apply sublist_nil_l].
Qed.

(** The failure report of a stage followed by its [raise] never returns. *)
Lemma report_and_raise (self : VideoProcessor) (message : string)
    (pr : option Z) (e : exn) (st : State) :
  exists e' st',
    bind (send_status env self message pr) (fun _ => raise (A := unit) e) st
    = (Raise e', st')
    /\ background_tasks st' = background_tasks st
    /\ storage st' = storage st
    /\ (benign env -> e' = e).
Proof.
  destruct (send_status_cases self message pr st)
    as [(st' & E & (_ & _ & T) & S) | (e' & st' & E & T & S & NB)].
  - exists e, st'. rewrite (bind_Return _ _ _ _ _ E). auto.
  - exists e', st'. rewrite (bind_Raise _ _ _ _ _ E). repeat split; auto.
    intros B. contradiction.
Qed.

End Reporter.

(** ** The stages *)

Arguments send_status : simpl never.

Ltac step_report E :=
  match goal with
  | |- context [send_status ?env ?p ?m ?pr ?st] =>
      let st' := fresh "st" in
      let e := fresh "e" in
      let Em := fresh "Em" in
      let St := fresh "St" in
      let Tk := fresh "Tk" in
      let NB := fresh "NB" in
      destruct (send_status_cases env p m pr st)
        as [(st' & E & Em & St) | (e & st' & E & Tk & St & NB)];
      rewrite E; cbn
  end.

Ltac run_stage :=
  unfold bind, try_except, ret, raise, modify, gets, suspend; cbn.

Lemma emits_step (a b c : State) rs1 rs2 rs :
  emits a b rs1 -> emits b c rs2 -> rs = rs1 ++ rs2 -> emits a c rs.
Proof. intros H1 H2 ->. eapply emits_trans; eassumption. Qed.

Lemma emits_same (a b c : State) rs :
  reported b = reported a -> outbox b = outbox a ->
  background_tasks b = background_tasks a ->
  emits b c rs -> emits a c rs.
Proof.
  intros R O T (R' & (d & O' & S') & T'). unfold emits.
  rewrite R', O', T', R, O, T. eauto.
Qed.

(** Closes the side conditions of a raising branch: the task list and the
    storage outside the written path are as before. *)
Ltac frame :=
  repeat match goal with
         | H : emits _ _ _ |- _ => destruct H as (? & _ & ?)
         end;
  cbn in *;
  repeat split; intros;
  try contradiction;
  try congruence;
  try (repeat match goal with
              | H : storage ?s = _ |- context [storage ?s] => rewrite H
              end;
       rewrite ?lookup_insert_ne by congruence; congruence);
  eauto.

Section Stages.

Variable env : Env.

Lemma save_uploaded_video_cases (self : VideoProcessor) (st : State) :
  match save_uploaded_video env self st with
  | (Return _, st') =>
      ingest_failure env self = None
      /\ (exists data,
            read (video_file self) = Fine data
            /\ storage st' = <[video_path self := data]> (storage st))
      /\ emits st st'
           [report self "Uploading video..." (Some 10);
            report self "✅ Video uploaded successfully." (Some 20)]
  | (Raise e, st') =>
      background_tasks st' = background_tasks st
      /\ (forall path, path <> video_path self ->
                       storage st' !! path = storage st !! path)
      /\ (benign env ->
          exists cause,
            ingest_failure env self = Some cause
            /\ e = HTTPException 500 ("Failed to save video: " +:+ str cause))
  end.
Proof.
  unfold save_uploaded_video, ingest_failure. run_stage.
  step_report E1; [|frame].
  destruct (open_wb env (video_path self)) as [e|] eqn:V; cbn.
  { step_report E2; frame. }
  destruct (read (video_file self)) as [data|e] eqn:R; cbn.
  2:{ step_report E2; frame. }
  destruct (buffer_write env (video_path self) data) as [e|] eqn:W; cbn.
  { step_report E2; frame. }
  step_report E2.
  - split; [reflexivity|]. split.
    + exists data. split; [reflexivity|]. rewrite St0. cbn.
      rewrite St. apply insert_insert_eq.
    + eapply emits_step; [exact Em | | reflexivity].
      eapply emits_same; [.. | exact Em0]; reflexivity.
  - step_report E3; frame.
Qed.

Lemma extract_audio_cases (self : VideoProcessor) (st : State) :
  match extract_audio env self st with
  | (Return _, st') =>
      extraction_failure env self = None
      /\ (exists audio,
            write_audiofile env (audio_path self) = Written audio
            /\ storage st' = <[audio_path self := audio]> (storage st))
      /\ emits st st'
           [report self "Extracting audio from video..." (Some 30);
            report self "✅ Audio extraction complete." (Some 50)]
  | (Raise e, st') =>
      background_tasks st' = background_tasks st
      /\ (forall path, path <> audio_path self ->
                       storage st' !! path = storage st !! path)
      /\ (benign env ->
          exists cause,
            extraction_failure env self = Some cause
            /\ e = HTTPException 500 ("Audio extraction failed: " +:+ str cause))
  end.
Proof.
  unfold extract_audio, extraction_failure. run_stage.
  step_report E1; [|frame].
  destruct (VideoFileClip env (video_path self)) as [e|] eqn:V; cbn.
  { step_report E2; frame. }
  destruct (write_audiofile env (audio_path self)) as [audio|[part|] e] eqn:W; cbn.
  2,3: step_report E2; frame.
  step_report E2.
  - split; [reflexivity|]. split.
    + exists audio. split; [reflexivity|]. rewrite St0. cbn. by rewrite St.
    + eapply emits_step; [exact Em | | reflexivity].
      eapply emits_same; [.. | exact Em0]; reflexivity.
  - step_report E3; frame.
Qed.

Lemma report_segments_cases (self : VideoProcessor) (total : nat)
    (segs : list string) (i : nat) (st : State) :
  match report_segments env self total i segs st with
  | (Return _, st') =>
      emits st st' (segment_reports self total i segs)
      /\ storage st' = storage st
  | (Raise e, st') =>
      background_tasks st' = background_tasks st
      /\ storage st' = storage st
      /\ ~ benign env
  end.
Proof.
  revert i st. induction segs as [|segment rest IH]; intros i st;
    cbn [report_segments segment_reports].
  - split; [apply emits_refl | reflexivity].
  - unfold bind. step_report E1; [|frame].
    specialize (IH (S i) st0).
    destruct (report_segments env self total (S i) rest st0) as [[[]|e] st1].
    + destruct IH as [Em' St']. split; [|congruence].
      eapply emits_step; [exact Em | exact Em' | reflexivity].
    + destruct IH as (T & S' & NB). destruct Em as (_ & _ & T0).
      repeat split; congruence.
Qed.

Lemma transcribe_audio_cases (self : VideoProcessor) (st : State) :
  match transcribe_audio env self st with
  | (Return transcript, st') =>
      exists result,
        load_model env = None
        /\ transcribe env (audio_path self) = Fine result
        /\ transcript = text result
        /\ storage st' = storage st
        /\ emits st st'
             (report self "🔄 Transcribing audio with Whisper..." (Some 55)
              :: segment_reports self (length (segments result)) 0 (segments result)
              ++ [report self "✅ Audio transcription complete." (Some 70)])
  | (Raise e, st') =>
      background_tasks st' = background_tasks st
      /\ storage st' = storage st
      /\ (benign env ->
          exists cause,
            transcription_failure env self = Some cause
            /\ e = HTTPException 500 ("Transcription failed: " +:+ str cause))
  end.
Proof.
  unfold transcribe_audio, transcription_failure. run_stage.
  step_report E1; [|frame].
  destruct (load_model env) as [e|] eqn:L; cbn.
  { step_report E2; frame. }
  destruct (transcribe env (audio_path self)) as [result|e] eqn:T; cbn.
  2:{ step_report E2; frame. }
  pose proof (report_segments_cases self (length (segments result))
                (segments result) 0 st0) as Loop.
  destruct (report_segments env self (length (segments result)) 0
              (segments result) st0) as [[[]|e] st1]; cbn.
  - destruct Loop as [EmL StL]. step_report E2.
    + exists result. do 3 (split; [reflexivity|]). split; [congruence|].
      eapply emits_step; [exact Em | | reflexivity].
      eapply emits_step; [exact EmL | exact Em0 | reflexivity].
    + step_report E3; frame.
  - destruct Loop as (TkL & StL & NB). step_report E2; frame.
Qed.

Lemma summarize_text_cases (self : VideoProcessor) (transcript : string)
    (st : State) :
  match summarize_text env self transcript st with
  | (Return summary, st') =>
      chat_completion env transcript = Fine summary
      /\ storage st' = storage st
      /\ emits st st'
           [report self "📄 Generating summary..." (Some 80);
            report self "✅ Summary generated." (Some 90)]
  | (Raise e, st') =>
      background_tasks st' = background_tasks st
      /\ storage st' = storage st
      /\ (benign env ->
          exists cause,
            summarization_failure env transcript = Some cause
            /\ e = HTTPException 500 ("Summarization failed: " +:+ str cause))
  end.
Proof.
  unfold summarize_text, summarization_failure. run_stage.
  step_report E1; [|frame].
  destruct (chat_completion env transcript) as [summary|e] eqn:C; cbn.
  2:{ step_report E2; frame. }
  step_report E2.
  - split; [reflexivity|]. split; [congruence|].
    eapply emits_step; [exact Em | exact Em0 | reflexivity].
  - step_report E3; frame.
Qed.

Lemma save_summary_as_pdf_cases (self : VideoProcessor) (summary_md : string)
    (st : State) :
  match save_summary_as_pdf env self summary_md st with
  | (Return _, st') =>
      rendering_failure env self summary_md = None
      /\ (exists pdf,
            pdf_from_string env summary_md (pdf_path self) = Written pdf
            /\ storage st' = <[pdf_path self := pdf]> (storage st))
      /\ emits st st'
           [report self "📄 Generating PDF..." (Some 95);
            report self "✅ PDF generation complete." (Some 100)]
  | (Raise e, st') =>
      background_tasks st' = background_tasks st
      /\ (forall path, path <> pdf_path self ->
                       storage st' !! path = storage st !! path)
      /\ (benign env ->
          exists cause,
            rendering_failure env self summary_md = Some cause
            /\ e = HTTPException 500 ("PDF generation failed: " +:+ str cause))
  end.
Proof.
  unfold save_summary_as_pdf, rendering_failure. run_stage.
  step_report E1; [|frame].
  destruct (pdf_from_string env summary_md (pdf_path self))
    as [pdf|[part|] e] eqn:W; cbn.
  2,3: step_report E2; frame.
  step_report E2.
  - split; [reflexivity|]. split.
    + exists pdf. split; [reflexivity|]. rewrite St0. cbn. by rewrite St.
    + eapply emits_step; [exact Em | | reflexivity].
      eapply emits_same; [.. | exact Em0]; reflexivity.
  - step_report E3; frame.
Qed.

End Stages.

(** ** The coordinator *)

Lemma emits_logged (st st' : State) rs : emits st st' rs -> logged st st' rs.
Proof. intros (R & O & _). split; assumption. Qed.

Lemma logged_trans (a b c : State) rs1 rs2 :
  logged a b rs1 -> logged b c rs2 -> logged a c (rs1 ++ rs2).
Proof.
  intros (R1 & d1 & O1 & S1) (R2 & d2 & O2 & S2). split.
  - by rewrite R2, R1, app_assoc.
  - exists (d1 ++ d2). split; [by rewrite O2, O1, app_assoc|].
    rewrite !fmap_app. by apply sublist_app.
Qed.

Lemma logged_same (a b c : State) rs :
  reported b = reported a -> outbox b = outbox a ->
  logged b c rs -> logged a c rs.
Proof.
  intros R O (R' & d & O' & S'). unfold logged. rewrite R', O', R, O. eauto.
Qed.

Section Coordinator.

Variable env : Env.

Lemma asleep_frame (n : nat) (st : State) :
  storage (asleep env n st) = storage st
  /\ outbox (asleep env n st) = outbox st
  /\ reported (asleep env n st) = reported st
  /\ background_tasks (asleep env n st) = background_tasks st
  /\ suspensions (asleep env n st) = (suspensions st + n)%nat.
Proof.
  revert st. induction n as [|n IH]; intros st; cbn [asleep].
  - repeat split. lia.
  - destruct (IH (resumed env st)) as (A & B & C & D & E).
    rewrite A, B, C, D, E. cbn. repeat split. lia.
Qed.

(** The wait loop always returns, after at most [tries] sleeps. *)
Lemma wait_for_connection_returns (tries : nat) (tid : string) (st : State) :
  exists n, (n <= tries)%nat
            /\ wait_for_connection env tries tid st = (Return tt, asleep env n st).
Proof.
  revert st. induction tries as [|tries IH]; intros st; cbn [wait_for_connection].
  - exists 0%nat. split; [lia | reflexivity].
  - run_stage. destruct (Registry.mem tid (active_connections st)).
    + exists 0%nat. split; [lia | reflexivity].
    + unfold asyncio_sleep. run_stage.
      destruct (IH (resumed env st)) as (n & L & E).
      exists (S n). split; [lia|]. exact E.
Qed.

(** With no entry at any poll it sleeps [tries] times. *)
Lemma wait_for_connection_absent (tries : nat) (tid : string) (st : State) :
  (forall j, (j < tries)%nat -> active_connections (asleep env j st) !! tid = None) ->
  wait_for_connection env tries tid st = (Return tt, asleep env tries st).
Proof.
  revert st. induction tries as [|tries IH]; intros st H; cbn [wait_for_connection].
  - reflexivity.
  - run_stage. unfold Registry.mem.
    assert (active_connections st !! tid = None) as H0 by (apply (H 0%nat); lia).
    rewrite H0. rewrite bool_decide_eq_false_2 by (intros [? ?]; discriminate).
    unfold asyncio_sleep. run_stage. apply IH.
    intros j Hj. apply (H (S j)). lia.
Qed.

Lemma process_video_eq (file : UploadFile) (tid : string) (st st0 : State) :
  wait_for_connection env 6 tid st = (Return tt, st0) ->
  process_video env file tid st
  = match active_connections st0 !! tid with
    | None =>
        (Raise (HTTPException 400 "No active WebSocket connection for this task."),
         st0)
    | Some ws =>
        let self := new_VideoProcessor sanitize_filename file ws tid in
        match save_uploaded_video env self st0 with
        | (Raise e, st') => handled e st'
        | (Return _, st1) =>
            match extract_audio env self st1 with
            | (Raise e, st') => handled e st'
            | (Return _, st2) =>
                match transcribe_audio env self st2 with
                | (Raise e, st') => handled e st'
                | (Return transcript, st3) =>
                    match summarize_text env self transcript st3 with
                    | (Raise e, st') => handled e st'
                    | (Return summary_md, st4) =>
                        (Return (SummaryResponse summary_md ("/download/" +:+ tid)),
                         with_background_tasks
                           (fun tasks => tasks ++ [rendering_task self summary_md])
                           st4)
                    end
                end
            end
        end
    end.
Proof.
  intros W. unfold process_video. rewrite (bind_Return _ _ _ _ _ W).
  unfold bind at 1, gets. cbv beta iota.
  destruct (active_connections st0 !! tid) as [ws|]; [|reflexivity].
  cbv zeta. unfold try_except, bind, add_task, modify, ret, handled.
  destruct (save_uploaded_video env _ st0) as [[[]|[]] st1]; try reflexivity.
  destruct (extract_audio env _ st1) as [[[]|[]] st2]; try reflexivity.
  destruct (transcribe_audio env _ st2) as [[transcript|[]] st3]; try reflexivity.
  destruct (summarize_text env _ transcript st3) as [[summary|[]] st4]; reflexivity.
Qed.

End Coordinator.

(** * The claims *)

(** ** The connection registry *)

(** C8. The registry holds at most one entry per task identifier, whatever
    sequence of opens and closes it went through; opening a channel for an
    identifier overwrites the entry of that identifier and cannot fail (the
    handler registers and is in its loop); closing removes the entry, leaves
    the other identifiers alone, and is idempotent: closing an identifier
    that has no entry changes nothing. *)
Theorem registry_contract (conns : gmap string Channel) (tid : string)
    (ws ws' : Channel) :
  (forall events,
      NoDup ((map_to_list (foldl Registry.apply conns events)).*1))
  /\ Registry.open tid ws conns !! tid = Some ws
  /\ Registry.open tid ws' (Registry.open tid ws conns) = Registry.open tid ws' conns
  /\ (forall other, other <> tid ->
                    Registry.open tid ws conns !! other = conns !! other)
  /\ (forall env st,
         websocket_endpoint env 0 ws tid st
         = (Return Looping, with_connections (Registry.open tid ws) st))
  /\ Registry.close tid conns !! tid = None
  /\ (forall other, other <> tid ->
                    Registry.close tid conns !! other = conns !! other)
  /\ Registry.close tid (Registry.close tid conns) = Registry.close tid conns
  /\ (conns !! tid = None -> Registry.close tid conns = conns).
Proof.
  unfold Registry.open, Registry.close. repeat split.
  - intros events. apply NoDup_fst_map_to_list.
  - apply lookup_insert_eq.
  - apply insert_insert_eq.
  - intros other H. by apply lookup_insert_ne.
  - apply lookup_delete_eq.
  - intros other H. by apply lookup_delete_ne.
  - apply delete_delete_eq.
  - apply delete_id.
Qed.

Lemma registry_contract_witness :
  Registry.close "T" (Registry.close "T" (Registry.open "T" 7%nat ∅))
  = Registry.close "T" (Registry.open "T" 7%nat ∅)
  /\ Registry.close "T" (∅ : gmap string Channel) = ∅.
Proof.
  destruct (registry_contract (Registry.open "T" 7%nat ∅) "T" 7%nat 8%nat)
    as (_ & _ & _ & _ & _ & _ & _ & Idem & _).
  destruct (registry_contract ∅ "T" 7%nat 8%nat)
    as (_ & _ & _ & _ & _ & _ & _ & _ & Absent).
  split; [exact Idem | apply Absent; reflexivity].
Defined.

(** C10. Closing deregisters by task identifier, whatever channel the entry
    holds. When channel [c1] is registered for [tid], channel [c2] is then
    registered for the same [tid] while the handler of [c1] sleeps, and the
    next liveness message on [c1] raises [WebSocketDisconnect], the handler of
    [c1] removes the entry of [tid], which held [c2]. The same happens in
    [send_status]: a send on [c1] that fails after [c2] replaced it removes
    the entry of [c2]. *)
Theorem close_ignores_channel_identity (env : Env) (tid : string)
    (c1 c2 : Channel) (st : State) :
  Registry.close tid (Registry.open tid c2 (Registry.open tid c1
                                              (active_connections st))) !! tid
  = None
  /\ (forall reason,
         interleaving env (suspensions st) = [Opened tid c2] ->
         interleaving env (S (suspensions st)) = [] ->
         transport env (S (suspensions st)) c1 = Some (WebSocketDisconnect reason) ->
         let before := asleep env 2 (with_connections (Registry.open tid c1) st) in
         active_connections before !! tid = Some c2
         /\ websocket_endpoint env 1 c1 tid st
            = (Return Finished, with_connections (Registry.close tid) before)
         /\ active_connections (with_connections (Registry.close tid) before) !! tid
            = None)
  /\ (forall self message pr e,
         task_id self = tid ->
         active_connections st !! tid = Some c1 ->
         interleaving env (suspensions st) = [Opened tid c2] ->
         transport env (suspensions st) c1 = Some e ->
         is_disconnect e = true ->
         exists st',
           send_status env self message pr st = (Return tt, st')
           /\ active_connections (resumed env st) !! tid = Some c2
           /\ active_connections st' !! tid = None).
Proof.
  split; [apply lookup_delete_eq|]. split.
  - intros reason I0 I1 T before. subst before.
    cbn [asleep]. unfold websocket_endpoint, keep_alive, asyncio_sleep, send_json, resumed.
    run_stage. rewrite I0, I1, T. cbn.
    unfold Registry.open, Registry.close. rewrite lookup_insert_eq, lookup_delete_eq.
    repeat split.
  - intros self message pr e <- L I T D.
    rewrite send_status_eq. cbv zeta. rewrite L, T, D.
    eexists. split; [reflexivity|]. cbn. rewrite I. cbn.
    unfold Registry.open, Registry.close. rewrite lookup_insert_eq, lookup_delete_eq.
    split; reflexivity.
Qed.

Lemma close_ignores_channel_identity_witness :
  websocket_endpoint Example.reconnecting 1 7%nat "T" Example.idle
  = (Return Finished,
     with_connections (Registry.close "T")
       (asleep Example.reconnecting 2
          (with_connections (Registry.open "T" 7%nat) Example.idle)))
  /\ exists st',
       send_status Example.reconnecting
         (new_VideoProcessor sanitize_filename Example.upload 7%nat "T")
         "Uploading video..." (Some 10) Example.watched
       = (Return tt, st')
       /\ active_connections (resumed Example.reconnecting Example.watched) !! "T"
          = Some 8%nat
       /\ active_connections st' !! "T" = None.
Proof.
  destruct (close_ignores_channel_identity Example.reconnecting "T" 7%nat 8%nat
              Example.idle) as (_ & Handler & _).
  destruct (close_ignores_channel_identity Example.reconnecting "T" 7%nat 8%nat
              Example.watched) as (_ & _ & Reporter).
  split.
  - apply (Handler "1006"); reflexivity.
  - apply (Reporter _ _ _ (WebSocketDisconnect "1006")); reflexivity.
Defined.

(** ** Document retrieval *)

Lemma download_pdf_absent (tid : string) (files : gmap string bytes) :
  files !! pdf_path_of tid = None ->
  download_pdf tid files = Raise (HTTPException 404 "PDF file not found.").
Proof. intros H. unfold download_pdf. fold (pdf_path_of tid). by rewrite H. Qed.

(** C7. [download_pdf] raises the 404 error exactly when storage holds no
    file at the document path of the task identifier; otherwise it returns
    the bytes of that file with the media type [application/pdf]. *)
Theorem download_pdf_not_found_iff (tid : string) (files : gmap string bytes) :
  (download_pdf tid files = Raise (HTTPException 404 "PDF file not found.")
   <-> files !! pdf_path_of tid = None)
  /\ (forall content,
         files !! pdf_path_of tid = Some content ->
         download_pdf tid files
         = Return {| response_path := pdf_path_of tid;
                     response_filename := "summary_" +:+ tid +:+ ".pdf";
                     media_type := "application/pdf";
                     body := content |}).
Proof.
  unfold download_pdf. fold (pdf_path_of tid). split.
  - destruct (files !! pdf_path_of tid); split; intros H; try discriminate; reflexivity.
  - intros content ->. reflexivity.
Qed.

Lemma download_pdf_not_found_iff_witness :
  download_pdf "T" ∅ = Raise (HTTPException 404 "PDF file not found.")
  /\ download_pdf "T" {[ "downloads/T.pdf" := [Byte.x25] ]}
     = Return {| response_path := "downloads/T.pdf";
                 response_filename := "summary_T.pdf";
                 media_type := "application/pdf";
                 body := [Byte.x25] |}.
Proof.
  split.
  - apply (download_pdf_not_found_iff "T" ∅). reflexivity.
  - apply (download_pdf_not_found_iff "T" {[ "downloads/T.pdf" := [Byte.x25] ]}).
    reflexivity.
Defined.

(** ** Derived paths *)

(** C9. With the [sanitize_filename] of either file, the audio path equals
    the video path exactly when the sanitized filename does not contain
    [.mp4]; in that case a successful [extract_audio] leaves the audio
    bytes in storage under the video path, in place of the saved upload. *)
Theorem audio_path_overwrites_video (name : string) :
  (audio_path_of sanitize_filename name = video_path_of sanitize_filename name
   <-> PyStr.contains ".mp4" (sanitize_filename name) = false)
  /\ (audio_path_of sanitize_filename_openai name
      = video_path_of sanitize_filename_openai name
      <-> PyStr.contains ".mp4" (sanitize_filename_openai name) = false)
  /\ (forall env file ws tid st st',
         filename file = name ->
         PyStr.contains ".mp4" (sanitize_filename name) = false ->
         let self := new_VideoProcessor sanitize_filename file ws tid in
         extract_audio env self st = (Return tt, st') ->
         exists audio,
           write_audiofile env (video_path self) = Written audio
           /\ storage st' !! video_path self = Some audio).
Proof.
  split; [|split].
  - apply audio_path_same_iff, sanitize_filename_relative.
  - apply audio_path_same_iff, sanitize_filename_openai_relative.
  - intros env file ws tid st st' <- C self E.
    pose proof (extract_audio_cases env self st) as H. rewrite E in H.
    destruct H as (_ & (audio & W & S) & _).
    assert (audio_path self = video_path self) as Same
      by (apply audio_path_same_iff; [apply sanitize_filename_relative | exact C]).
    rewrite Same in *. exists audio. split; [exact W|].
    rewrite S. apply lookup_insert_eq.
Qed.

Lemma audio_path_overwrites_video_witness :
  audio_path_of sanitize_filename "talk.mov" = "downloads/talk.mov"
  /\ exists audio,
       write_audiofile Example.quiet "downloads/talk.mov" = Written audio
       /\ storage
            (snd (extract_audio Example.quiet
                    (new_VideoProcessor sanitize_filename
                       {| filename := "talk.mov"; read := Fine [] |} 7%nat "T")
                    Example.watched))
          !! "downloads/talk.mov" = Some audio.
Proof.
  destruct (audio_path_overwrites_video "talk.mov") as (Same & _ & Over).
  split.
  - apply Same. reflexivity.
  - apply (Over Example.quiet {| filename := "talk.mov"; read := Fine [] |}
             7%nat "T" Example.watched); reflexivity.
Defined.

(** ** The wait for a viewer *)

(** C2. When the registry has no entry for the task identifier at any of the
    observations of the wait (the six polls of the loop, one sleep apart,
    and the test after the loop), [process_video] raises the 400 error
    after six sleeps, and nothing else happened: storage, the messages
    delivered, the reports made and the background tasks are as they
    were. *)
Theorem no_viewer_no_pipeline (env : Env) (file : UploadFile) (tid : string)
    (st : State) :
  (forall j, (j <= 6)%nat -> active_connections (asleep env j st) !! tid = None) ->
  let st' := asleep env 6 st in
  process_video env file tid st
  = (Raise (HTTPException 400 "No active WebSocket connection for this task."), st')
  /\ storage st' = storage st
  /\ outbox st' = outbox st
  /\ reported st' = reported st
  /\ background_tasks st' = background_tasks st.
Proof.
  intros H st'. subst st'. split.
  - rewrite (process_video_eq env file tid st (asleep env 6 st)).
    + rewrite (H 6%nat) by lia. reflexivity.
    + apply wait_for_connection_absent. intros j Hj. apply H. lia.
  - destruct (asleep_frame env 6 st) as (A & B & C & D & _). auto.
Qed.

Lemma no_viewer_no_pipeline_witness :
  process_video Example.quiet Example.upload "T" Example.idle
  = (Raise (HTTPException 400 "No active WebSocket connection for this task."),
     asleep Example.quiet 6 Example.idle)
  /\ storage (asleep Example.quiet 6 Example.idle) = ∅.
Proof.
  destruct (no_viewer_no_pipeline Example.quiet Example.upload "T" Example.idle)
    as (R & S & _).
  - intros j Hj. do 7 (destruct j as [|j]; [reflexivity|]). lia.
  - split; [exact R | exact S].
Defined.

(** ** Stage failures *)

Lemma first_failure_None (env : Env) (self : VideoProcessor) :
  first_failure env self = None ->
  ingest_failure env self = None
  /\ extraction_failure env self = None
  /\ exists result summary,
       load_model env = None
       /\ transcribe env (audio_path self) = Fine result
       /\ chat_completion env (text result) = Fine summary.
Proof.
  unfold first_failure.
  destruct (ingest_failure env self); [discriminate|].
  destruct (extraction_failure env self); [discriminate|].
  destruct (load_model env); [discriminate|].
  destruct (transcribe env (audio_path self)) as [result|]; [|discriminate].
  destruct (chat_completion env (text result)) as [summary|] eqn:C; [|discriminate].
  intros _. repeat split. exists result, summary. auto.
Qed.

Lemma failure_label_inj (s s' : Stage) :
  failure_label s = failure_label s' -> s = s'.
Proof. destruct s, s'; intros H; try reflexivity; discriminate H. Qed.

Lemma wait_for_connection_frame (env : Env) (tid : string) (st st0 : State) :
  wait_for_connection env 6 tid st = (Return tt, st0) ->
  storage st0 = storage st
  /\ outbox st0 = outbox st
  /\ reported st0 = reported st
  /\ background_tasks st0 = background_tasks st.
Proof.
  intros W. destruct (wait_for_connection_returns env 6 tid st) as (n & _ & E).
  rewrite E in W. injection W as <-.
  destruct (asleep_frame env n st) as (A & B & C & D & _). auto.
Qed.

(** C1. When the external calls of one of the four synchronous stages
    raise, and the transport raises nothing but disconnects, the run of
    [process_video] ends in the state in which that stage raised its
    [HTTPException]: nothing after the stage ran. The response is the error
    body whose message is the label of the failing stage, a colon, and the
    text of the cause; the labels of the stages differ from one another, and
    the label of audio extraction contains [extract]. No background task was
    registered, and storage is unchanged outside the video path and the
    audio path, so that no document was written. *)
Theorem stage_failure_aborts (env : Env) (file : UploadFile) (tid : string)
    (st st0 : State) (ws : Channel) (s : Stage) (cause : exn) :
  benign env ->
  wait_for_connection env 6 tid st = (Return tt, st0) ->
  active_connections st0 !! tid = Some ws ->
  let self := new_VideoProcessor sanitize_filename file ws tid in
  first_failure env self = Some (s, cause) ->
  let detail := failure_label s +:+ ": " +:+ str cause in
  exists st',
    run_through env self s st0 = (Raise (HTTPException 500 detail), st')
    /\ process_video env file tid st = (Return (ErrorResponse detail), st')
    /\ background_tasks st' = background_tasks st
    /\ (forall path, path <> video_path self -> path <> audio_path self ->
                     storage st' !! path = storage st !! path)
    /\ (forall s', failure_label s' = failure_label s -> s' = s)
    /\ PyStr.contains "extract" (failure_label AudioExtraction) = true.
Proof.
  intros B W L self F detail. subst detail.
  rewrite (process_video_eq env file tid st st0 W), L. cbv zeta. fold self.
  destruct (wait_for_connection_frame env tid st st0 W) as (S0 & _ & _ & T0).
  unfold first_failure in F.
  (* stage 1 *)
  pose proof (save_uploaded_video_cases env self st0) as H1.
  destruct (save_uploaded_video env self st0) as [[[]|e1] st1] eqn:E1.
  2:{ destruct H1 as (T1 & S1 & C1). destruct (C1 B) as (c & Fc & ->).
      rewrite Fc in F. injection F as <- <-.
      exists st1. split; [exact E1|]. split; [reflexivity|].
      split; [congruence|]. split.
      - intros path Hv Ha. rewrite S1 by exact Hv. by rewrite S0.
      - split; [intros s'; apply failure_label_inj | reflexivity]. }
  destruct H1 as (F1 & (data & _ & S1) & (_ & _ & T1)). rewrite F1 in F.
  (* stage 2 *)
  pose proof (extract_audio_cases env self st1) as H2.
  destruct (extract_audio env self st1) as [[[]|e2] st2] eqn:E2.
  2:{ destruct H2 as (T2 & S2 & C2). destruct (C2 B) as (c & Fc & ->).
      rewrite Fc in F. injection F as <- <-.
      exists st2. split.
      { unfold run_through. rewrite (bind_Return _ _ _ _ _ E1). exact E2. }
      split; [reflexivity|]. split; [congruence|]. split.
      - intros path Hv Ha. rewrite S2 by exact Ha. rewrite S1.
        rewrite lookup_insert_ne by congruence. by rewrite S0.
      - split; [intros s'; apply failure_label_inj | reflexivity]. }
  destruct H2 as (F2 & (audio & _ & S2) & (_ & _ & T2)). rewrite F2 in F.
  (* stage 3 *)
  pose proof (transcribe_audio_cases env self st2) as H3.
  destruct (transcribe_audio env self st2) as [[transcript|e3] st3] eqn:E3.
  2:{ destruct H3 as (T3 & S3 & C3). destruct (C3 B) as (c & Fc & ->).
      unfold transcription_failure in Fc.
      assert (s = Transcribing /\ cause = c) as [-> ->].
      { destruct (load_model env); [by simplify_eq|].
        destruct (transcribe env (audio_path self)); by simplify_eq. }
      exists st3. split.
      { unfold run_through. rewrite (bind_Return _ _ _ _ _ E1).
        rewrite (bind_Return _ _ _ _ _ E2). by rewrite (bind_Raise _ _ _ _ _ E3). }
      split; [reflexivity|]. split; [congruence|]. split.
      - intros path Hv Ha. rewrite S3, S2, S1.
        rewrite !lookup_insert_ne by congruence. by rewrite S0.
      - split; [intros s'; apply failure_label_inj | reflexivity]. }
  destruct H3 as (result & Lm & Tr & -> & S3 & (_ & _ & T3)).
  rewrite Lm, Tr in F.
  (* stage 4 *)
  pose proof (summarize_text_cases env self (text result) st3) as H4.
  destruct (summarize_text env self (text result) st3) as [[summary|e4] st4] eqn:E4.
  2:{ destruct H4 as (T4 & S4 & C4). destruct (C4 B) as (c & Fc & ->).
      unfold summarization_failure in Fc.
      assert (s = Summarization /\ cause = c) as [-> ->].
      { destruct (chat_completion env (text result)); by simplify_eq. }
      exists st4. split.
      { unfold run_through. rewrite (bind_Return _ _ _ _ _ E1).
        rewrite (bind_Return _ _ _ _ _ E2). rewrite (bind_Return _ _ _ _ _ E3).
        by rewrite (bind_Raise _ _ _ _ _ E4). }
      split; [reflexivity|]. split; [congruence|]. split.
      - intros path Hv Ha. rewrite S4, S3, S2, S1.
        rewrite !lookup_insert_ne by congruence. by rewrite S0.
      - split; [intros s'; apply failure_label_inj | reflexivity]. }
  destruct H4 as (Ch & _). rewrite Ch in F. discriminate F.
Qed.

Lemma stage_failure_aborts_witness :
  exists st',
    process_video Example.undecodable Example.upload "T" Example.watched
    = (Return (ErrorResponse "Audio extraction failed: moov atom not found"), st')
    /\ background_tasks st' = []
    /\ storage st' !! "downloads/T.pdf" = None.
Proof.
  destruct (stage_failure_aborts Example.undecodable Example.upload "T"
              Example.watched Example.watched 7%nat AudioExtraction
              (OtherError "moov atom not found"))
    as (st' & _ & R & T & S & _).
  - intros k ws e H. discriminate H.
  - reflexivity.
  - reflexivity.
  - reflexivity.
  - exists st'. split; [exact R|]. split; [exact T|].
    rewrite S; [reflexivity | discriminate | discriminate].
Defined.

(** ** Reporting is best effort *)

Lemma pipeline_succeeds (env : Env) (file : UploadFile) (tid : string)
    (st st0 : State) (ws : Channel) :
  benign env ->
  wait_for_connection env 6 tid st = (Return tt, st0) ->
  active_connections st0 !! tid = Some ws ->
  let self := new_VideoProcessor sanitize_filename file ws tid in
  first_failure env self = None ->
  exists result summary st',
    transcribe env (audio_path self) = Fine result
    /\ chat_completion env (text result) = Fine summary
    /\ process_video env file tid st
       = (Return (SummaryResponse summary ("/download/" +:+ tid)), st').
Proof.
  intros B W L self F.
  apply first_failure_None in F as (F1 & F2 & result & summary & Lm & Tr & Ch).
  exists result, summary.
  rewrite (process_video_eq env file tid st st0 W), L. cbv zeta. fold self.
  pose proof (save_uploaded_video_cases env self st0) as H1.
  destruct (save_uploaded_video env self st0) as [[[]|e1] st1].
  2:{ destruct H1 as (_ & _ & C). destruct (C B) as (c & Fc & _). congruence. }
  pose proof (extract_audio_cases env self st1) as H2.
  destruct (extract_audio env self st1) as [[[]|e2] st2].
  2:{ destruct H2 as (_ & _ & C). destruct (C B) as (c & Fc & _). congruence. }
  pose proof (transcribe_audio_cases env self st2) as H3.
  destruct (transcribe_audio env self st2) as [[transcript|e3] st3].
  2:{ destruct H3 as (_ & _ & C). destruct (C B) as (c & Fc & _).
      unfold transcription_failure in Fc. rewrite Lm, Tr in Fc. discriminate. }
  destruct H3 as (result' & _ & Tr' & -> & _).
  assert (result' = result) as -> by congruence.
  pose proof (summarize_text_cases env self (text result) st3) as H4.
  destruct (summarize_text env self (text result) st3) as [[summary'|e4] st4].
  2:{ destruct H4 as (_ & _ & C). destruct (C B) as (c & Fc & _).
      unfold summarization_failure in Fc. rewrite Ch in Fc. discriminate. }
  destruct H4 as (Ch' & _). assert (summary' = summary) as -> by congruence.
  eexists. repeat split; assumption || reflexivity.
Qed.

(** C4. A report made while the registry has no entry for the task returns
    at once: nothing is sent and the state is as before, but for the log of
    reports. A report whose send raises [WebSocketDisconnect] or
    [RuntimeError] returns as well: the entry of the task is gone from the
    registry, nothing was delivered, storage and the background tasks are
    untouched. Hence, when the transport raises nothing but disconnects and
    no external call of a stage raises, [process_video] returns the summary,
    whatever happens to the channel and to the registry during the run. *)
Theorem reporting_never_aborts (env : Env) :
  (forall self message pr st,
      active_connections st !! task_id self = None ->
      send_status env self message pr st
      = (Return tt,
         with_reported (fun log => log ++ [report self message pr]) st))
  /\ (forall self message pr st ws e,
         active_connections st !! task_id self = Some ws ->
         transport env (suspensions st) ws = Some e ->
         is_disconnect e = true ->
         exists st',
           send_status env self message pr st = (Return tt, st')
           /\ active_connections st' !! task_id self = None
           /\ outbox st' = outbox st
           /\ storage st' = storage st
           /\ background_tasks st' = background_tasks st)
  /\ (forall file tid st st0 ws,
         benign env ->
         wait_for_connection env 6 tid st = (Return tt, st0) ->
         active_connections st0 !! tid = Some ws ->
         let self := new_VideoProcessor sanitize_filename file ws tid in
         first_failure env self = None ->
         exists result summary st',
           transcribe env (audio_path self) = Fine result
           /\ chat_completion env (text result) = Fine summary
           /\ process_video env file tid st
              = (Return (SummaryResponse summary ("/download/" +:+ tid)), st')).
Proof.
  split; [|split].
  - intros self message pr st L. rewrite send_status_eq, L. reflexivity.
  - intros self message pr st ws e L T D.
    rewrite send_status_eq, L, T, D. cbv zeta.
    eexists. split; [reflexivity|]. cbn.
    unfold Registry.close. rewrite lookup_delete_eq. repeat split.
  - intros file tid st st0 ws. apply pipeline_succeeds.
Qed.

Lemma reporting_never_aborts_witness :
  (exists st',
      send_status Example.reconnecting
        (new_VideoProcessor sanitize_filename Example.upload 7%nat "T")
        "Uploading video..." (Some 10) Example.watched
      = (Return tt, st')
      /\ active_connections st' !! "T" = None)
  /\ exists st',
       process_video Example.reconnecting Example.upload "T" Example.watched
       = (Return (SummaryResponse "## hello world" "/download/T"), st').
Proof.
  destruct (reporting_never_aborts Example.reconnecting) as (_ & Lost & Run).
  split.
  - destruct (Lost (new_VideoProcessor sanitize_filename Example.upload 7%nat "T")
                "Uploading video..." (Some 10) Example.watched 7%nat
                (WebSocketDisconnect "1006"))
      as (st' & E & Gone & _); [reflexivity..|].
    exists st'. split; [exact E | exact Gone].
  - destruct (Run Example.upload "T" Example.watched Example.watched 7%nat)
      as (result & summary & st' & Tr & Ch & E).
    + intros k ws e H. cbn in H. destruct (Nat.eqb ws 7); [|discriminate].
      injection H as <-. reflexivity.
    + reflexivity.
    + reflexivity.
    + reflexivity.
    + exists st'. cbn in Tr. injection Tr as <-. cbn in Ch. injection Ch as <-.
      exact E.
Defined.

(** ** Percentages *)

Lemma segment_progress_floor (i n : nat) :
  (0 < n)%nat ->
  segment_progress i n = 55 + (15 * Z.of_nat i) / Z.of_nat n.
Proof.
  intros Hn. unfold segment_progress, int. destruct n as [|n]; [lia|].
  rewrite Nat2Z.inj_succ, <- Z.add_1_r.
  assert (exists p, Z.of_nat n + 1 = Z.pos p) as [p ->]
    by (exists (Pos.of_succ_nat n); lia).
  unfold Qdiv, Qinv, Qmult, inject_Z, Qle_bool, Qfloor. cbn [Qnum Qden].
  rewrite Pos.mul_1_l, Pos.mul_1_r.
  destruct (Z.leb_spec (0 * Z.pos p) (Z.of_nat i * 1 * 15 * 1)); [|lia].
  do 2 f_equal. lia.
Qed.

(** In binary64 the [int] of the product is the same number, for every
    index and every total up to 256. *)
Lemma segment_progress_binary64 :
  forallb
    (fun n =>
       forallb
         (fun i =>
            float_int_is (float_fraction i n)
              (Z.to_nat (segment_progress i n - 55)))
         (seq 0 n))
    (seq 1 256)
  = true.
Proof. vm_compute. reflexivity. Qed.

Lemma segment_progress_range (i n : nat) :
  (i < n)%nat -> 55 <= segment_progress i n < 70.
Proof.
  intros H. rewrite segment_progress_floor by lia.
  assert (0 <= (15 * Z.of_nat i) / Z.of_nat n < 15); [|lia]. split.
  - apply Z.div_pos; lia.
  - apply Z.div_lt_upper_bound; lia.
Qed.

Lemma segment_progress_mono (i j n : nat) :
  (0 < n)%nat -> (i <= j)%nat -> segment_progress i n <= segment_progress j n.
Proof.
  intros Hn H. rewrite !segment_progress_floor by lia.
  apply Z.add_le_mono_l, Z.div_le_mono; lia.
Qed.

Lemma segment_reports_length (self : VideoProcessor) (total i : nat)
    (segs : list string) :
  length (segment_reports self total i segs) = length segs.
Proof.
  revert i. induction segs as [|seg segs IH]; intros i; [reflexivity|].
  cbn [segment_reports length]. by rewrite IH.
Qed.

Lemma segment_reports_lookup (self : VideoProcessor) (total k : nat)
    (segs : list string) (i : nat) (segment : string) :
  segs !! i = Some segment ->
  segment_reports self total k segs !! i
  = Some (report self ("📝 Transcribing: " +:+ PyStr.take 50 segment +:+ "...")
            (Some (segment_progress (k + i) total))).
Proof.
  revert k i. induction segs as [|seg segs IH]; intros k i H; [discriminate|].
  destruct i as [|i]; cbn [segment_reports].
  - injection H as ->. by rewrite Nat.add_0_r.
  - replace (k + S i)%nat with (S k + i)%nat by lia. exact (IH (S k) i H).
Qed.

Lemma percentages_app {A} (l1 l2 : list (A * StatusMessage)) :
  percentages (l1 ++ l2) = percentages l1 ++ percentages l2.
Proof. apply omap_app. Qed.

Lemma percentages_cons_Some {A} (a : A) (message : string) (p : Z)
    (l : list (A * StatusMessage)) :
  percentages ((a, {| status := message; progress := Some p |}) :: l)
  = p :: percentages l.
Proof. reflexivity. Qed.

Lemma percentages_segment_reports (self : VideoProcessor) (total i : nat)
    (segs : list string) :
  percentages (segment_reports self total i segs)
  = (fun j => segment_progress j total) <$> seq i (length segs).
Proof.
  revert i. induction segs as [|seg segs IH]; intros i; [reflexivity|].
  cbn [segment_reports length seq fmap list_fmap]. rewrite <- IH. reflexivity.
Qed.

Lemma percentages_snd {A} (l : list (A * StatusMessage)) :
  percentages l = omap progress (l.*2).
Proof.
  induction l as [|[a m] l IH]; [reflexivity|].
  cbn. unfold percentages in IH. cbn. rewrite IH. reflexivity.
Qed.

Lemma sublist_omap {A B} (f : A -> option B) (l1 l2 : list A) :
  sublist l1 l2 -> sublist (omap f l1) (omap f l2).
Proof.
  induction 1 as [|x l1 l2 _ IH|x l1 l2 _ IH]; cbn.
  - constructor.
  - destruct (f x); [by constructor | exact IH].
  - destruct (f x); [by constructor | exact IH].
Qed.

Lemma sublist_percentages {A B} (l1 : list (A * StatusMessage))
    (l2 : list (B * StatusMessage)) :
  sublist (l1.*2) (l2.*2) -> sublist (percentages l1) (percentages l2).
Proof. rewrite !percentages_snd. apply sublist_omap. Qed.

Lemma sublist_Forall {A} (P : A -> Prop) (l1 l2 : list A) :
  sublist l1 l2 -> Forall P l2 -> Forall P l1.
Proof.
  induction 1 as [|x l1 l2 _ IH|x l1 l2 _ IH]; intros H; [constructor|..].
  - apply Forall_cons in H as [Hx H]. constructor; auto.
  - apply Forall_cons in H as [_ H]. auto.
Qed.

Lemma sublist_StronglySorted {A} (R : relation A) (l1 l2 : list A) :
  sublist l1 l2 -> StronglySorted R l2 -> StronglySorted R l1.
Proof.
  induction 1 as [|x l1 l2 S IH|x l1 l2 _ IH]; intros H; [constructor|..].
  - apply StronglySorted_cons in H as [F H]. constructor; [auto|].
    eapply sublist_Forall; eassumption.
  - apply StronglySorted_cons in H as [_ H]. auto.
Qed.

Lemma transcription_percentages_range (n : nat) :
  Forall (fun p => 55 <= p <= 70) (transcription_percentages n).
Proof.
  unfold transcription_percentages. constructor; [lia|].
  apply Forall_app. split; [|constructor; [lia | constructor]].
  apply Forall_fmap, Forall_seq. intros i Hi. cbn.
  pose proof (segment_progress_range i n). lia.
Qed.

Lemma segment_percentages_sorted (n i k : nat) :
  (0 < n)%nat ->
  StronglySorted Z.le ((fun j => segment_progress j n) <$> seq i k).
Proof.
  intros Hn. revert i. induction k as [|k IH]; intros i; [constructor|].
  cbn [seq fmap list_fmap]. constructor; [apply IH|].
  apply Forall_fmap, Forall_seq. intros j Hj. cbn.
  apply segment_progress_mono; lia.
Qed.

Lemma transcription_percentages_sorted (n : nat) :
  StronglySorted Z.le (transcription_percentages n).
Proof.
  unfold transcription_percentages. constructor.
  - apply StronglySorted_app_2.
    + intros x y Hx Hy. apply list_elem_of_fmap in Hx as (i & -> & Hi).
      apply elem_of_seq in Hi. apply list_elem_of_singleton in Hy as ->.
      pose proof (segment_progress_range i n). lia.
    + destruct n; [constructor | apply segment_percentages_sorted; lia].
    + repeat constructor.
  - pose proof (transcription_percentages_range n) as H.
    unfold transcription_percentages in H. apply Forall_cons in H as [_ H].
    eapply Forall_impl; [exact H|]. cbn. intros; lia.
Qed.

Lemma planned_sorted (n : nat) :
  StronglySorted Z.le
    ([10; 20] ++ [30; 50] ++ transcription_percentages n ++ [80; 90] ++ [95; 100]).
Proof.
  pose proof (transcription_percentages_range n) as R.
  pose proof (transcription_percentages_sorted n) as S.
  revert R S. generalize (transcription_percentages n) as t. intros t R S.
  assert (forall lo, lo <= 55 -> Forall (Z.le lo) (t ++ [80; 90; 95; 100]))
    as Above.
  { intros lo Hlo. apply Forall_app. split.
    - eapply Forall_impl; [exact R|]. cbn. intros; lia.
    - repeat constructor; lia. }
  assert (StronglySorted Z.le (t ++ [80; 90; 95; 100])) as Tail.
  { apply StronglySorted_app_2; [|exact S|repeat constructor; lia].
    intros x y Hx Hy. rewrite Forall_forall in R. apply R in Hx.
    repeat (apply elem_of_cons in Hy as [->|Hy]; [lia|]).
    by apply elem_of_nil in Hy. }
  cbn [app].
  repeat (constructor; [|repeat (constructor; [lia|]); apply Above; lia]).
  exact Tail.
Qed.

(** ** Transcription *)

(** C6. When Whisper returns a result with [n >= 1] segments (and the
    transport raises nothing but disconnects), [transcribe_audio] returns
    the text, having reported, after its opening message at 55, one message
    per segment in order, the [i]-th carrying the percentage
    [55 + floor (15 * i / n)], which lies in [55, 70), and then its closing
    message at 70. *)
Theorem transcription_progress (env : Env) (self : VideoProcessor)
    (st : State) (result : Transcription) :
  benign env ->
  load_model env = None ->
  transcribe env (audio_path self) = Fine result ->
  let n := length (segments result) in
  (1 <= n)%nat ->
  exists st',
    transcribe_audio env self st = (Return (text result), st')
    /\ reported st'
       = reported st
         ++ report self "🔄 Transcribing audio with Whisper..." (Some 55)
            :: segment_reports self n 0 (segments result)
            ++ [report self "✅ Audio transcription complete." (Some 70)]
    /\ length (segment_reports self n 0 (segments result)) = n
    /\ (forall i segment,
           segments result !! i = Some segment ->
           segment_reports self n 0 (segments result) !! i
           = Some (report self
                     ("📝 Transcribing: " +:+ PyStr.take 50 segment +:+ "...")
                     (Some (segment_progress i n)))
           /\ segment_progress i n = 55 + (15 * Z.of_nat i) / Z.of_nat n
           /\ 55 <= segment_progress i n < 70).
Proof.
  intros B Lm Tr n Hn.
  pose proof (transcribe_audio_cases env self st) as H.
  destruct (transcribe_audio env self st) as [[transcript|e] st'].
  2:{ destruct H as (_ & _ & C). destruct (C B) as (c & Fc & _).
      unfold transcription_failure in Fc. rewrite Lm, Tr in Fc. discriminate. }
  destruct H as (result' & _ & Tr' & -> & _ & (R & _)).
  assert (result' = result) as -> by congruence.
  exists st'. split; [reflexivity|]. split; [exact R|].
  split; [apply segment_reports_length|].
  intros i segment Hi. split; [exact (segment_reports_lookup self n 0 _ i _ Hi)|].
  apply lookup_lt_Some in Hi. fold n in Hi.
  split; [apply segment_progress_floor; lia | apply segment_progress_range; exact Hi].
Qed.

Lemma transcription_progress_witness :
  exists st',
    transcribe_audio Example.quiet
      (new_VideoProcessor sanitize_filename Example.upload 7%nat "T")
      Example.watched
    = (Return "hello world", st')
    /\ percentages (reported st') = [55; 55; 60; 65; 70].
Proof.
  destruct (transcription_progress Example.quiet
              (new_VideoProcessor sanitize_filename Example.upload 7%nat "T")
              Example.watched
              {| text := "hello world"; segments := ["hello"; " world"; "!"] |})
    as (st' & E & R & _).
  - intros k ws e H. discriminate H.
  - reflexivity.
  - reflexivity.
  - cbn. lia.
  - exists st'. split; [exact E|]. rewrite R. vm_compute. reflexivity.
Defined.

(** ** The synchronous stages as a whole *)

Lemma synchronous_stages_inv (env : Env) (self : VideoProcessor)
    (st0 st4 : State) (summary : string) :
  synchronous_stages env self st0 = (Return summary, st4) ->
  exists st1 st2 st3 transcript,
    save_uploaded_video env self st0 = (Return tt, st1)
    /\ extract_audio env self st1 = (Return tt, st2)
    /\ transcribe_audio env self st2 = (Return transcript, st3)
    /\ summarize_text env self transcript st3 = (Return summary, st4).
Proof.
  unfold synchronous_stages, bind. intros H.
  destruct (save_uploaded_video env self st0) as [[[]|] st1] eqn:E1; [|discriminate].
  destruct (extract_audio env self st1) as [[[]|] st2] eqn:E2; [|discriminate].
  destruct (transcribe_audio env self st2) as [[transcript|] st3] eqn:E3;
    [|discriminate].
  exists st1, st2, st3, transcript. repeat split; assumption.
Qed.

Lemma synchronous_stages_returns (env : Env) (self : VideoProcessor)
    (st0 st4 : State) (summary : string) :
  synchronous_stages env self st0 = (Return summary, st4) ->
  exists data audio result rs,
    read (video_file self) = Fine data
    /\ write_audiofile env (audio_path self) = Written audio
    /\ transcribe env (audio_path self) = Fine result
    /\ chat_completion env (text result) = Fine summary
    /\ storage st4
       = <[audio_path self := audio]> (<[video_path self := data]> (storage st0))
    /\ background_tasks st4 = background_tasks st0
    /\ logged st0 st4 rs
    /\ percentages rs
       = [10; 20] ++ [30; 50]
         ++ transcription_percentages (length (segments result)) ++ [80; 90].
Proof.
  intros H. apply synchronous_stages_inv in H
    as (st1 & st2 & st3 & transcript & E1 & E2 & E3 & E4).
  pose proof (save_uploaded_video_cases env self st0) as H1. rewrite E1 in H1.
  pose proof (extract_audio_cases env self st1) as H2. rewrite E2 in H2.
  pose proof (transcribe_audio_cases env self st2) as H3. rewrite E3 in H3.
  pose proof (summarize_text_cases env self transcript st3) as H4. rewrite E4 in H4.
  destruct H1 as (_ & (data & Rd & S1) & Em1).
  destruct H2 as (_ & (audio & Wa & S2) & Em2).
  destruct H3 as (result & _ & Tr & -> & S3 & Em3).
  destruct H4 as (Ch & S4 & Em4).
  exists data, audio, result. eexists.
  do 4 (split; [eassumption|]). split; [by rewrite S4, S3, S2, S1|].
  split.
  { destruct Em1 as (_ & _ & T1), Em2 as (_ & _ & T2), Em3 as (_ & _ & T3),
      Em4 as (_ & _ & T4). congruence. }
  split.
  - eapply logged_trans; [apply emits_logged, Em1|].
    eapply logged_trans; [apply emits_logged, Em2|].
    eapply logged_trans; [apply emits_logged, Em3|].
    apply emits_logged, Em4.
  - rewrite !percentages_app. unfold report at 5.
    rewrite percentages_cons_Some, percentages_app, percentages_segment_reports.
    reflexivity.
Qed.

Lemma process_video_success_inv (env : Env) (file : UploadFile) (tid : string)
    (st st' : State) (summary pdf : string) :
  process_video env file tid st = (Return (SummaryResponse summary pdf), st') ->
  exists st0 ws st4,
    wait_for_connection env 6 tid st = (Return tt, st0)
    /\ active_connections st0 !! tid = Some ws
    /\ synchronous_stages env (new_VideoProcessor sanitize_filename file ws tid) st0
       = (Return summary, st4)
    /\ st' = with_background_tasks
               (fun tasks =>
                  tasks ++ [rendering_task
                              (new_VideoProcessor sanitize_filename file ws tid)
                              summary])
               st4
    /\ pdf = "/download/" +:+ tid.
Proof.
  intros H. destruct (wait_for_connection_returns env 6 tid st) as (n & _ & W).
  rewrite (process_video_eq env file tid st _ W) in H.
  exists (asleep env n st).
  destruct (active_connections (asleep env n st) !! tid) as [ws|]; [|discriminate].
  exists ws. cbv zeta in H. unfold synchronous_stages, bind.
  destruct (save_uploaded_video env _ _) as [[[]|[]] st1]; try discriminate.
  destruct (extract_audio env _ _) as [[[]|[]] st2]; try discriminate.
  destruct (transcribe_audio env _ _) as [[transcript|[]] st3]; try discriminate.
  destruct (summarize_text env _ _ _) as [[summary'|[]] st4]; try discriminate.
  injection H as -> <- <-. exists st4. auto.
Qed.

(** ** The response and the deferred rendering *)

(** C5, as the code has it. When the four synchronous stages return a summary,
    [process_video] returns at once: its final state is the state in which
    summarization returned, plus one registered background task, the
    rendering of that summary; the response holds the summary and the
    reference [/download/] followed by the task identifier; what the
    framework then runs is [save_summary_as_pdf]. The document is absent
    from storage at that moment provided no file was stored under the
    document path before the submission and neither the video path nor the
    audio path of the upload is the document path. *)
Theorem summary_returned_before_rendering (env : Env) (file : UploadFile)
    (tid : string) (st st0 st4 : State) (ws : Channel) (summary : string) :
  wait_for_connection env 6 tid st = (Return tt, st0) ->
  active_connections st0 !! tid = Some ws ->
  let self := new_VideoProcessor sanitize_filename file ws tid in
  synchronous_stages env self st0 = (Return summary, st4) ->
  let st' := with_background_tasks
               (fun tasks => tasks ++ [rendering_task self summary]) st4 in
  process_video env file tid st
  = (Return (SummaryResponse summary ("/download/" +:+ tid)), st')
  /\ background_tasks st' = background_tasks st ++ [rendering_task self summary]
  /\ (background_tasks st = [] ->
      run_background_tasks env st'
      = bind (save_summary_as_pdf env self summary) (fun _ => ret tt)
          (with_background_tasks (fun _ => []) st'))
  /\ (storage st !! pdf_path self = None ->
      video_path self <> pdf_path self ->
      audio_path self <> pdf_path self ->
      download_pdf tid (storage st')
      = Raise (HTTPException 404 "PDF file not found.")).
Proof.
  intros W L self Sy st'.
  destruct (wait_for_connection_frame env tid st st0 W) as (S0 & _ & _ & T0).
  destruct (synchronous_stages_returns env self st0 st4 summary Sy)
    as (data & audio & result & rs & _ & _ & _ & _ & S4 & T4 & _).
  assert (background_tasks st'
          = background_tasks st ++ [rendering_task self summary]) as Tasks
    by (subst st'; cbn; congruence).
  split; [|split; [exact Tasks|split]].
  - rewrite (process_video_eq env file tid st st0 W), L. cbv zeta. fold self.
    apply synchronous_stages_inv in Sy
      as (st1 & st2 & st3 & transcript & -> & -> & -> & ->). reflexivity.
  - intros Fresh. unfold run_background_tasks, bind at 1 2, gets, modify.
    rewrite Tasks, Fresh. reflexivity.
  - intros Absent Hv Ha.
    apply download_pdf_absent.
    change (storage st4 !! pdf_path self = None).
    rewrite S4, !lookup_insert_ne by congruence. by rewrite S0.
Qed.

Lemma summary_returned_before_rendering_witness :
  let self := new_VideoProcessor sanitize_filename Example.upload 7%nat "T" in
  let st4 := snd (synchronous_stages Example.quiet self Example.watched) in
  let st' := with_background_tasks
               (fun tasks => tasks ++ [rendering_task self "## hello world"]) st4 in
  process_video Example.quiet Example.upload "T" Example.watched
  = (Return (SummaryResponse "## hello world" "/download/T"), st')
  /\ download_pdf "T" (storage st') = Raise (HTTPException 404 "PDF file not found.").
Proof.
  intros self st4 st'.
  destruct (summary_returned_before_rendering Example.quiet Example.upload "T"
              Example.watched Example.watched st4 7%nat "## hello world")
    as (R & _ & _ & D).
  - reflexivity.
  - reflexivity.
  - subst st4 self. vm_compute. reflexivity.
  - split; [exact R|]. apply D; [reflexivity | discriminate | discriminate].
Defined.

(** C5 as stated fails on the last clause: a task identifier that was
    rendered before has its document in storage when the response to a new
    submission under that identifier is returned, before the new rendering
    has run. *)
Lemma document_exists_at_response :
  let run := process_video Example.quiet Example.upload "T" Example.revisited in
  fst run = Return (SummaryResponse "## hello world" "/download/T")
  /\ background_tasks (snd run)
     = [rendering_task (new_VideoProcessor sanitize_filename Example.upload 7%nat "T")
          "## hello world"]
  /\ download_pdf "T" (storage (snd run))
     = Return {| response_path := "downloads/T.pdf";
                 response_filename := "summary_T.pdf";
                 media_type := "application/pdf";
                 body := [Byte.x25; Byte.x50; Byte.x44; Byte.x46] |}.
Proof. vm_compute. repeat split. Qed.

(** ** Monotone progress *)

Lemma logged_since (st st' : State) rs :
  logged st st' rs ->
  since (length (reported st)) (reported st') = rs
  /\ sublist (percentages (since (length (outbox st)) (outbox st')))
       (percentages rs).
Proof.
  intros (R & sent & O & S). unfold since. rewrite R, O, !drop_app_length.
  split; [reflexivity | by apply sublist_percentages].
Qed.

Lemma stage_percentages (env : Env) (self : VideoProcessor) (s s' : State) :
  (save_uploaded_video env self s = (Return tt, s') ->
   percentages (since (length (reported s)) (reported s')) = [10; 20])
  /\ (extract_audio env self s = (Return tt, s') ->
      percentages (since (length (reported s)) (reported s')) = [30; 50])
  /\ (forall transcript,
         transcribe_audio env self s = (Return transcript, s') ->
         exists n,
           percentages (since (length (reported s)) (reported s'))
           = transcription_percentages n)
  /\ (forall transcript summary,
         summarize_text env self transcript s = (Return summary, s') ->
         percentages (since (length (reported s)) (reported s')) = [80; 90])
  /\ (forall summary,
         save_summary_as_pdf env self summary s = (Return tt, s') ->
         percentages (since (length (reported s)) (reported s')) = [95; 100]).
Proof.
  repeat split.
  - intros E. pose proof (save_uploaded_video_cases env self s) as H.
    rewrite E in H. destruct H as (_ & _ & Em).
    apply emits_logged, logged_since in Em as [-> _]. reflexivity.
  - intros E. pose proof (extract_audio_cases env self s) as H.
    rewrite E in H. destruct H as (_ & _ & Em).
    apply emits_logged, logged_since in Em as [-> _]. reflexivity.
  - intros transcript E. pose proof (transcribe_audio_cases env self s) as H.
    rewrite E in H. destruct H as (result & _ & _ & _ & _ & Em).
    apply emits_logged, logged_since in Em as [-> _].
    exists (length (segments result)). unfold report at 1.
    rewrite percentages_cons_Some, percentages_app, percentages_segment_reports.
    reflexivity.
  - intros transcript summary E.
    pose proof (summarize_text_cases env self transcript s) as H.
    rewrite E in H. destruct H as (_ & _ & Em).
    apply emits_logged, logged_since in Em as [-> _]. reflexivity.
  - intros summary E.
    pose proof (save_summary_as_pdf_cases env self summary s) as H.
    rewrite E in H. destruct H as (_ & _ & Em).
    apply emits_logged, logged_since in Em as [-> _]. reflexivity.
Qed.

(** C3. In a run that succeeds (the request starts with no background task
    registered, [process_video] returns the summary and the deferred
    rendering returns), the percentages reported during the run
    are, in order, 10 and 20 (ingest), 30 and 50 (audio extraction), 55, one
    value per segment and 70 (transcription, all between 55 and 70), 80 and
    90 (summarization), 95 and 100 (rendering): a non-decreasing sequence
    that ends at 100. The percentages the transport delivered are a
    subsequence of it, hence non-decreasing too. Each stage function, when
    it returns, has reported exactly the percentages of its group. *)
Theorem progress_is_monotone (env : Env) (file : UploadFile) (tid : string)
    (st st' st'' : State) (summary pdf : string) :
  background_tasks st = [] ->
  process_video env file tid st = (Return (SummaryResponse summary pdf), st') ->
  run_background_tasks env st' = (Return tt, st'') ->
  exists n,
    let planned :=
      [10; 20] ++ [30; 50] ++ transcription_percentages n ++ [80; 90] ++ [95; 100] in
    let delivered := percentages (since (length (outbox st)) (outbox st'')) in
    percentages (since (length (reported st)) (reported st'')) = planned
    /\ StronglySorted Z.le planned
    /\ Forall (fun p => 55 <= p <= 70) (transcription_percentages n)
    /\ last planned = Some 100
    /\ sublist delivered planned
    /\ StronglySorted Z.le delivered
    /\ (forall self s s',
           (save_uploaded_video env self s = (Return tt, s') ->
            percentages (since (length (reported s)) (reported s')) = [10; 20])
           /\ (extract_audio env self s = (Return tt, s') ->
               percentages (since (length (reported s)) (reported s')) = [30; 50])
           /\ (forall transcript,
                  transcribe_audio env self s = (Return transcript, s') ->
                  exists m,
                    percentages (since (length (reported s)) (reported s'))
                    = transcription_percentages m)
           /\ (forall transcript summary',
                  summarize_text env self transcript s = (Return summary', s') ->
                  percentages (since (length (reported s)) (reported s')) = [80; 90])
           /\ (forall summary',
                  save_summary_as_pdf env self summary' s = (Return tt, s') ->
                  percentages (since (length (reported s)) (reported s'))
                  = [95; 100])).
Proof.
  intros Fresh P Bg.
  apply process_video_success_inv in P as (st0 & ws & st4 & W & L & Sy & -> & _).
  set (self := new_VideoProcessor sanitize_filename file ws tid) in *.
  destruct (wait_for_connection_frame env tid st st0 W) as (_ & O0 & R0 & T0).
  destruct (synchronous_stages_returns env self st0 st4 summary Sy)
    as (_ & _ & result & rs & _ & _ & _ & _ & _ & T4 & Lg & Prs).
  unfold run_background_tasks, bind at 1 2, gets, modify in Bg.
  cbn [background_tasks with_background_tasks] in Bg.
  rewrite T4, T0, Fresh in Bg. cbn [app run_tasks] in Bg.
  unfold bind, ret in Bg.
  pose proof (save_summary_as_pdf_cases env self summary
                (with_background_tasks (fun _ => [])
                   (with_background_tasks
                      (fun tasks => tasks ++ [rendering_task self summary]) st4)))
    as H5.
  cbn [task_processor task_summary rendering_task] in Bg.
  destruct (save_summary_as_pdf env self summary _) as [[[]|e] st5];
    [|discriminate].
  injection Bg as ->. destruct H5 as (_ & _ & Em5).
  assert (logged st st''
            (rs ++ [report self "📄 Generating PDF..." (Some 95);
                    report self "✅ PDF generation complete." (Some 100)]))
    as Whole.
  { apply (logged_same st st0); [exact R0 | exact O0|].
    eapply logged_trans; [exact Lg|].
    eapply logged_same; [| |apply emits_logged, Em5]; reflexivity. }
  apply logged_since in Whole as [Rep Del].
  exists (length (segments result)). cbv zeta.
  rewrite Rep. rewrite percentages_app, Prs in Del |- *.
  change (percentages [report self "📄 Generating PDF..." (Some 95);
                       report self "✅ PDF generation complete." (Some 100)])
    with [95; 100] in *.
  rewrite <- !app_assoc in Del |- *.
  split; [reflexivity|]. split; [apply planned_sorted|].
  split; [apply transcription_percentages_range|]. split.
  { change [95; 100] with ([95] ++ [100]). rewrite !app_assoc. apply last_snoc. }
  split; [exact Del|]. split.
  { eapply sublist_StronglySorted; [exact Del | apply planned_sorted]. }
  intros self' s s'. apply stage_percentages.
Qed.

Lemma progress_is_monotone_witness :
  let st' := snd (process_video Example.quiet Example.upload "T" Example.watched) in
  let st'' := snd (run_background_tasks Example.quiet st') in
  StronglySorted Z.le (percentages (reported st''))
  /\ last (percentages (reported st'')) = Some 100.
Proof.
  intros st' st''.
  destruct (progress_is_monotone Example.quiet Example.upload "T"
              Example.watched st' st'' "## hello world" "/download/T")
    as (n & Rep & Sorted & _ & Last & _).
  - reflexivity.
  - subst st'. vm_compute. reflexivity.
  - subst st'' st'. vm_compute. reflexivity.
  - change (percentages (reported st''))
      with (percentages (since (length (reported Example.watched)) (reported st''))).
    rewrite Rep. split; [exact Sorted | exact Last].
Defined.

(** * Further properties of the code *)

(** ** [sanitize_filename] *)

Lemma take_length_le (n : nat) (s : string) :
  (String.length (PyStr.take n s) <= n)%nat.
Proof.
  revert s. induction n as [|n IH]; intros [|c s]; cbn; try lia.
  specialize (IH s). lia.
Qed.

Lemma take_all (n : nat) (s : string) :
  (String.length s <= n)%nat -> PyStr.take n s = s.
Proof.
  revert s. induction n as [|n IH]; intros [|c s] H; cbn in *; try reflexivity;
    try lia.
  f_equal. apply IH. lia.
Qed.

Lemma has_char_take (c : ascii) (n : nat) (s : string) :
  PyStr.has_char c (PyStr.take n s) = true -> PyStr.has_char c s = true.
Proof.
  revert s. induction n as [|n IH]; intros [|d s] H; cbn in *; try discriminate.
  apply orb_true_iff in H as [H|H]; apply orb_true_iff; auto.
Qed.

Lemma has_char_remove_chars (cls : ascii -> bool) (c : ascii) (s : string) :
  PyStr.has_char c (PyStr.remove_chars cls s) = true ->
  cls c = false /\ PyStr.has_char c s = true.
Proof.
  induction s as [|d s IH]; cbn; [discriminate|].
  destruct (cls d) eqn:D; cbn.
  - intros H. destruct (IH H) as [? ->]. by rewrite orb_true_r.
  - intros H. apply orb_true_iff in H as [H|H].
    + apply Ascii.eqb_eq in H as <-. split; [exact D|].
      by rewrite Ascii.eqb_refl.
    + destruct (IH H) as [? ->]. by rewrite orb_true_r.
Qed.

Lemma has_char_replace_char (a b c : ascii) (s : string) :
  PyStr.has_char c (PyStr.replace_char a b s) = true ->
  c = b \/ (c <> a /\ PyStr.has_char c s = true).
Proof.
  induction s as [|d s IH]; cbn; [discriminate|].
  intros H. apply orb_true_iff in H as [H|H].
  - apply Ascii.eqb_eq in H. destruct (Ascii.eqb d a) eqn:E; [left; congruence|].
    right. apply Ascii.eqb_neq in E. subst c.
    split; [exact E|]. by rewrite Ascii.eqb_refl.
  - destruct (IH H) as [?|[? ->]]; [by left|]. right. by rewrite orb_true_r.
Qed.

Lemma remove_chars_clean (cls : ascii -> bool) (s : string) :
  (forall c, PyStr.has_char c s = true -> cls c = false) ->
  PyStr.remove_chars cls s = s.
Proof.
  induction s as [|d s IH]; intros H; [reflexivity|]. cbn.
  rewrite (H d) by (cbn; by rewrite Ascii.eqb_refl).
  f_equal. apply IH. intros c Hc. apply H. cbn. by rewrite Hc, orb_true_r.
Qed.

Lemma replace_char_clean (a b : ascii) (s : string) :
  PyStr.has_char a s = false -> PyStr.replace_char a b s = s.
Proof.
  induction s as [|d s IH]; intros H; [reflexivity|]. cbn in *.
  apply orb_false_iff in H as [H1 H2]. rewrite H1. f_equal. by apply IH.
Qed.

Lemma sanitize_filename_chars (name : string) (c : ascii) :
  PyStr.has_char c (sanitize_filename name) = true -> invalid_char c = false.
Proof.
  intros H. apply has_char_take, has_char_remove_chars in H. tauto.
Qed.

Lemma sanitize_filename_openai_chars (name : string) (c : ascii) :
  PyStr.has_char c (sanitize_filename_openai name) = true ->
  invalid_char c = false /\ c <> " "%char.
Proof.
  intros H. apply has_char_take, has_char_replace_char in H as [->|[N H]].
  - split; [reflexivity | discriminate].
  - apply has_char_remove_chars in H. tauto.
Qed.

(** X1. Whatever the name, the sanitized name has at most 50 characters and
    none of them is in the class the regular expression removes; with the
    [sanitize_filename] of [main_openai.py] it has no blank either. *)
Theorem sanitize_filename_safe (name : string) :
  (String.length (sanitize_filename name) <= 50)%nat
  /\ (forall c, PyStr.has_char c (sanitize_filename name) = true ->
                invalid_char c = false)
  /\ (String.length (sanitize_filename_openai name) <= 50)%nat
  /\ (forall c, PyStr.has_char c (sanitize_filename_openai name) = true ->
                invalid_char c = false /\ c <> " "%char).
Proof.
  split; [apply take_length_le|]. split; [apply sanitize_filename_chars|].
  split; [apply take_length_le | apply sanitize_filename_openai_chars].
Qed.

Lemma sanitize_filename_safe_witness :
  invalid_char "a" = false
  /\ (String.length (sanitize_filename "a<b>:c/d.mp4") <= 50)%nat.
Proof.
  destruct (sanitize_filename_safe "a<b>:c/d.mp4") as (L & C & _).
  split; [apply C; reflexivity | exact L].
Defined.

(** X2. Sanitizing is idempotent: a sanitized name is its own sanitized
    name, in both files. *)
Theorem sanitize_filename_idempotent (name : string) :
  sanitize_filename (sanitize_filename name) = sanitize_filename name
  /\ sanitize_filename_openai (sanitize_filename_openai name)
     = sanitize_filename_openai name.
Proof.
  split.
  - unfold sanitize_filename at 1.
    rewrite remove_chars_clean by apply sanitize_filename_chars.
    apply take_all, take_length_le.
  - unfold sanitize_filename_openai at 1.
    rewrite remove_chars_clean
      by (intros c H; by apply sanitize_filename_openai_chars in H as [? _]).
    rewrite replace_char_clean.
    + apply take_all, take_length_le.
    + destruct (PyStr.has_char " " (sanitize_filename_openai name)) eqn:E;
        [|reflexivity].
      apply sanitize_filename_openai_chars in E as [_ E]. contradiction.
Qed.

(** X3. The saved upload lies directly in the upload directory: the video
    path is [downloads/] followed by the sanitized name, and the sanitized
    name holds neither a slash nor a backslash. *)
Theorem video_path_in_upload_dir (name : string) :
  video_path_of sanitize_filename name = "downloads/" +:+ sanitize_filename name
  /\ PyStr.has_char "/" (sanitize_filename name) = false
  /\ PyStr.has_char "\" (sanitize_filename name) = false
  /\ video_path_of sanitize_filename_openai name
     = "downloads/" +:+ sanitize_filename_openai name
  /\ PyStr.has_char "/" (sanitize_filename_openai name) = false
  /\ PyStr.has_char "\" (sanitize_filename_openai name) = false.
Proof.
  assert (forall s c, (PyStr.has_char c s = true -> invalid_char c = false) ->
                      invalid_char c = true -> PyStr.has_char c s = false) as No.
  { intros s c H I. destruct (PyStr.has_char c s); [|reflexivity].
    rewrite H in I by reflexivity. discriminate. }
  split; [apply video_path_relative, sanitize_filename_relative|].
  split; [apply No; [apply sanitize_filename_chars | reflexivity]|].
  split; [apply No; [apply sanitize_filename_chars | reflexivity]|].
  split; [apply video_path_relative, sanitize_filename_openai_relative|].
  split; apply No; try reflexivity;
    intros H; by apply sanitize_filename_openai_chars in H as [? _].
Qed.

Lemma append_length (a b : string) :
  String.length (a +:+ b) = (String.length a + String.length b)%nat.
Proof.
  induction a as [|c a IH]; [reflexivity|].
  change (S (String.length (a +:+ b)) = S (String.length a + String.length b)).
  by rewrite IH.
Qed.

Lemma append_cancel_r (a b x : string) : a +:+ x = b +:+ x -> a = b.
Proof.
  intros E. eapply append_same_length; [|exact E].
  apply (f_equal String.length) in E. rewrite !append_length in E. lia.
Qed.

Lemma append_cancel_l (a x y : string) : a +:+ x = a +:+ y -> x = y.
Proof.
  induction a as [|c a IH]; intros E; [exact E|].
  injection E as E. by apply IH.
Qed.

Lemma pdf_path_cases (tid : string) :
  (PyStr.startswith "/" tid = true /\ pdf_path_of tid = tid +:+ ".pdf")
  \/ (PyStr.startswith "/" tid = false
      /\ pdf_path_of tid = "downloads/" +:+ tid +:+ ".pdf").
Proof.
  unfold pdf_path_of, os_path_join. destruct tid as [|c tid].
  - right. split; reflexivity.
  - change (String c tid +:+ ".pdf") with (String c (tid +:+ ".pdf")).
    rewrite !startswith_slash_cons.
    destruct (ascii_dec "/" c); [left | right]; split; reflexivity.
Qed.

(** X4. Two task identifiers that differ have different document paths. *)
Theorem pdf_path_of_injective (tid1 tid2 : string) :
  pdf_path_of tid1 = pdf_path_of tid2 -> tid1 = tid2.
Proof.
  destruct (pdf_path_cases tid1) as [[A1 ->]|[A1 ->]],
           (pdf_path_cases tid2) as [[A2 ->]|[A2 ->]]; intros E.
  - by apply append_cancel_r in E.
  - destruct tid1 as [|c t]; [discriminate A1|].
    rewrite startswith_slash_cons in A1.
    destruct (ascii_dec "/" c) as [<-|]; [|discriminate]. discriminate E.
  - destruct tid2 as [|c t]; [discriminate A2|].
    rewrite startswith_slash_cons in A2.
    destruct (ascii_dec "/" c) as [<-|]; [|discriminate]. discriminate E.
  - apply append_cancel_l in E. by apply append_cancel_r in E.
Qed.

Lemma pdf_path_of_injective_witness :
  "T" = "T" /\ pdf_path_of "T" = "downloads/T.pdf".
Proof.
  split; [apply (pdf_path_of_injective "T" "T") |]; reflexivity.
Defined.

(** ** [send_status] *)

(** X5. A report goes to the channel the registry holds for the task at that
    moment: the message, with its text and its optional percentage, is
    appended to what the transport accepted on that channel. The channel the
    processor was built with plays no part: two processors with the same
    task identifier report alike. *)
Theorem send_status_uses_registered_channel (env : Env)
    (self self' : VideoProcessor) (message : string) (pr : option Z)
    (st : State) :
  (task_id self' = task_id self ->
   send_status env self' message pr st = send_status env self message pr st)
  /\ (forall ws,
         active_connections st !! task_id self = Some ws ->
         transport env (suspensions st) ws = None ->
         send_status env self message pr st
         = (Return tt,
            with_outbox
              (fun box => box ++ [(ws, {| status := message; progress := pr |})])
              (resumed env
                 (with_reported
                    (fun log => log ++ [report self message pr]) st)))).
Proof.
  split.
  - intros E. rewrite !send_status_eq. unfold report. rewrite E. reflexivity.
  - intros ws L T. rewrite send_status_eq, L, T. reflexivity.
Qed.

Lemma send_status_uses_registered_channel_witness :
  outbox
    (snd (send_status Example.quiet
            (new_VideoProcessor sanitize_filename Example.upload 99%nat "T")
            "Uploading video..." (Some 10) Example.watched))
  = [(7%nat, {| status := "Uploading video..."; progress := Some 10 |})].
Proof.
  destruct (send_status_uses_registered_channel Example.quiet
              (new_VideoProcessor sanitize_filename Example.upload 99%nat "T")
              (new_VideoProcessor sanitize_filename Example.upload 7%nat "T")
              "Uploading video..." (Some 10) Example.watched) as (_ & D).
  rewrite (D 7%nat); reflexivity.
Defined.

(** X6. Whatever its outcome, a report writes no file and registers no
    background task, and it never removes the registry entry of another
    task: when the task has no entry the registry is as it was, and
    otherwise the entries of the other tasks are those the registry held
    when the coroutine resumed. *)
Theorem send_status_scope (env : Env) (self : VideoProcessor)
    (message : string) (pr : option Z) (st st' : State) (o : Outcome unit) :
  send_status env self message pr st = (o, st') ->
  storage st' = storage st
  /\ background_tasks st' = background_tasks st
  /\ (active_connections st !! task_id self = None ->
      active_connections st' = active_connections st)
  /\ (forall other,
         is_Some (active_connections st !! task_id self) ->
         other <> task_id self ->
         active_connections st' !! other
         = active_connections (resumed env st) !! other).
Proof.
  rewrite send_status_eq. cbv zeta. intros E.
  destruct (active_connections st !! task_id self) as [ws|] eqn:L.
  - destruct (transport env (suspensions st) ws) as [e|].
    + destruct (is_disconnect e); injection E as <- <-; cbn;
        repeat split; try discriminate; intros other _ N;
        unfold Registry.close; by rewrite ?lookup_delete_ne.
    + injection E as <- <-. cbn. repeat split; discriminate.
  - injection E as <- <-. cbn. repeat split. intros other [? ?]. discriminate.
Qed.

Lemma send_status_scope_witness :
  storage
    (snd (send_status Example.reconnecting
            (new_VideoProcessor sanitize_filename Example.upload 7%nat "T")
            "Uploading video..." (Some 10) Example.watched))
  = ∅.
Proof.
  destruct (send_status_scope Example.reconnecting
              (new_VideoProcessor sanitize_filename Example.upload 7%nat "T")
              "Uploading video..." (Some 10) Example.watched
              (snd (send_status Example.reconnecting
                      (new_VideoProcessor sanitize_filename Example.upload 7%nat "T")
                      "Uploading video..." (Some 10) Example.watched))
              (Return tt)) as (S & _); [reflexivity | exact S].
Defined.

(** ** The stages *)

(** Closes a goal on the storage or on the report log of the state a stage
    ended in, from the equations the steps left. *)
Ltac settle :=
  repeat match goal with
         | H : emits _ _ _ |- _ => destruct H as (? & _ & _)
         | H : ~ benign ?env, B : benign ?env |- _ => destruct (H B)
         end;
  cbn in *;
  repeat match goal with
         | H : storage ?s = _ |- context [storage ?s] => rewrite H; cbn
         | H : reported ?s = _ |- context [reported ?s] => rewrite H; cbn
         end;
  rewrite <- ?app_assoc; try reflexivity.

(** X7. The upload is opened for writing before it is read: when reading
    the upload fails, the stage raises its error and leaves an empty file
    under the video path, whatever was stored there; when the file cannot
    be opened, storage is as it was. (The transport raises nothing but
    disconnects.) *)
Theorem failed_upload_truncates (env : Env) (self : VideoProcessor)
    (st : State) (cause : exn) :
  benign env ->
  (open_wb env (video_path self) = None ->
   read (video_file self) = Fails cause ->
   exists st',
     save_uploaded_video env self st
     = (Raise (HTTPException 500 ("Failed to save video: " +:+ str cause)), st')
     /\ storage st' = <[video_path self := []]> (storage st))
  /\ (open_wb env (video_path self) = Some cause ->
      exists st',
        save_uploaded_video env self st
        = (Raise (HTTPException 500 ("Failed to save video: " +:+ str cause)), st')
        /\ storage st' = storage st).
Proof.
  intros B. split.
  - intros O R. unfold save_uploaded_video. run_stage. rewrite O, R. cbn.
    step_report E1; [|settle].
    step_report E2; [|settle].
    eexists. split; [reflexivity | settle].
  - intros O. unfold save_uploaded_video. run_stage. rewrite O. cbn.
    step_report E1; [|settle].
    step_report E2; [|settle].
    eexists. split; [reflexivity | settle].
Qed.

Lemma benign_quiet : benign Example.quiet.
Proof. intros k ws e H. discriminate H. Qed.

Lemma failed_upload_truncates_witness :
  exists st',
    save_uploaded_video Example.quiet
      (new_VideoProcessor sanitize_filename Example.broken_upload 7%nat "T")
      Example.watched
    = (Raise (HTTPException 500 "Failed to save video: client went away"), st')
    /\ storage st' = {[ "downloads/talk.mp4" := [] ]}.
Proof.
  destruct (failed_upload_truncates Example.quiet
              (new_VideoProcessor sanitize_filename Example.broken_upload 7%nat "T")
              Example.watched (OtherError "client went away"))
    as (Read & _).
  - intros k ws e H. discriminate H.
  - destruct Read as (st' & E & S); [reflexivity..|].
    exists st'. split; [exact E | exact S].
Defined.

(** X8. When the ingest stage returns, storage holds under the video path
    exactly the bytes the upload gave, in place of whatever was there, and
    every other file is as before. *)
Theorem upload_is_stored (env : Env) (self : VideoProcessor) (st st' : State) :
  save_uploaded_video env self st = (Return tt, st') ->
  exists data,
    read (video_file self) = Fine data
    /\ storage st' !! video_path self = Some data
    /\ (forall path, path <> video_path self ->
                     storage st' !! path = storage st !! path).
Proof.
  intros E. pose proof (save_uploaded_video_cases env self st) as H.
  rewrite E in H. destruct H as (_ & (data & R & S) & _).
  exists data. split; [exact R|]. rewrite S. split.
  - apply lookup_insert_eq.
  - intros path N. by apply lookup_insert_ne.
Qed.

Lemma upload_is_stored_witness :
  storage
    (snd (save_uploaded_video Example.quiet
            (new_VideoProcessor sanitize_filename Example.upload 7%nat "T")
            Example.watched))
  !! "downloads/talk.mp4" = Some [Byte.x00; Byte.x01].
Proof.
  destruct (upload_is_stored Example.quiet
              (new_VideoProcessor sanitize_filename Example.upload 7%nat "T")
              Example.watched
              (snd (save_uploaded_video Example.quiet
                      (new_VideoProcessor sanitize_filename Example.upload 7%nat "T")
                      Example.watched)))
    as (data & R & S & _); [vm_compute; reflexivity|].
  injection R as <-. exact S.
Defined.

(** X9. A transcription without segments divides by nothing: the loop does
    not run, and the stage returns the text having reported its opening
    message at 55 and its closing message at 70, and nothing else. *)
Theorem transcription_without_segments (env : Env) (self : VideoProcessor)
    (st : State) (result : Transcription) :
  benign env ->
  load_model env = None ->
  transcribe env (audio_path self) = Fine result ->
  segments result = [] ->
  exists st',
    transcribe_audio env self st = (Return (text result), st')
    /\ reported st'
       = reported st
         ++ [report self "🔄 Transcribing audio with Whisper..." (Some 55);
             report self "✅ Audio transcription complete." (Some 70)]
    /\ storage st' = storage st.
Proof.
  intros B Lm Tr Sg.
  pose proof (transcribe_audio_cases env self st) as H.
  destruct (transcribe_audio env self st) as [[transcript|e] st'].
  2:{ destruct H as (_ & _ & C). destruct (C B) as (c & Fc & _).
      unfold transcription_failure in Fc. rewrite Lm, Tr in Fc. discriminate. }
  destruct H as (result' & _ & Tr' & -> & S & (R & _)).
  assert (result' = result) as -> by congruence.
  rewrite Sg in R. exists st'. auto.
Qed.

Lemma transcription_without_segments_witness :
  exists st',
    transcribe_audio Example.silent
      (new_VideoProcessor sanitize_filename Example.upload 7%nat "T")
      Example.watched
    = (Return EmptyString, st')
    /\ percentages (reported st') = [55; 70].
Proof.
  destruct (transcription_without_segments Example.silent
              (new_VideoProcessor sanitize_filename Example.upload 7%nat "T")
              Example.watched {| text := EmptyString; segments := [] |})
    as (st' & E & R & _).
  - intros k ws e H. discriminate H.
  - reflexivity.
  - reflexivity.
  - reflexivity.
  - exists st'. split; [exact E|]. rewrite R. reflexivity.
Defined.

(** X10. A stage whose external calls raise tells the viewer before it
    raises: after its opening report it makes one more report, the cross
    mark followed by the label of the stage and the text of the cause,
    without a percentage, and then raises the [HTTPException] with status
    500 carrying the label and the cause. This holds for the five stages.
    (The transport raises nothing but disconnects.) *)
Theorem stage_failure_is_reported (env : Env) (self : VideoProcessor)
    (st : State) (cause : exn) :
  benign env ->
  let failed (s : Stage) (outcome : Outcome unit * State) :=
    fst outcome = Raise (HTTPException 500 (failure_label s +:+ ": " +:+ str cause))
    /\ reported (snd outcome)
       = reported st ++ [opening_report self s; failure_report self s cause] in
  (ingest_failure env self = Some cause ->
   failed Ingest (save_uploaded_video env self st))
  /\ (extraction_failure env self = Some cause ->
      failed AudioExtraction (extract_audio env self st))
  /\ (transcription_failure env self = Some cause ->
      failed Transcribing
        (bind (transcribe_audio env self) (fun _ => ret tt) st))
  /\ (forall transcript,
         summarization_failure env transcript = Some cause ->
         failed Summarization
           (bind (summarize_text env self transcript) (fun _ => ret tt) st))
  /\ (forall summary_md,
         rendering_failure env self summary_md = Some cause ->
         failed Rendering (save_summary_as_pdf env self summary_md st)).
Proof.
  intros B failed. subst failed. cbv beta.
  unfold opening_report, failure_report, failure_label.
  split; [|split; [|split; [|split]]].
  - unfold ingest_failure, save_uploaded_video. run_stage. intros F.
    step_report E1; [|settle].
    destruct (open_wb env (video_path self)) as [e|]; cbn.
    { injection F as ->. step_report E2; [|settle]. split; settle. }
    destruct (read (video_file self)) as [data|e]; cbn.
    2:{ injection F as ->. step_report E2; [|settle]. split; settle. }
    rewrite F. cbn. step_report E2; [|settle]. split; settle.
  - unfold extraction_failure, extract_audio. run_stage. intros F.
    step_report E1; [|settle].
    destruct (VideoFileClip env (video_path self)) as [e|]; cbn.
    { injection F as ->. step_report E2; [|settle]. split; settle. }
    destruct (write_audiofile env (audio_path self)) as [audio|[part|] e]; cbn;
      [discriminate F|injection F as ->..];
      (step_report E2; [|settle]); split; settle.
  - unfold transcription_failure, transcribe_audio. run_stage. intros F.
    step_report E1; [|settle].
    destruct (load_model env) as [e|]; cbn.
    { injection F as ->. step_report E2; [|settle]. split; settle. }
    destruct (transcribe env (audio_path self)) as [result|e]; cbn;
      [discriminate F|injection F as ->].
    step_report E2; [|settle]. split; settle.
  - intros transcript. unfold summarization_failure, summarize_text. run_stage.
    intros F. step_report E1; [|settle].
    destruct (chat_completion env transcript) as [summary|e]; cbn;
      [discriminate F|injection F as ->].
    step_report E2; [|settle]. split; settle.
  - intros summary_md. unfold rendering_failure, save_summary_as_pdf. run_stage.
    intros F. step_report E1; [|settle].
    destruct (pdf_from_string env summary_md (pdf_path self))
      as [pdf|[part|] e]; cbn; [discriminate F|injection F as ->..];
      (step_report E2; [|settle]); split; settle.
Qed.

Lemma stage_failure_is_reported_witness :
  let outcome :=
    extract_audio Example.undecodable
      (new_VideoProcessor sanitize_filename Example.upload 7%nat "T")
      Example.watched in
  fst outcome
  = Raise (HTTPException 500 "Audio extraction failed: moov atom not found")
  /\ snd <$> reported (snd outcome)
     = [ {| status := "Extracting audio from video..."; progress := Some 30 |};
         {| status := "❌ Audio extraction failed: moov atom not found";
            progress := None |} ].
Proof.
  destruct (stage_failure_is_reported Example.undecodable
              (new_VideoProcessor sanitize_filename Example.upload 7%nat "T")
              Example.watched (OtherError "moov atom not found"))
    as (_ & Extract & _).
  - intros k ws e H. discriminate H.
  - destruct Extract as [O R]; [reflexivity|].
    split; [exact O|]. cbv zeta. rewrite R. reflexivity.
Defined.

(** ** The coordinator *)

(** The wait loop returns at the first poll that finds the entry, or after
    all its sleeps. *)
Lemma wait_for_connection_spec (env : Env) (tries : nat) (tid : string)
    (st : State) :
  exists n,
    (n <= tries)%nat
    /\ wait_for_connection env tries tid st = (Return tt, asleep env n st)
    /\ (forall j, (j < n)%nat -> active_connections (asleep env j st) !! tid = None)
    /\ ((n < tries)%nat -> is_Some (active_connections (asleep env n st) !! tid)).
Proof.
  revert st. induction tries as [|tries IH]; intros st; cbn [wait_for_connection].
  - exists 0%nat. repeat split; [lia | intros; lia | intros; lia].
  - run_stage. unfold Registry.mem.
    destruct (bool_decide_reflect (is_Some (active_connections st !! tid)))
      as [Y|N].
    + exists 0%nat. repeat split; [lia | intros; lia | intros _; exact Y].
    + unfold asyncio_sleep. run_stage.
      destruct (IH (resumed env st)) as (n & L & E & A & P).
      exists (S n). split; [lia|]. split; [exact E|]. split.
      * intros [|j] Hj; [by apply eq_None_not_Some | apply A; lia].
      * intros Hn. apply P. lia.
Qed.

Lemma handled_not_http (e : exn) (st st' : State) (c : Z) (d : string) :
  handled e st <> (Raise (HTTPException c d), st').
Proof. destruct e; discriminate. Qed.

(** X11. [process_video] raises an [HTTPException] in one case only: the
    registry had no entry for the task at any of the seven observations of
    the wait; the exception then has status 400. An [HTTPException] raised
    by a stage never leaves [process_video]: it comes back as an error
    body. *)
Theorem http_error_only_without_viewer (env : Env) (file : UploadFile)
    (tid : string) (st st' : State) (c : Z) (d : string) :
  process_video env file tid st = (Raise (HTTPException c d), st') ->
  c = 400
  /\ d = "No active WebSocket connection for this task."
  /\ st' = asleep env 6 st
  /\ (forall j, (j <= 6)%nat -> active_connections (asleep env j st) !! tid = None).
Proof.
  intros H. destruct (wait_for_connection_spec env 6 tid st) as (n & L & W & A & P).
  rewrite (process_video_eq env file tid st _ W) in H.
  destruct (active_connections (asleep env n st) !! tid) as [ws|] eqn:Lk.
  - exfalso. cbv zeta in H.
    destruct (save_uploaded_video env _ _) as [[[]|e1] st1];
      [|by apply handled_not_http in H].
    destruct (extract_audio env _ _) as [[[]|e2] st2];
      [|by apply handled_not_http in H].
    destruct (transcribe_audio env _ _) as [[transcript|e3] st3];
      [|by apply handled_not_http in H].
    destruct (summarize_text env _ _ _) as [[summary|e4] st4];
      [discriminate H | by apply handled_not_http in H].
  - injection H as <- <- <-.
    assert (n = 6%nat) as ->.
    { destruct (decide (n < 6)%nat) as [Lt|]; [|lia].
      destruct (P Lt) as [ws Hws]. congruence. }
    repeat split. intros j Hj.
    destruct (decide (j = 6%nat)) as [->|]; [exact Lk | apply A; lia].
Qed.

Lemma http_error_only_without_viewer_witness :
  active_connections (asleep Example.quiet 3 Example.idle) !! "T" = None.
Proof.
  destruct (http_error_only_without_viewer Example.quiet Example.upload "T"
              Example.idle (asleep Example.quiet 6 Example.idle) 400
              "No active WebSocket connection for this task.")
    as (_ & _ & _ & A); [vm_compute; reflexivity|].
  apply A. lia.
Defined.

(** X12. Only a run that returns the summary registers a background task:
    when [process_video] returns an error body, or raises, the list of
    background tasks is as it was. *)
Theorem no_rendering_without_summary (env : Env) (file : UploadFile)
    (tid : string) (st st' : State) (o : Outcome Response) :
  process_video env file tid st = (o, st') ->
  (forall summary pdf, o <> Return (SummaryResponse summary pdf)) ->
  background_tasks st' = background_tasks st.
Proof.
  intros H N. destruct (wait_for_connection_returns env 6 tid st) as (n & _ & W).
  rewrite (process_video_eq env file tid st _ W) in H.
  destruct (asleep_frame env n st) as (_ & _ & _ & T0 & _).
  assert (forall e s, handled e s = (o, st') -> s = st') as Hd.
  { intros e s E. destruct e; by injection E. }
  destruct (active_connections (asleep env n st) !! tid) as [ws|].
  2:{ injection H as <- <-. exact T0. }
  cbv zeta in H.
  set (self := new_VideoProcessor sanitize_filename file ws tid) in *.
  pose proof (save_uploaded_video_cases env self (asleep env n st)) as H1.
  destruct (save_uploaded_video env self _) as [[[]|e1] st1].
  2:{ apply Hd in H as <-. destruct H1 as (T & _). congruence. }
  destruct H1 as (_ & _ & (_ & _ & T1)).
  pose proof (extract_audio_cases env self st1) as H2.
  destruct (extract_audio env self st1) as [[[]|e2] st2].
  2:{ apply Hd in H as <-. destruct H2 as (T & _). congruence. }
  destruct H2 as (_ & _ & (_ & _ & T2)).
  pose proof (transcribe_audio_cases env self st2) as H3.
  destruct (transcribe_audio env self st2) as [[transcript|e3] st3].
  2:{ apply Hd in H as <-. destruct H3 as (T & _). congruence. }
  destruct H3 as (result & _ & _ & _ & _ & (_ & _ & T3)).
  pose proof (summarize_text_cases env self transcript st3) as H4.
  destruct (summarize_text env self transcript st3) as [[summary|e4] st4].
  2:{ apply Hd in H as <-. destruct H4 as (T & _). congruence. }
  injection H as <- _. exfalso. by eapply N.
Qed.

Lemma no_rendering_without_summary_witness :
  background_tasks
    (snd (process_video Example.undecodable Example.upload "T" Example.watched))
  = [].
Proof.
  apply (no_rendering_without_summary Example.undecodable Example.upload "T"
           Example.watched
           (snd (process_video Example.undecodable Example.upload "T"
                   Example.watched))
           (Return (ErrorResponse "Audio extraction failed: moov atom not found"))).
  - vm_compute. reflexivity.
  - intros summary pdf. discriminate.
Defined.

(** X13. A viewer that connects late is waited for: when the registry first
    holds an entry for the task at the [k]-th observation, [k] at most 6,
    the loop returns after exactly [k] sleeps, and the run goes on as a run
    submitted in that state would. *)
Theorem late_viewer_is_awaited (env : Env) (file : UploadFile) (tid : string)
    (st : State) (k : nat) :
  (k <= 6)%nat ->
  (forall j, (j < k)%nat -> active_connections (asleep env j st) !! tid = None) ->
  is_Some (active_connections (asleep env k st) !! tid) ->
  wait_for_connection env 6 tid st = (Return tt, asleep env k st)
  /\ process_video env file tid st = process_video env file tid (asleep env k st).
Proof.
  intros Hk A P.
  assert (wait_for_connection env 6 tid st = (Return tt, asleep env k st)) as W.
  { destruct (wait_for_connection_spec env 6 tid st) as (n & L & W & A' & P').
    assert (n = k) as ->; [|exact W].
    destruct (lt_eq_lt_dec n k) as [[Lt|Eq]|Gt]; [|exact Eq|].
    - destruct (P' ltac:(lia)) as [ws Hws]. rewrite A in Hws by exact Lt.
      discriminate.
    - destruct P as [ws Hws]. rewrite A' in Hws by exact Gt. discriminate. }
  split; [exact W|].
  rewrite (process_video_eq env file tid st _ W).
  rewrite (process_video_eq env file tid (asleep env k st) (asleep env k st));
    [reflexivity|].
  destruct (wait_for_connection_spec env 6 tid (asleep env k st))
    as (n & L & W' & A' & _).
  destruct n as [|n]; [exact W'|].
  destruct P as [ws Hws]. specialize (A' 0%nat ltac:(lia)). cbn [asleep] in A'.
  congruence.
Qed.

Lemma late_viewer_is_awaited_witness :
  wait_for_connection Example.reconnecting 6 "T" Example.idle
  = (Return tt, asleep Example.reconnecting 1 Example.idle).
Proof.
  apply (late_viewer_is_awaited Example.reconnecting Example.upload "T"
           Example.idle 1).
  - lia.
  - intros [|j] Hj; [reflexivity | lia].
  - exists 8%nat. reflexivity.
Defined.

(** ** Rendering and retrieval *)

Lemma download_pdf_present (tid : string) (files : gmap string bytes)
    (content : bytes) :
  files !! pdf_path_of tid = Some content ->
  download_pdf tid files
  = Return {| response_path := pdf_path_of tid;
              response_filename := "summary_" +:+ tid +:+ ".pdf";
              media_type := "application/pdf";
              body := content |}.
Proof. intros H. unfold download_pdf. fold (pdf_path_of tid). by rewrite H. Qed.

Lemma run_background_tasks_single (env : Env) (st : State) (t : BackgroundTask) :
  background_tasks st = [t] ->
  run_background_tasks env st
  = bind (save_summary_as_pdf env (task_processor t) (task_summary t))
      (fun _ => ret tt) (with_background_tasks (fun _ => []) st).
Proof.
  intros H. unfold run_background_tasks, bind at 1 2, gets, modify.
  rewrite H. reflexivity.
Qed.

(** X14. Once the deferred rendering of a successful run has returned, the
    document endpoint serves, for the task of the run, the very bytes the
    PDF tool wrote for the summary that was returned, under the reference
    the response gave. *)
Theorem rendered_document_is_served (env : Env) (file : UploadFile)
    (tid : string) (st st' st'' : State) (summary pdf : string) :
  background_tasks st = [] ->
  process_video env file tid st = (Return (SummaryResponse summary pdf), st') ->
  run_background_tasks env st' = (Return tt, st'') ->
  exists document,
    pdf_from_string env summary (pdf_path_of tid) = Written document
    /\ pdf = "/download/" +:+ tid
    /\ download_pdf tid (storage st'')
       = Return {| response_path := pdf_path_of tid;
                   response_filename := "summary_" +:+ tid +:+ ".pdf";
                   media_type := "application/pdf";
                   body := document |}.
Proof.
  intros Fresh P Bg.
  apply process_video_success_inv in P as (st0 & ws & st4 & W & L & Sy & -> & ->).
  set (self := new_VideoProcessor sanitize_filename file ws tid) in *.
  destruct (wait_for_connection_frame env tid st st0 W) as (_ & _ & _ & T0).
  destruct (synchronous_stages_returns env self st0 st4 summary Sy)
    as (_ & _ & _ & _ & _ & _ & _ & _ & _ & T4 & _).
  rewrite (run_background_tasks_single env _ (rendering_task self summary)) in Bg
    by (cbn; by rewrite T4, T0, Fresh).
  unfold bind, ret in Bg. cbn [task_processor task_summary rendering_task] in Bg.
  pose proof (save_summary_as_pdf_cases env self summary
                (with_background_tasks (fun _ => [])
                   (with_background_tasks
                      (fun tasks => tasks ++ [rendering_task self summary]) st4)))
    as H5.
  destruct (save_summary_as_pdf env self summary _) as [[[]|e] st5];
    [|discriminate].
  injection Bg as ->. destruct H5 as (_ & (document & Wr & S) & _).
  exists document. split; [exact Wr|]. split; [reflexivity|].
  apply download_pdf_present. rewrite S. apply lookup_insert_eq.
Qed.

Lemma rendered_document_is_served_witness :
  let st' := snd (process_video Example.quiet Example.upload "T" Example.watched) in
  let st'' := snd (run_background_tasks Example.quiet st') in
  download_pdf "T" (storage st'')
  = Return {| response_path := "downloads/T.pdf";
              response_filename := "summary_T.pdf";
              media_type := "application/pdf";
              body := [Byte.x25; Byte.x50; Byte.x44; Byte.x46] |}.
Proof.
  intros st' st''.
  destruct (rendered_document_is_served Example.quiet Example.upload "T"
              Example.watched st' st'' "## hello world" "/download/T")
    as (document & Wr & _ & D).
  - reflexivity.
  - subst st'. vm_compute. reflexivity.
  - subst st'' st'. vm_compute. reflexivity.
  - injection Wr as <-. exact D.
Defined.

(** X15. A rendering that fails before it writes leaves storage as it was,
    so the document endpoint answers for the task as it did when the
    response was returned: not found if there was no document, the old
    document if there was one. (The transport raises nothing but
    disconnects.) *)
Theorem failed_rendering_keeps_storage (env : Env) (self : VideoProcessor)
    (summary_md : string) (st : State) (cause : exn) :
  benign env ->
  pdf_from_string env summary_md (pdf_path self) = Broken None cause ->
  exists st',
    save_summary_as_pdf env self summary_md st
    = (Raise (HTTPException 500 ("PDF generation failed: " +:+ str cause)), st')
    /\ storage st' = storage st
    /\ forall tid, download_pdf tid (storage st') = download_pdf tid (storage st).
Proof.
  intros B W. unfold save_summary_as_pdf. run_stage. rewrite W. cbn.
  step_report E1; [|settle].
  step_report E2; [|settle].
  assert (storage st1 = storage st) as S by settle.
  eexists. split; [reflexivity|]. split; [exact S|].
  intros tid. by rewrite S.
Qed.

Lemma failed_rendering_keeps_storage_witness :
  exists st',
    save_summary_as_pdf Example.unrenderable
      (new_VideoProcessor sanitize_filename Example.upload 7%nat "T")
      "## hello world" Example.revisited
    = (Raise (HTTPException 500
                "PDF generation failed: No wkhtmltopdf executable found"), st')
    /\ storage st' = storage Example.revisited.
Proof.
  destruct (failed_rendering_keeps_storage Example.unrenderable
              (new_VideoProcessor sanitize_filename Example.upload 7%nat "T")
              "## hello world" Example.revisited
              (OtherError "No wkhtmltopdf executable found"))
    as (st' & E & S & _).
  - intros k ws e H. discriminate H.
  - reflexivity.
  - exists st'. split; [exact E | exact S].
Defined.

(** ** Progress in every run *)

Lemma logged_refl (st : State) : logged st st [].
Proof. apply emits_logged, emits_refl. Qed.

Lemma send_status_logged (env : Env) (self : VideoProcessor) (message : string)
    (pr : option Z) (st : State) :
  logged st (snd (send_status env self message pr st)) [report self message pr].
Proof.
  rewrite send_status_eq. cbv zeta. unfold logged.
  destruct (active_connections st !! task_id self) as [ws|]; cbn.
  - destruct (transport env (suspensions st) ws) as [e|]; cbn.
    + destruct (is_disconnect e); cbn; (split; [reflexivity|]);
        exists []; (split; [by rewrite app_nil_r | apply sublist_nil_l]).
    + split; [reflexivity|]. eexists. split; reflexivity.
  - split; [reflexivity|]. exists [].
    split; [by rewrite app_nil_r | apply sublist_nil_l].
Qed.

Ltac step_log E :=
  match goal with
  | |- context [send_status ?env ?p ?m ?pr ?st] =>
      let L := fresh "L" in
      pose proof (send_status_logged env p m pr st) as L;
      destruct (send_status env p m pr st) as [[[]|?] ?] eqn:E;
      cbn [snd] in L; cbn
  end.

(** Puts the steps recorded by [step_log] end to end. *)
Ltac chain_logs :=
  match goal with
  | H : logged ?b ?c _ |- logged ?a ?c _ =>
      refine (logged_same a b c _ _ _ H); reflexivity
  | H : logged ?b ?m _ |- logged ?a _ _ =>
      eapply logged_trans;
      [refine (logged_same a b m _ _ _ H); reflexivity | chain_logs]
  end.

Ltac close_trail :=
  unfold trail; eexists; split; [chain_logs | cbn; eexists; reflexivity].

Section Trails.

Variable env : Env.

Lemma save_uploaded_video_trail (self : VideoProcessor) (st : State) :
  trail st (snd (save_uploaded_video env self st)) [10; 20].
Proof.
  unfold save_uploaded_video. run_stage.
  step_log E1; [|close_trail].
  destruct (open_wb env (video_path self)) as [e|]; cbn.
  { step_log E2; close_trail. }
  destruct (read (video_file self)) as [data|e]; cbn.
  2:{ step_log E2; close_trail. }
  destruct (buffer_write env (video_path self) data) as [e|]; cbn.
  { step_log E2; close_trail. }
  step_log E2; [close_trail|].
  step_log E3; close_trail.
Qed.

Lemma extract_audio_trail (self : VideoProcessor) (st : State) :
  trail st (snd (extract_audio env self st)) [30; 50].
Proof.
  unfold extract_audio. run_stage.
  step_log E1; [|close_trail].
  destruct (VideoFileClip env (video_path self)) as [e|]; cbn.
  { step_log E2; close_trail. }
  destruct (write_audiofile env (audio_path self)) as [audio|[part|] e]; cbn.
  2,3: step_log E2; close_trail.
  step_log E2; [close_trail|].
  step_log E3; close_trail.
Qed.

Lemma summarize_text_trail (self : VideoProcessor) (transcript : string)
    (st : State) :
  trail st (snd (summarize_text env self transcript st)) [80; 90].
Proof.
  unfold summarize_text. run_stage.
  step_log E1; [|close_trail].
  destruct (chat_completion env transcript) as [summary|e]; cbn.
  2:{ step_log E2; close_trail. }
  step_log E2; [close_trail|].
  step_log E3; close_trail.
Qed.

Lemma save_summary_as_pdf_trail (self : VideoProcessor) (summary_md : string)
    (st : State) :
  trail st (snd (save_summary_as_pdf env self summary_md st)) [95; 100].
Proof.
  unfold save_summary_as_pdf. run_stage.
  step_log E1; [|close_trail].
  destruct (pdf_from_string env summary_md (pdf_path self))
    as [pdf|[part|] e]; cbn.
  2,3: step_log E2; close_trail.
  step_log E2; [close_trail|].
  step_log E3; close_trail.
Qed.

Lemma trail_app (a b c : State) rs (plan : list Z) :
  logged a b rs -> trail b c plan -> trail a c (percentages rs ++ plan).
Proof.
  intros L (rs' & L' & P). exists (rs ++ rs'). split.
  - eapply logged_trans; eassumption.
  - rewrite percentages_app. by apply prefix_app.
Qed.

Lemma trail_weaken (a b : State) (plan plan' : list Z) :
  trail a b plan -> plan `prefix_of` plan' -> trail a b plan'.
Proof. intros (rs & L & P) Q. exists rs. split; [exact L | by etrans]. Qed.

Lemma trail_same (a b c : State) (plan : list Z) :
  reported b = reported a -> outbox b = outbox a ->
  trail b c plan -> trail a c plan.
Proof.
  intros R O (rs & L & P). exists rs. split; [|exact P].
  by apply (logged_same a b c).
Qed.

Lemma report_segments_trail (self : VideoProcessor) (total : nat)
    (segs : list string) (i : nat) (st : State) :
  trail st (snd (report_segments env self total i segs st))
    ((fun j => segment_progress j total) <$> seq i (length segs)).
Proof.
  revert i st. induction segs as [|segment rest IH]; intros i st;
    cbn [report_segments length seq fmap list_fmap].
  - exists []. split; [apply logged_refl | reflexivity].
  - unfold bind. step_log E1.
    + apply (trail_app _ _ _ [_] _ L (IH (S i) s)).
    + exists [report self ("📝 Transcribing: " +:+ PyStr.take 50 segment +:+ "...")
                (Some (segment_progress i total))].
      split; [exact L|]. cbn. apply prefix_cons, prefix_nil.
Qed.

Lemma transcribe_audio_trail (self : VideoProcessor) (st : State) :
  exists n,
    trail st (snd (transcribe_audio env self st)) (transcription_percentages n).
Proof.
  unfold transcribe_audio, transcription_percentages. run_stage.
  step_log E1; [|exists 0%nat; close_trail].
  destruct (load_model env) as [e|]; cbn.
  { exists 0%nat. step_log E2; close_trail. }
  destruct (transcribe env (audio_path self)) as [result|e]; cbn.
  2:{ exists 0%nat. step_log E2; close_trail. }
  exists (length (segments result)).
  pose proof (report_segments_cases env self (length (segments result))
                (segments result) 0 s) as Exact.
  pose proof (report_segments_trail self (length (segments result))
                (segments result) 0 s) as Part.
  destruct (report_segments env self (length (segments result)) 0
              (segments result) s) as [[[]|e] s1]; cbn [snd] in Part; cbn.
  - destruct Exact as [Em _]. apply emits_logged in Em. clear Part.
    assert (forall s2 rs,
              logged s1 s2 rs ->
              percentages rs = [70] ->
              trail st s2
                (55 :: ((fun i => segment_progress i (length (segments result)))
                          <$> seq 0 (length (segments result))) ++ [70]))
      as Done.
    { intros s2 rs L2 P2. eexists. split.
      - eapply logged_trans; [exact L|]. eapply logged_trans; eassumption.
      - rewrite !percentages_app, percentages_segment_reports, P2. reflexivity. }
    step_log E2; [by eapply Done|].
    step_log E3; (eapply Done; [eapply logged_trans; eassumption | reflexivity]).
  - clear Exact.
    assert (forall s2 rs,
              logged s1 s2 rs ->
              percentages rs = [] ->
              trail st s2
                (55 :: ((fun i => segment_progress i (length (segments result)))
                          <$> seq 0 (length (segments result))) ++ [70]))
      as Cut.
    { intros s2 rs L2 P2. destruct Part as (rs1 & L1 & P1).
      eexists. split.
      - eapply logged_trans; [exact L|]. eapply logged_trans; eassumption.
      - rewrite !percentages_app, P2, app_nil_r. cbn.
        apply prefix_cons. by apply prefix_app_r. }
    step_log E2; by eapply Cut.
Qed.

End Trails.

Lemma trail_same_r (a c c' : State) (plan : list Z) :
  reported c' = reported c -> outbox c' = outbox c ->
  trail a c plan -> trail a c' plan.
Proof.
  intros R O (rs & (R' & sent & O' & S) & P). exists rs. split; [|exact P].
  unfold logged. rewrite R, O, R', O'. eauto.
Qed.

Lemma snd_handled (e : exn) (st : State) : snd (handled e st) = st.
Proof. by destruct e. Qed.

Lemma process_video_trail (env : Env) (file : UploadFile) (tid : string)
    (st : State) :
  exists n,
    trail st (snd (process_video env file tid st))
      ([10; 20] ++ [30; 50] ++ transcription_percentages n ++ [80; 90]).
Proof.
  destruct (wait_for_connection_returns env 6 tid st) as (k & _ & W).
  rewrite (process_video_eq env file tid st _ W).
  destruct (asleep_frame env k st) as (_ & O0 & R0 & _).
  assert (forall c plan, trail (asleep env k st) c plan -> trail st c plan) as Start.
  { intros c plan. by apply trail_same. }
  destruct (active_connections (asleep env k st) !! tid) as [ws|].
  2:{ exists 0%nat. apply Start. exists []. split; [apply logged_refl|].
      apply prefix_nil. }
  cbv zeta. set (self := new_VideoProcessor sanitize_filename file ws tid).
  set (st0 := asleep env k st) in *.
  (* ingest *)
  pose proof (save_uploaded_video_cases env self st0) as C1.
  pose proof (save_uploaded_video_trail env self st0) as T1.
  destruct (save_uploaded_video env self st0) as [[[]|e1] st1]; cbn [snd] in T1.
  2:{ exists 0%nat. rewrite snd_handled. apply Start.
      eapply trail_weaken; [exact T1 | by apply prefix_app_r]. }
  destruct C1 as (_ & _ & Em1). apply emits_logged in Em1. clear T1.
  (* extraction *)
  pose proof (extract_audio_cases env self st1) as C2.
  pose proof (extract_audio_trail env self st1) as T2.
  destruct (extract_audio env self st1) as [[[]|e2] st2]; cbn [snd] in T2.
  2:{ exists 0%nat. rewrite snd_handled. apply Start.
      apply (trail_app _ _ _ _ _ Em1).
      eapply trail_weaken; [exact T2 | by apply prefix_app_r]. }
  destruct C2 as (_ & _ & Em2). apply emits_logged in Em2. clear T2.
  (* transcription *)
  pose proof (transcribe_audio_cases env self st2) as C3.
  destruct (transcribe_audio_trail env self st2) as (n3 & T3).
  destruct (transcribe_audio env self st2) as [[transcript|e3] st3];
    cbn [snd] in T3.
  2:{ exists n3. rewrite snd_handled. apply Start.
      apply (trail_app _ _ _ _ _ Em1), (trail_app _ _ _ _ _ Em2).
      eapply trail_weaken; [exact T3 | by apply prefix_app_r]. }
  destruct C3 as (result & _ & _ & _ & _ & Em3). apply emits_logged in Em3.
  clear T3 n3. exists (length (segments result)).
  assert (percentages
            (report self "🔄 Transcribing audio with Whisper..." (Some 55)
             :: segment_reports self (length (segments result)) 0 (segments result)
             ++ [report self "✅ Audio transcription complete." (Some 70)])
          = transcription_percentages (length (segments result))) as P3.
  { unfold report at 1.
    rewrite percentages_cons_Some, percentages_app, percentages_segment_reports.
    reflexivity. }
  (* summarization *)
  pose proof (summarize_text_trail env self transcript st3) as T4.
  assert (trail st3
            (snd (match summarize_text env self transcript st3 with
                  | (Return summary_md, st4) =>
                      (Return (SummaryResponse summary_md ("/download/" +:+ tid)),
                       with_background_tasks
                         (fun tasks => tasks ++ [rendering_task self summary_md])
                         st4)
                  | (Raise e, st') => handled e st'
                  end))
            [80; 90]) as T4'.
  { destruct (summarize_text env self transcript st3) as [[summary|e4] st4];
      cbn [snd] in T4 |- *.
    - eapply trail_same_r; [| |exact T4]; reflexivity.
    - by rewrite snd_handled. }
  apply Start.
  apply (trail_app _ _ _ _ _ Em1), (trail_app _ _ _ _ _ Em2).
  rewrite <- P3. apply (trail_app _ _ _ _ _ Em3). exact T4'.
Qed.

Lemma prefix_sublist {A} (l1 l2 : list A) : l1 `prefix_of` l2 -> sublist l1 l2.
Proof. intros [k ->]. apply sublist_inserts_r. reflexivity. Qed.

(** X16. In every run of [process_video], whether it returns the summary,
    returns an error body or raises, and whatever the transport and the
    other handlers do, the percentages reported are the first ones of the
    sequence 10, 20, 30, 50, 55, one value per segment, 70, 80, 90: they
    never decrease. The percentages delivered are a subsequence of the
    percentages reported, so they never decrease either. *)
Theorem progress_never_decreases (env : Env) (file : UploadFile) (tid : string)
    (st : State) :
  let st' := snd (process_video env file tid st) in
  let reported_now := percentages (since (length (reported st)) (reported st')) in
  let delivered_now := percentages (since (length (outbox st)) (outbox st')) in
  (exists n,
      reported_now
      `prefix_of` [10; 20] ++ [30; 50] ++ transcription_percentages n ++ [80; 90])
  /\ sublist delivered_now reported_now
  /\ StronglySorted Z.le reported_now
  /\ StronglySorted Z.le delivered_now.
Proof.
  intros st' reported_now delivered_now.
  destruct (process_video_trail env file tid st) as (n & rs & L & P).
  fold st' in L. apply logged_since in L as [Rep Del].
  fold delivered_now in Del. subst reported_now. rewrite Rep in *.
  assert (StronglySorted Z.le (percentages rs)) as Sorted.
  { eapply sublist_StronglySorted; [|apply (planned_sorted n)].
    rewrite !app_assoc. apply sublist_inserts_r.
    rewrite <- !app_assoc. by apply prefix_sublist. }
  split; [by exists n|]. split; [exact Del|]. split; [exact Sorted|].
  eapply sublist_StronglySorted; eassumption.
Qed.

(** ** [websocket_endpoint] *)

Section Handler.

Variable env : Env.

Lemma asleep_with_outbox f (n : nat) (st : State) :
  asleep env n (with_outbox f st) = with_outbox f (asleep env n st).
Proof.
  revert st. induction n as [|n IH]; intros st; [reflexivity|].
  cbn [asleep]. rewrite <- IH. reflexivity.
Qed.

Lemma asleep_add (n m : nat) (st : State) :
  asleep env (n + m) st = asleep env m (asleep env n st).
Proof. revert st. induction n as [|n IH]; intros st; [reflexivity | apply IH]. Qed.

Lemma with_outbox_twice f g (st : State) :
  with_outbox g (with_outbox f st) = with_outbox (fun box => g (f box)) st.
Proof. reflexivity. Qed.

Lemma with_outbox_ext f g (st : State) :
  f (outbox st) = g (outbox st) -> with_outbox f st = with_outbox g st.
Proof. intros H. unfold with_outbox. by rewrite H. Qed.

Lemma with_outbox_id f (st : State) :
  f (outbox st) = outbox st -> with_outbox f st = st.
Proof. destruct st. unfold with_outbox. cbn. intros H. by rewrite H. Qed.

Lemma keep_alive_step (n : nat) (ws : Channel) (st : State) :
  keep_alive env (S n) ws st
  = match transport env (S (suspensions st)) ws with
    | None =>
        keep_alive env n ws
          (with_outbox (fun box => box ++ [(ws, liveness)]) (asleep env 2 st))
    | Some e => (Raise e, asleep env 2 st)
    end.
Proof.
  cbn [keep_alive asleep]. unfold asyncio_sleep, send_json. run_stage.
  destruct (transport env (S (suspensions st)) ws); reflexivity.
Qed.

(** The loop, up to the first liveness message the transport refuses. *)
Lemma keep_alive_fails (n k : nat) (ws : Channel) (st : State) (e : exn) :
  (k < n)%nat ->
  (forall j, (j < k)%nat ->
             transport env (suspensions st + 2 * j + 1) ws = None) ->
  transport env (suspensions st + 2 * k + 1) ws = Some e ->
  keep_alive env n ws st
  = (Raise e,
     with_outbox (fun box => box ++ replicate k (ws, liveness))
       (asleep env (2 * k + 2) st)).
Proof.
  revert n st. induction k as [|k IH]; intros n st Hk D F.
  - destruct n as [|n]; [lia|]. rewrite keep_alive_step.
    replace (S (suspensions st)) with (suspensions st + 2 * 0 + 1)%nat by lia.
    rewrite F. cbn [replicate Nat.mul Nat.add]. f_equal.
    symmetry. apply with_outbox_id, app_nil_r.
  - destruct n as [|n]; [lia|]. rewrite keep_alive_step.
    replace (S (suspensions st)) with (suspensions st + 2 * 0 + 1)%nat by lia.
    rewrite (D 0%nat) by lia.
    destruct (asleep_frame env 2 st) as (_ & _ & _ & _ & Su).
    rewrite (IH n); [| lia | |].
    + f_equal. rewrite asleep_with_outbox, with_outbox_twice.
      replace (2 * S k + 2)%nat with (2 + (2 * k + 2))%nat by lia.
      rewrite (asleep_add 2 (2 * k + 2)). apply with_outbox_ext.
      by rewrite <- app_assoc.
    + intros j Hj. cbn [suspensions with_outbox]. rewrite Su.
      replace (suspensions st + 2 + 2 * j + 1)%nat
        with (suspensions st + 2 * S j + 1)%nat by lia.
      apply D. lia.
    + cbn [suspensions with_outbox]. rewrite Su.
      replace (suspensions st + 2 + 2 * k + 1)%nat
        with (suspensions st + 2 * S k + 1)%nat by lia.
      exact F.
Qed.

Lemma keep_alive_delivered (n : nat) (ws : Channel) (st : State) :
  (forall j, (j < n)%nat ->
             transport env (suspensions st + 2 * j + 1) ws = None) ->
  keep_alive env n ws st
  = (Return Looping,
     with_outbox (fun box => box ++ replicate n (ws, liveness))
       (asleep env (2 * n) st)).
Proof.
  revert st. induction n as [|n IH]; intros st D.
  - cbn. unfold ret. f_equal. symmetry. apply with_outbox_id, app_nil_r.
  - rewrite keep_alive_step.
    replace (S (suspensions st)) with (suspensions st + 2 * 0 + 1)%nat by lia.
    rewrite (D 0%nat) by lia.
    destruct (asleep_frame env 2 st) as (_ & _ & _ & _ & Su).
    rewrite IH.
    + f_equal. rewrite asleep_with_outbox, with_outbox_twice.
      replace (2 * S n)%nat with (2 + 2 * n)%nat by lia.
      rewrite (asleep_add 2 (2 * n)). apply with_outbox_ext.
      by rewrite <- app_assoc.
    + intros j Hj. cbn [suspensions with_outbox]. rewrite Su.
      replace (suspensions st + 2 + 2 * j + 1)%nat
        with (suspensions st + 2 * S j + 1)%nat by lia.
      apply D. lia.
Qed.

Lemma asleep_undisturbed (n : nat) (st : State) :
  (forall j, (j < n)%nat -> interleaving env (suspensions st + j) = []) ->
  active_connections (asleep env n st) = active_connections st.
Proof.
  revert st. induction n as [|n IH]; intros st H; [reflexivity|].
  cbn [asleep]. rewrite IH.
  - cbn. specialize (H 0%nat ltac:(lia)). rewrite Nat.add_0_r in H.
    by rewrite H.
  - intros j Hj. cbn. replace (S (suspensions st + j)) with (suspensions st + S j)%nat
      by lia. apply H. lia.
Qed.

End Handler.

(** X17. While the transport takes the liveness messages, the handler stays
    in its loop: after [n] turns it has slept and sent [n] times, the [n]
    liveness messages are what the transport accepted on its channel, in
    addition to what it had accepted before, and nothing was written to
    storage. (The handler is followed from the return of [accept].) *)
Theorem keep_alive_beats (env : Env) (n : nat) (ws : Channel) (tid : string)
    (st : State) :
  (forall j, (j < n)%nat ->
             transport env (suspensions st + 2 * j + 1) ws = None) ->
  exists st',
    websocket_endpoint env n ws tid st = (Return Looping, st')
    /\ outbox st' = outbox st ++ replicate n (ws, liveness)
    /\ suspensions st' = (suspensions st + 2 * n)%nat
    /\ storage st' = storage st
    /\ active_connections st'
       = active_connections
           (asleep env (2 * n) (with_connections (Registry.open tid ws) st)).
Proof.
  intros D. unfold websocket_endpoint. run_stage.
  change {| active_connections := Registry.open tid ws (active_connections st);
            storage := storage st; outbox := outbox st; reported := reported st;
            background_tasks := background_tasks st;
            suspensions := suspensions st |}
    with (with_connections (Registry.open tid ws) st).
  rewrite (keep_alive_delivered env n ws
             (with_connections (Registry.open tid ws) st) D).
  eexists. split; [reflexivity|].
  destruct (asleep_frame env (2 * n) (with_connections (Registry.open tid ws) st))
    as (S & O & _ & _ & Su).
  cbn [outbox with_outbox suspensions storage active_connections].
  rewrite O, Su, S. repeat split.
Qed.

Lemma keep_alive_beats_witness :
  exists st',
    websocket_endpoint Example.quiet 3 7%nat "T" Example.idle
    = (Return Looping, st')
    /\ outbox st' = replicate 3 (7%nat, liveness).
Proof.
  destruct (keep_alive_beats Example.quiet 3 7%nat "T" Example.idle)
    as (st' & E & O & _).
  - intros j _. reflexivity.
  - exists st'. split; [exact E | exact O].
Defined.

(** X18. The handler leaves its loop at the first liveness message the
    transport refuses. When the refusal is a [WebSocketDisconnect] it
    removes the entry of its task and finishes. Any other exception, a
    [RuntimeError] included, leaves the handler without the entry being
    removed: when no other handler touched the registry meanwhile, the task
    is still registered with the dead channel. (The handler is followed
    from the return of [accept].) *)
Theorem handler_exit (env : Env) (n k : nat) (ws : Channel) (tid : string)
    (st : State) (e : exn) :
  (k < n)%nat ->
  (forall j, (j < k)%nat ->
             transport env (suspensions st + 2 * j + 1) ws = None) ->
  transport env (suspensions st + 2 * k + 1) ws = Some e ->
  let before :=
    with_outbox (fun box => box ++ replicate k (ws, liveness))
      (asleep env (2 * k + 2) (with_connections (Registry.open tid ws) st)) in
  websocket_endpoint env n ws tid st
  = match e with
    | WebSocketDisconnect _ =>
        (Return Finished, with_connections (Registry.close tid) before)
    | _ => (Raise e, before)
    end
  /\ ((forall j, (j < 2 * k + 2)%nat ->
                 interleaving env (suspensions st + j) = []) ->
      active_connections before !! tid = Some ws).
Proof.
  intros Hk D F before. split.
  - unfold websocket_endpoint. run_stage.
    change {| active_connections := Registry.open tid ws (active_connections st);
              storage := storage st; outbox := outbox st; reported := reported st;
              background_tasks := background_tasks st;
              suspensions := suspensions st |}
      with (with_connections (Registry.open tid ws) st).
    rewrite (keep_alive_fails env n k ws
               (with_connections (Registry.open tid ws) st) e Hk D F).
    fold before.
    destruct e; reflexivity.
  - intros Q. subst before. cbn [active_connections with_outbox].
    rewrite asleep_undisturbed by exact Q. cbn.
    apply lookup_insert_eq.
Qed.

Lemma handler_exit_witness :
  exists st',
    websocket_endpoint Example.closed 5 7%nat "T" Example.idle
    = (Raise (RuntimeError "send after close"), st')
    /\ active_connections st' !! "T" = Some 7%nat.
Proof.
  destruct (handler_exit Example.closed 5 0 7%nat "T" Example.idle
              (RuntimeError "send after close")) as (E & Stale).
  - lia.
  - intros j Hj. lia.
  - reflexivity.
  - eexists. split; [exact E|]. apply Stale. intros j _. reflexivity.
Defined.

(** ** [main.py]: chunking *)

Lemma slice_window {A} (i m : Z) (l : list A) :
  0 <= i <= Z.of_nat (length l) -> 0 <= m ->
  Cli.slice i (i + m) l = take (Z.to_nat m) (drop (Z.to_nat i) l).
Proof.
  intros Hi Hm. unfold Cli.slice, Cli.clamp. cbv zeta.
  destruct (Z.ltb_spec i 0); [lia|].
  destruct (Z.ltb_spec (i + m) 0); [lia|].
  rewrite (Z.min_l i) by lia.
  destruct (Z.le_ge_cases (i + m) (Z.of_nat (length l))) as [Le|Ge].
  - rewrite Z.min_l by lia. f_equal. lia.
  - rewrite Z.min_r by lia.
    rewrite !take_ge; [reflexivity | | ]; rewrite length_drop; lia.
Qed.

Lemma windows_S {A} (m : nat) (l : list A) (n : nat) :
  windows m l (S n) = take m l :: windows m (drop m l) n.
Proof.
  unfold windows. cbn [seq fmap list_fmap]. rewrite Nat.mul_0_r, drop_0.
  f_equal. rewrite <- fmap_S_seq, <- list_fmap_compose.
  apply list_fmap_ext. intros _ k _. cbn. rewrite drop_drop. do 2 f_equal. lia.
Qed.

Lemma windows_concat {A} (m : nat) (l : list A) (n : nat) :
  (length l <= n * m)%nat -> concat (windows m l n) = l.
Proof.
  revert l. induction n as [|n IH]; intros l H.
  - destruct l; [reflexivity | cbn in H; lia].
  - rewrite windows_S. cbn [concat]. rewrite IH.
    + apply take_drop.
    + rewrite length_drop. lia.
Qed.

Lemma windows_lengths {A} (m : nat) (l : list A) (n : nat) :
  (0 < m)%nat -> (n * m < length l + m)%nat ->
  Forall (fun c => 1 <= length c <= m)%nat (windows m l n)
  /\ (forall i c, windows m l n !! i = Some c -> (S i < n)%nat -> length c = m).
Proof.
  intros Hm. revert l. induction n as [|n IH]; intros l H.
  - split; [constructor | intros i c Hi; discriminate Hi].
  - rewrite windows_S.
    assert (length (drop m l) = length l - m)%nat as Ld by apply length_drop.
    split.
    + constructor; [rewrite length_take; nia|].
      destruct n as [|n']; [constructor|].
      apply (IH (drop m l)). rewrite Ld. nia.
    + intros [|i] c Hi Hlt; cbn in Hi.
      * injection Hi as <-. rewrite length_take. nia.
      * destruct n as [|n']; [lia|].
        assert (S n' * m < length (drop m l) + m)%nat as Hd by (rewrite Ld; nia).
        eapply (proj2 (IH (drop m l) Hd)); [exact Hi | lia].
Qed.

Lemma windows_length {A} (m : nat) (l : list A) (n : nat) :
  length (windows m l n) = n.
Proof. unfold windows. by rewrite length_fmap, length_seq. Qed.

Lemma split_text_windows (text : string) (tokenizer : Cli.Tokenizer)
    (max_tokens : Z) :
  0 < max_tokens ->
  let tokens := Cli.encode tokenizer text in
  Cli.split_text text tokenizer max_tokens
  = Return (Cli.decode tokenizer
              <$> windows (Z.to_nat max_tokens) tokens
                    (Z.to_nat (Cli.range_length 0 (Z.of_nat (length tokens))
                                 max_tokens))).
Proof.
  intros Hm tokens. unfold Cli.split_text, Cli.range. fold tokens.
  destruct (Z.eqb_spec max_tokens 0); [lia|]. f_equal.
  unfold windows, seqZ. rewrite <- !list_fmap_compose.
  apply list_fmap_ext. intros i k Hk. cbn.
  apply lookup_seq in Hk as [Ek Hk]. cbn in Ek. subst i. f_equal.
  assert (Z.of_nat k < Cli.range_length 0 (Z.of_nat (length tokens)) max_tokens)
    as Hk' by lia.
  unfold Cli.range_length in Hk'.
  destruct (Z.ltb_spec 0 max_tokens); [|lia].
  destruct (Z.ltb_spec 0 (Z.of_nat (length tokens))); [|lia].
  assert (max_tokens * Z.of_nat k <= Z.of_nat (length tokens) - 1).
  { assert (Z.of_nat k <= (Z.of_nat (length tokens) - 0 - 1) / max_tokens) by lia.
    etrans; [apply Z.mul_le_mono_nonneg_l; [lia | eassumption]|].
    replace (Z.of_nat (length tokens) - 0 - 1) with (Z.of_nat (length tokens) - 1)
      by lia.
    apply Z.mul_div_le. lia. }
  rewrite Z.add_0_r, Z.add_0_l.
  rewrite slice_window by lia. do 2 f_equal. lia.
Qed.

Lemma range_length_bounds (len step : Z) :
  0 < step -> 0 <= len ->
  let n := Cli.range_length 0 len step in
  0 <= n /\ len <= n * step /\ n * step < len + step
  /\ n = (len + step - 1) / step.
Proof.
  intros Hs Hl n. subst n. unfold Cli.range_length.
  destruct (Z.ltb_spec 0 step); [|lia].
  destruct (Z.ltb_spec 0 len).
  - replace (len - 0 - 1) with (len - 1) by lia.
    pose proof (Z.div_mod (len - 1) step ltac:(lia)) as D.
    pose proof (Z.mod_pos_bound (len - 1) step ltac:(lia)) as M.
    assert (0 <= (len - 1) / step) by (apply Z.div_pos; lia).
    replace (len + step - 1) with ((len - 1) + 1 * step) by lia.
    rewrite Z.div_add by lia. repeat split; nia.
  - assert (len = 0) as -> by lia. rewrite Z.add_0_l.
    rewrite Z.div_small by lia. lia.
Qed.

(** X19. With a positive [max_tokens], [split_text] decodes consecutive
    chunks of the token sequence: put end to end the chunks are the tokens
    of the text, nothing lost and nothing repeated; no chunk is empty, none
    has more than [max_tokens] tokens, every chunk but the last has exactly
    [max_tokens], and there are [ceil (len / max_tokens)] of them. *)
Theorem split_text_partitions (text : string) (tokenizer : Cli.Tokenizer)
    (max_tokens : Z) :
  0 < max_tokens ->
  exists chunks : list (list nat),
    Cli.split_text text tokenizer max_tokens
    = Return (Cli.decode tokenizer <$> chunks)
    /\ concat chunks = Cli.encode tokenizer text
    /\ Forall (fun c => 1 <= Z.of_nat (length c) <= max_tokens) chunks
    /\ (forall i c, chunks !! i = Some c -> (S i < length chunks)%nat ->
                    Z.of_nat (length c) = max_tokens)
    /\ Z.of_nat (length chunks)
       = (Z.of_nat (length (Cli.encode tokenizer text)) + max_tokens - 1)
         / max_tokens.
Proof.
  intros Hm. set (tokens := Cli.encode tokenizer text).
  destruct (range_length_bounds (Z.of_nat (length tokens)) max_tokens Hm
              ltac:(lia)) as (N0 & Cover & Tight & Ceil).
  set (n := Cli.range_length 0 (Z.of_nat (length tokens)) max_tokens) in *.
  exists (windows (Z.to_nat max_tokens) tokens (Z.to_nat n)).
  split; [apply split_text_windows; exact Hm|].
  destruct (windows_lengths (Z.to_nat max_tokens) tokens (Z.to_nat n))
    as [Sizes Full]; [lia | nia|].
  split; [apply windows_concat; nia|]. split.
  - eapply Forall_impl; [exact Sizes|]. cbn. intros c Hc. lia.
  - split.
    + intros i c Hi Hlt. rewrite windows_length in Hlt.
      rewrite (Full i c Hi Hlt). lia.
    + rewrite windows_length. lia.
Qed.

Lemma split_text_partitions_witness :
  exists chunks : list (list nat),
    Cli.split_text "abcdefghij" Example.characters 4
    = Return (Cli.decode Example.characters <$> chunks)
    /\ concat chunks = Cli.encode Example.characters "abcdefghij"
    /\ Z.of_nat (length chunks) = 3.
Proof.
  destruct (split_text_partitions "abcdefghij" Example.characters 4)
    as (chunks & E & C & _ & _ & N); [lia|].
  exists chunks. split; [exact E|]. split; [exact C|]. rewrite N. reflexivity.
Defined.

(** X20. The edges of [split_text]: a [max_tokens] of zero raises the
    [ValueError] of [range]; a negative [max_tokens] returns no chunk at
    all, whatever the text, so that the text is lost; a text without tokens
    gives no chunk. *)
Theorem split_text_edges (text : string) (tokenizer : Cli.Tokenizer)
    (max_tokens : Z) :
  Cli.split_text text tokenizer 0
  = Raise (OtherError "range() arg 3 must not be zero")
  /\ (max_tokens < 0 -> Cli.split_text text tokenizer max_tokens = Return [])
  /\ (max_tokens <> 0 -> Cli.encode tokenizer text = [] ->
      Cli.split_text text tokenizer max_tokens = Return []).
Proof.
  split; [reflexivity|]. split.
  - intros H. unfold Cli.split_text, Cli.range, Cli.range_length.
    destruct (Z.eqb_spec max_tokens 0); [lia|].
    destruct (Z.ltb_spec 0 max_tokens); [lia|].
    destruct (Z.ltb_spec (Z.of_nat (length (Cli.encode tokenizer text))) 0);
      [lia | reflexivity].
  - intros H E. unfold Cli.split_text, Cli.range, Cli.range_length. rewrite E.
    destruct (Z.eqb_spec max_tokens 0); [lia|].
    destruct (0 <? max_tokens); reflexivity.
Qed.

Lemma split_text_edges_witness :
  Cli.split_text "abcdefghij" Example.characters (-4) = Return [].
Proof.
  destruct (split_text_edges "abcdefghij" Example.characters (-4))
    as (_ & Negative & _).
  apply Negative. lia.
Defined.

(** ** [main.py]: summarizing and the script *)

Lemma summarize_chunks_eq (env : Cli.Setting) (chunks summaries : list string)
    (w : Cli.World) :
  Cli.summarize_chunks env chunks summaries w
  = (Return (summaries ++ (Cli.piece env <$> chunks)),
     Cli.with_console (fun out => out ++ omap (Cli.complaint env) chunks) w).
Proof.
  revert summaries w. induction chunks as [|chunk rest IH]; intros summaries w.
  - cbn [Cli.summarize_chunks fmap list_fmap omap list_omap]. unfold Cli.ret.
    rewrite app_nil_r. f_equal. destruct w. unfold Cli.with_console. cbn.
    by rewrite app_nil_r.
  - cbn [Cli.summarize_chunks fmap list_fmap omap list_omap].
    unfold Cli.piece at 1, Cli.complaint at 1.
    destruct (Cli.summarizer env chunk) as [summary|e].
    + rewrite IH, <- app_assoc. reflexivity.
    + unfold Cli.bind, Cli.print. rewrite IH, <- app_assoc. cbn.
      unfold Cli.with_console. cbn. by rewrite <- app_assoc.
Qed.

(** X21. Once the pipeline and the tokenizer are loaded, [summarize_text]
    returns whatever the summarizer does: the summary is the pieces joined
    by single blanks, one piece per chunk in the order of the chunks, the
    piece of a chunk being what the summarizer answered or, where it
    raised, the first 300 characters of the chunk; one line is printed per
    chunk it raised on, and no file is touched. *)
Theorem summarize_text_falls_back (env : Cli.Setting) (text : string)
    (tokenizer : Cli.Tokenizer) (w : Cli.World) :
  Cli.load_pipeline env = None ->
  Cli.load_tokenizer env = Fine tokenizer ->
  exists chunks,
    Cli.split_text text tokenizer 1024 = Return chunks
    /\ Cli.summarize_text env text w
       = (Return (Cli.join " " (Cli.piece env <$> chunks)),
          Cli.with_console
            (fun out => out ++ omap (Cli.complaint env) chunks) w).
Proof.
  intros P T.
  pose proof (split_text_windows text tokenizer 1024 ltac:(lia)) as E.
  cbv zeta in E. eexists. split; [exact E|].
  unfold Cli.summarize_text. rewrite P, T. unfold Cli.bind, Cli.lift, Cli.ret.
  rewrite E, summarize_chunks_eq. reflexivity.
Qed.

Lemma summarize_text_falls_back_witness :
  Cli.summarize_text Example.session "hello world" Example.bare
  = (Return "hello", Example.bare).
Proof.
  destruct (summarize_text_falls_back Example.session "hello world"
              Example.characters Example.bare) as (chunks & S & E);
    [reflexivity..|].
  rewrite E. vm_compute in S. injection S as <-. reflexivity.
Defined.

Lemma summarize_text_files (env : Cli.Setting) (text : string) (w w' : Cli.World)
    (o : Outcome string) :
  Cli.summarize_text env text w = (o, w') ->
  Cli.files w' = Cli.files w /\ Cli.dirs w' = Cli.dirs w.
Proof.
  unfold Cli.summarize_text, Cli.bind, Cli.lift, Cli.ret, Cli.raise.
  destruct (Cli.load_pipeline env); [intros E; by injection E as <- <-|].
  destruct (Cli.load_tokenizer env) as [tokenizer|];
    [|intros E; by injection E as <- <-].
  destruct (Cli.split_text text tokenizer 1024) as [chunks|];
    [|intros E; by injection E as <- <-].
  rewrite summarize_chunks_eq. intros E. by injection E as <- <-.
Qed.

(** X22. Given a name that does not start with [http] in any case and that
    names nothing in the working directory, the script prints that the
    local file does not exist and returns: no file is written, read or
    removed; the only change is the output directory, created if it was
    missing. (The output directory exists or can be made.) *)
Theorem missing_file_stops_script (env : Cli.Setting) (w : Cli.World) :
  PyStr.startswith "http" (Cli.lower (Cli.typed env)) = false ->
  Cli.exists_ (Cli.typed env) w = false ->
  Cli.typed env <> "downloads" ->
  (Cli.exists_ "downloads" w = false -> Cli.makedirs env "downloads" = None) ->
  exists w',
    Cli.main env w = (Return tt, w')
    /\ Cli.files w' = Cli.files w
    /\ Cli.console w'
       = Cli.console w
         ++ ["Enter video URL or local file path: "; "Local file does not exist."]
    /\ Cli.dirs w'
       = if Cli.exists_ "downloads" w then Cli.dirs w
         else {["downloads"]} ∪ Cli.dirs w.
Proof.
  intros U X N Mk. unfold Cli.main, Cli.ensure_dir, Cli.bind, Cli.print. cbn.
  rewrite U.
  unfold Cli.exists_ in *. cbn.
  apply orb_false_iff in X as [Xf Xd].
  apply bool_decide_eq_false in Xf. apply bool_decide_eq_false in Xd.
  destruct (bool_decide (is_Some (Cli.files w !! "downloads"))
            || bool_decide ("downloads" ∈ Cli.dirs w)) eqn:D; cbn.
  - rewrite (bool_decide_eq_false_2 _ Xf), (bool_decide_eq_false_2 _ Xd). cbn.
    eexists. split; [reflexivity|]. cbn. rewrite <- app_assoc. repeat split.
  - rewrite Mk by reflexivity. cbn. rewrite (bool_decide_eq_false_2 _ Xf).
    rewrite bool_decide_eq_false_2
      by (intros [H%elem_of_singleton|H]%elem_of_union; [congruence | contradiction]).
    cbn.
    eexists. split; [reflexivity|]. cbn. rewrite <- app_assoc. repeat split.
Qed.

Lemma missing_file_stops_script_witness :
  exists w',
    Cli.main Example.session Example.bare = (Return tt, w')
    /\ Cli.files w' = ∅.
Proof.
  destruct (missing_file_stops_script Example.session Example.bare)
    as (w' & E & F & _);
    [reflexivity | reflexivity | discriminate | reflexivity |].
  exists w'. split; [exact E | exact F].
Defined.

(** Making the output directory touches neither the files nor the console,
    and what existed still exists. *)
Lemma ensure_dir_frame (env : Cli.Setting) (path : string) (w w' : Cli.World)
    (o : Outcome unit) :
  Cli.ensure_dir env path w = (o, w') ->
  Cli.files w' = Cli.files w
  /\ Cli.console w' = Cli.console w
  /\ (forall other, Cli.exists_ other w = true -> Cli.exists_ other w' = true).
Proof.
  unfold Cli.ensure_dir.
  destruct (Cli.exists_ path w); [intros E; by injection E as <- <-|].
  destruct (Cli.makedirs env path); intros E; injection E as <- <-;
    [done|].
  split; [reflexivity|]. split; [reflexivity|].
  intros other X. unfold Cli.exists_ in *. cbn.
  apply orb_true_iff in X as [X|X]; apply orb_true_iff; [by left | right].
  apply bool_decide_eq_true in X. apply bool_decide_eq_true.
  apply elem_of_union. by right.
Qed.

(** The part of [main] that follows the choice of the video file. *)
Lemma script_tail_returns (env : Cli.Setting) (video_file : string)
    (w0 w' : Cli.World) :
  Cli.process env video_file "downloads" w0
  = (Return tt, w') ->
  exists transcript summary audio w1 w2,
    Cli.whisper env "downloads/audio.mp3" = Fine transcript
    /\ Cli.summarize_text env transcript w1 = (Return summary, w2)
    /\ Cli.files w' !! "downloads/audio.mp3" = Some (Cli.Binary audio)
    /\ Cli.files w' !! "downloads/transcript.txt" = Some (Cli.Text transcript)
    /\ Cli.files w' !! "downloads/summary.txt" = Some (Cli.Text summary)
    /\ last (Cli.console w')
       = Some "✅ Transcript and summary saved in downloads".
Proof.
  unfold Cli.process. cbv zeta.
  change (os_path_join "downloads" "audio.mp3") with "downloads/audio.mp3".
  change (os_path_join "downloads" "transcript.txt")
    with "downloads/transcript.txt".
  change (os_path_join "downloads" "summary.txt") with "downloads/summary.txt".
  unfold Cli.bind at 1, Cli.extract_audio, Cli.bind at 1, Cli.write_blob, Cli.ret.
  destruct (Cli.clip_audio env video_file "downloads/audio.mp3")
    as [audio|[part|] e]; [|discriminate|discriminate].
  unfold Cli.bind at 1, Cli.transcribe_audio, Cli.lift.
  destruct (Cli.whisper env "downloads/audio.mp3") as [transcript|e];
    [|discriminate].
  unfold Cli.ret, Cli.bind at 1, Cli.write_text.
  destruct (Cli.open_w env "downloads/transcript.txt"); [discriminate|].
  unfold Cli.bind at 1.
  destruct (Cli.summarize_text env transcript _) as [[summary|e] w2] eqn:Sm;
    [|discriminate].
  apply summarize_text_files in Sm as Fr. destruct Fr as [Fr _].
  unfold Cli.bind at 1.
  destruct (Cli.open_w env "downloads/summary.txt"); [discriminate|].
  unfold Cli.print.
  change ("✅ Transcript and summary saved in" +:+ " " +:+ "downloads")
    with "✅ Transcript and summary saved in downloads".
  intros E. injection E as <-.
  exists transcript, summary, audio. eexists _, w2.
  split; [reflexivity|]. split; [exact Sm|]. cbn. rewrite Fr. cbn.
  split; [by rewrite !lookup_insert_ne by discriminate; rewrite lookup_insert_eq|].
  split; [by rewrite lookup_insert_ne by discriminate; rewrite lookup_insert_eq|].
  split; [by rewrite lookup_insert_eq|]. apply last_snoc.
Qed.

(** X23. A run of the script that returns is one of two: either it printed
    that the local file does not exist and wrote no file, or the audio, the
    transcript and the summary are in the output directory, the transcript
    file holding what Whisper returned for the audio file and the summary
    file holding what [summarize_text] returned for that transcript, and
    the last line printed is the success line. *)
Theorem script_returns (env : Cli.Setting) (w w' : Cli.World) :
  Cli.main env w = (Return tt, w') ->
  (Cli.files w' = Cli.files w
   /\ last (Cli.console w') = Some "Local file does not exist.")
  \/ (exists transcript summary audio w1 w2,
         Cli.whisper env "downloads/audio.mp3" = Fine transcript
         /\ Cli.summarize_text env transcript w1 = (Return summary, w2)
         /\ Cli.files w' !! "downloads/audio.mp3" = Some (Cli.Binary audio)
         /\ Cli.files w' !! "downloads/transcript.txt" = Some (Cli.Text transcript)
         /\ Cli.files w' !! "downloads/summary.txt" = Some (Cli.Text summary)
         /\ last (Cli.console w')
            = Some "✅ Transcript and summary saved in downloads").
Proof.
  unfold Cli.main. unfold Cli.bind at 1, Cli.print.
  set (w1 := Cli.with_console _ w).
  unfold Cli.bind at 1.
  destruct (Cli.ensure_dir env "downloads" w1) as [[[]|e] w2] eqn:Ed;
    [|discriminate].
  apply ensure_dir_frame in Ed as (F2 & _).
  change (Cli.files w1) with (Cli.files w) in F2.
  unfold Cli.bind at 1.
  destruct (PyStr.startswith "http" (Cli.lower (Cli.typed env))).
  - unfold Cli.bind at 1, Cli.download_video, Cli.lift, Cli.ret, Cli.raise.
    unfold Cli.bind at 1.
    destruct (Cli.youtube env (Cli.typed env)) as [name|e]; [|discriminate].
    unfold Cli.bind at 1, Cli.write_blob.
    destruct (Cli.fetch env (Cli.typed env) _) as [video|[part|] e];
      [|discriminate|discriminate].
    intros E. right. eapply script_tail_returns. exact E.
  - destruct (Cli.exists_ (Cli.typed env) w2).
    + intros E. right. eapply script_tail_returns. exact E.
    + intros E. injection E as <-. left. cbn. split; [exact F2|].
      apply last_snoc.
Qed.

Lemma script_returns_witness :
  Cli.files (snd (Cli.main Example.session Example.desk))
  !! "downloads/transcript.txt"
  = Some (Cli.Text "hello world").
Proof.
  destruct (script_returns Example.session Example.desk
              (snd (Cli.main Example.session Example.desk)))
    as [[F _]|(transcript & summary & audio & w1 & w2 & W & _ & _ & T & _)].
  - vm_compute. reflexivity.
  - exfalso. vm_compute in F. discriminate F.
  - injection W as <-. exact T.
Defined.

(** [main] for a local file that exists. *)
Lemma main_local (env : Cli.Setting) (w : Cli.World) :
  PyStr.startswith "http" (Cli.lower (Cli.typed env)) = false ->
  Cli.exists_ (Cli.typed env) w = true ->
  (Cli.exists_ "downloads" w = false -> Cli.makedirs env "downloads" = None) ->
  exists w2,
    Cli.files w2 = Cli.files w
    /\ Cli.main env w = Cli.process env (Cli.typed env) "downloads" w2.
Proof.
  intros U X Mk. unfold Cli.main. unfold Cli.bind at 1, Cli.print.
  set (w1 := Cli.with_console _ w).
  unfold Cli.bind at 1. rewrite U.
  destruct (Cli.ensure_dir env "downloads" w1) as [o w2] eqn:Ed.
  pose proof Ed as Fr. apply ensure_dir_frame in Fr as (F2 & _ & Keep).
  assert (o = Return tt) as ->.
  { unfold Cli.ensure_dir in Ed.
    change (Cli.exists_ "downloads" w1) with (Cli.exists_ "downloads" w) in Ed.
    destruct (Cli.exists_ "downloads" w); [by injection Ed as <-|].
    rewrite Mk in Ed by reflexivity. by injection Ed as <-. }
  exists w2. split; [exact F2|]. unfold Cli.bind.
  by rewrite (Keep _ X).
Qed.

(** X24. The script writes its outputs in order and stops at the first
    failure, for a local file that exists and whose audio is extracted:
    when Whisper raises, the script raises the same exception and neither
    the transcript nor the summary is written; when the summarization
    pipeline cannot be loaded, the transcript is already written and the
    summary is not. (The output directory exists or can be made.) *)
Theorem script_stops_at_failure (env : Cli.Setting) (w : Cli.World)
    (audio : bytes) (e : exn) :
  PyStr.startswith "http" (Cli.lower (Cli.typed env)) = false ->
  Cli.exists_ (Cli.typed env) w = true ->
  (Cli.exists_ "downloads" w = false -> Cli.makedirs env "downloads" = None) ->
  Cli.clip_audio env (Cli.typed env) "downloads/audio.mp3" = Written audio ->
  (Cli.whisper env "downloads/audio.mp3" = Fails e ->
   exists w',
     Cli.main env w = (Raise e, w')
     /\ Cli.files w' = <["downloads/audio.mp3" := Cli.Binary audio]> (Cli.files w))
  /\ (forall transcript,
         Cli.whisper env "downloads/audio.mp3" = Fine transcript ->
         Cli.open_w env "downloads/transcript.txt" = None ->
         Cli.load_pipeline env = Some e ->
         exists w',
           Cli.main env w = (Raise e, w')
           /\ Cli.files w'
              = <["downloads/transcript.txt" := Cli.Text transcript]>
                  (<["downloads/audio.mp3" := Cli.Binary audio]> (Cli.files w))).
Proof.
  intros U X Mk A. destruct (main_local env w U X Mk) as (w2 & F2 & ->).
  unfold Cli.process. cbv zeta.
  change (os_path_join "downloads" "audio.mp3") with "downloads/audio.mp3".
  change (os_path_join "downloads" "transcript.txt")
    with "downloads/transcript.txt".
  unfold Cli.bind, Cli.extract_audio, Cli.write_blob, Cli.transcribe_audio,
    Cli.write_text, Cli.summarize_text, Cli.lift, Cli.ret, Cli.raise.
  rewrite A. split.
  - intros ->. eexists. split; [reflexivity|]. cbn. by rewrite F2.
  - intros transcript -> -> ->. eexists. split; [reflexivity|]. cbn.
    by rewrite F2.
Qed.

Lemma script_stops_at_failure_witness :
  exists w',
    Cli.main Example.deaf_session Example.desk
    = (Raise (OtherError "out of memory"), w')
    /\ Cli.files w' !! "downloads/transcript.txt" = None.
Proof.
  destruct (script_stops_at_failure Example.deaf_session Example.desk
              [Byte.x4d; Byte.x50; Byte.x33] (OtherError "out of memory"))
    as (Deaf & _); [reflexivity..|].
  destruct Deaf as (w' & E & F); [reflexivity|].
  exists w'. split; [exact E|]. rewrite F. reflexivity.
Defined.

(** X25. A name that starts with [http], in capitals or not, is taken for a
    URL even when it names a file of the working directory: the script
    asks pytube for it and, when pytube raises before the download, raises
    in turn without having written any file. (The output directory exists
    or can be made.) *)
Theorem http_prefix_means_download (env : Cli.Setting) (w : Cli.World) (e : exn) :
  PyStr.startswith "http" (Cli.lower (Cli.typed env)) = true ->
  (Cli.exists_ "downloads" w = false -> Cli.makedirs env "downloads" = None) ->
  Cli.youtube env (Cli.typed env) = Fails e ->
  exists w',
    Cli.main env w = (Raise e, w')
    /\ Cli.files w' = Cli.files w.
Proof.
  intros U Mk Y. unfold Cli.main. unfold Cli.bind at 1, Cli.print.
  set (w1 := Cli.with_console _ w).
  unfold Cli.bind at 1. rewrite U.
  destruct (Cli.ensure_dir env "downloads" w1) as [o w2] eqn:Ed.
  pose proof Ed as Fr. apply ensure_dir_frame in Fr as (F2 & _).
  assert (o = Return tt) as ->.
  { unfold Cli.ensure_dir in Ed.
    change (Cli.exists_ "downloads" w1) with (Cli.exists_ "downloads" w) in Ed.
    destruct (Cli.exists_ "downloads" w); [by injection Ed as <-|].
    rewrite Mk in Ed by reflexivity. by injection Ed as <-. }
  unfold Cli.bind, Cli.download_video, Cli.bind, Cli.lift, Cli.raise.
  rewrite Y. exists w2. split; [reflexivity | exact F2].
Qed.

Lemma http_prefix_means_download_witness :
  Cli.exists_ "HTTP-basics.mp4" Example.misnamed_desk = true
  /\ exists w',
       Cli.main Example.misnamed_session Example.misnamed_desk
       = (Raise (OtherError "no network"), w').
Proof.
  split; [reflexivity|].
  destruct (http_prefix_means_download Example.misnamed_session
              Example.misnamed_desk (OtherError "no network"))
    as (w' & E & _); [reflexivity..|].
  exists w'. exact E.
Defined.

(** ** [main_openai.py]: transcription *)

(** X26. The [transcribe_audio] of [main_openai.py] makes two reports,
    whatever the number of segments Whisper returns: when the model is
    loaded and Whisper answers, it returns the text having reported 55 and
    70 and nothing between; when one of them raises, it reports the opening
    message and the failure message and raises the [HTTPException] with
    status 500. No file is written either way. (The transport raises
    nothing but disconnects.) *)
Theorem openai_transcription_reports_twice (env : Env) (self : VideoProcessor)
    (st : State) :
  benign env ->
  exists st',
    storage st' = storage st
    /\ match load_model env, transcribe env (audio_path self) with
       | None, Fine result =>
           OpenAI.transcribe_audio env self st = (Return (text result), st')
           /\ reported st'
              = reported st
                ++ [report self "🔄 Transcribing audio with Whisper..." (Some 55);
                    report self "✅ Audio transcription complete." (Some 70)]
       | Some cause, _ | None, Fails cause =>
           OpenAI.transcribe_audio env self st
           = (Raise (HTTPException 500 ("Transcription failed: " +:+ str cause)),
              st')
           /\ reported st'
              = reported st
                ++ [report self "🔄 Transcribing audio with Whisper..." (Some 55);
                    report self ("❌ Transcription failed: " +:+ str cause) None]
       end.
Proof.
  intros B. unfold OpenAI.transcribe_audio. run_stage.
  step_report E1; [|settle].
  destruct (load_model env) as [e|]; cbn.
  { step_report E2; [|settle]. eexists. split; [|split; [reflexivity|]]; settle. }
  destruct (transcribe env (audio_path self)) as [result|e]; cbn.
  - step_report E2; [|settle].
    eexists. split; [|split; [reflexivity|]]; settle.
  - step_report E2; [|settle].
    eexists. split; [|split; [reflexivity|]]; settle.
Qed.

Lemma openai_transcription_reports_twice_witness :
  exists st',
    OpenAI.transcribe_audio Example.quiet
      (new_VideoProcessor sanitize_filename_openai Example.upload 7%nat "T")
      Example.watched
    = (Return "hello world", st')
    /\ percentages (reported st') = [55; 70].
Proof.
  destruct (openai_transcription_reports_twice Example.quiet
              (new_VideoProcessor sanitize_filename_openai Example.upload 7%nat "T")
              Example.watched) as (st' & _ & H).
  - intros k ws e H. discriminate H.
  - cbv beta iota delta [Example.quiet load_model transcribe] in H.
    destruct H as [E R]. exists st'. split; [exact E|]. rewrite R. reflexivity.
Defined.
